(** * A shallow embedding of the [vcs] snapshot engine (src/main.go)

    The program is a single Go file.  Its state is the file system below
    the working directory, its inputs are the command-line arguments and
    the clock, its outputs are the lines it prints and whether it ended
    through [log.Fatal].

    Layout of this development:
    - [Strings], [Filepath], [Fmt], [Sha256]: the Go library functions
      the program calls, on byte strings;
    - [Os]: a file system as a finite map from cleaned paths to nodes;
    - [Vcs]: the functions of main.go, one definition per Go function,
      in a state-and-failure monad;
    - the vocabulary of the statements, and two worked runs;
    - the lemmas and the theorems about them. *)

From Stdlib Require Import ZArith String Ascii List Lia DecimalString.
From stdpp Require Import gmap strings list fin_maps sorting.

Open Scope string_scope.
Open Scope Z_scope.

(** A Go [string] and a Go [[]byte] are both sequences of bytes: both are
    modelled by [string], whose characters are the 256 byte values. *)

Notation "c ::: s" := (String c s) (at level 60, right associativity).

(** The line feed, Go's ['\n'] and ["\n"]. *)
Definition LF : ascii := ascii_of_nat 10.
Definition nl : string := LF ::: EmptyString.

(** [noChar c s]: the byte [c] does not occur in [s]. *)
Fixpoint noChar (c : ascii) (s : string) : bool :=
  match s with
  | EmptyString => true
  | d ::: s' => negb (Ascii.eqb d c) && noChar c s'
  end.

(* ================================================================== *)
(** ** Package [strings] *)
(* ================================================================== *)

Module Strings.

(** [stripPrefix s p] is [Some rest] when [s = p ++ rest]. *)
Fixpoint stripPrefix (s p : string) {struct p} : option string :=
  match p with
  | EmptyString => Some s
  | c ::: p' =>
      match s with
      | EmptyString => None
      | d ::: s' => if Ascii.eqb c d then stripPrefix s' p' else None
      end
  end.

(** [strings.HasPrefix(s, prefix)] *)
Definition HasPrefix (s p : string) : bool :=
  match stripPrefix s p with Some _ => true | None => false end.

(** [strings.TrimPrefix(s, prefix)]: [s] without the leading [prefix],
    or [s] itself when it does not start with it. *)
Definition TrimPrefix (s p : string) : string :=
  match stripPrefix s p with Some r => r | None => s end.

(** [strings.Split(s, sep)] for a non-empty separator (the program only
    splits at "\n" and "\n\n"): the pieces between the leftmost
    non-overlapping occurrences of [sep]; always at least one piece.
    [skip] counts the bytes of a separator still to be passed over. *)
Fixpoint splitFrom (sep : string) (skip : nat) (s : string) : list string :=
  match s with
  | EmptyString => [EmptyString]
  | c ::: s' =>
      match skip with
      | S k => splitFrom sep k s'
      | O =>
          match stripPrefix s sep with
          | Some _ => EmptyString :: splitFrom sep (Nat.pred (String.length sep)) s'
          | None =>
              match splitFrom sep O s' with
              | piece :: rest => (c ::: piece) :: rest
              | [] => [c ::: EmptyString]
              end
          end
      end
  end.

Definition Split (s sep : string) : list string := splitFrom sep O s.

(** [strings.Join(elems, sep)] *)
Fixpoint Join (elems : list string) (sep : string) : string :=
  match elems with
  | [] => EmptyString
  | [e] => e
  | e :: rest => e +:+ sep +:+ Join rest sep
  end.

(** White space as [unicode.IsSpace] sees it in a byte string: the six
    ASCII characters, and the UTF-8 encodings of U+0085, U+00A0, U+1680,
    U+2000..U+200A, U+2028, U+2029, U+202F, U+205F and U+3000. *)
Definition asciiSpace (c : ascii) : bool :=
  let n := nat_of_ascii c in
  ((9 <=? n) && (n <=? 13))%nat || (n =? 32)%nat.

Definition space2 (c d : ascii) : bool :=
  (nat_of_ascii c =? 194)%nat
  && ((nat_of_ascii d =? 133)%nat || (nat_of_ascii d =? 160)%nat).

Definition space3 (c d e : ascii) : bool :=
  let c := nat_of_ascii c in
  let d := nat_of_ascii d in
  let e := nat_of_ascii e in
  ((c =? 225) && (d =? 154) && (e =? 128))%nat
  || ((c =? 226) && (d =? 128)
      && (((128 <=? e) && (e <=? 138)) || (e =? 168) || (e =? 169) || (e =? 175)))%nat
  || ((c =? 226) && (d =? 129) && (e =? 159))%nat
  || ((c =? 227) && (d =? 128) && (e =? 128))%nat.

(** [strings.TrimLeftFunc(s, unicode.IsSpace)] *)
Fixpoint trimLeft (s : string) : string :=
  match s with
  | EmptyString => EmptyString
  | c ::: s1 =>
      if asciiSpace c then trimLeft s1
      else
        match s1 with
        | d ::: s2 =>
            if space2 c d then trimLeft s2
            else
              match s2 with
              | e ::: s3 => if space3 c d e then trimLeft s3 else s
              | EmptyString => s
              end
        | EmptyString => s
        end
  end.

Fixpoint rev (s : string) : string :=
  match s with
  | EmptyString => EmptyString
  | c ::: s' => rev s' +:+ (c ::: EmptyString)
  end.

(** The same scan from the end, on the reversed string (the bytes of a
    multi-byte space then come last byte first). *)
Fixpoint trimLeftRev (s : string) : string :=
  match s with
  | EmptyString => EmptyString
  | c ::: s1 =>
      if asciiSpace c then trimLeftRev s1
      else
        match s1 with
        | d ::: s2 =>
            if space2 d c then trimLeftRev s2
            else
              match s2 with
              | e ::: s3 => if space3 e d c then trimLeftRev s3 else s
              | EmptyString => s
              end
        | EmptyString => s
        end
  end.

(** [strings.TrimRightFunc(s, unicode.IsSpace)] *)
Definition trimRight (s : string) : string := rev (trimLeftRev (rev s)).

(** [strings.TrimSpace(s)] *)
Definition TrimSpace (s : string) : string := trimRight (trimLeft s).

End Strings.

(* ================================================================== *)
(** ** Package [path/filepath] (Unix) *)
(* ================================================================== *)

Module Filepath.

(** One step of [Clean]'s scan, on the stack of elements kept so far
    (last element first): empty and "." elements are dropped, ".."
    removes the element before it, or is kept in front of a relative
    path that has nothing left to remove. *)
Definition cleanStep (rooted : bool) (stack : list string) (elem : string)
  : list string :=
  if String.eqb elem "" then stack
  else if String.eqb elem "." then stack
  else if String.eqb elem ".." then
    match stack with
    | top :: below => if String.eqb top ".." then elem :: stack else below
    | [] => if rooted then stack else [elem]
    end
  else elem :: stack.

(** [filepath.Clean(path)] *)
Definition Clean (path : string) : string :=
  match path with
  | EmptyString => "."
  | c ::: _ =>
      let rooted := Ascii.eqb c "/" in
      let stack := fold_left (cleanStep rooted) (Strings.Split path "/") [] in
      let body := Strings.Join (List.rev stack) "/" in
      if rooted then "/" +:+ body
      else if String.eqb body "" then "." else body
  end.

(** [filepath.Join(elem...)]: leading empty elements are ignored, the
    rest is joined with "/" and cleaned; all elements empty gives the
    empty string. *)
Fixpoint Join (elem : list string) : string :=
  match elem with
  | [] => EmptyString
  | e :: rest =>
      if String.eqb e "" then Join rest else Clean (Strings.Join elem "/")
  end.

(** Everything up to and including the last "/" of [path]. *)
Fixpoint dirPrefix (path : string) : string :=
  match path with
  | EmptyString => EmptyString
  | c ::: rest =>
      match dirPrefix rest with
      | EmptyString => if Ascii.eqb c "/" then "/" else EmptyString
      | d => c ::: d
      end
  end.

(** [filepath.Dir(path)] *)
Definition Dir (path : string) : string := Clean (dirPrefix path).

(** The last element of a cleaned path. *)
Definition lastElem (path : string) : string :=
  List.last (Strings.Split path "/") EmptyString.

End Filepath.

(* ================================================================== *)
(** ** Package [fmt]: the two verbs the program uses *)
(* ================================================================== *)

Module Fmt.

(** [fmt.Sprintf("%d", n)] *)
Definition Sprintd (n : Z) : string := NilZero.string_of_int (Z.to_int n).

Definition hexchars : list ascii :=
  list_ascii_of_string "0123456789abcdef".

Definition hexdigit (n : Z) : ascii :=
  nth (Z.to_nat (n mod 16)) hexchars "0"%char.

(** [fmt.Sprintf("%x", b)] on a byte slice: two lower-case digits a byte. *)
Fixpoint Sprintx (b : list Z) : string :=
  match b with
  | [] => EmptyString
  | x :: rest => hexdigit (x / 16) ::: hexdigit x ::: Sprintx rest
  end.

End Fmt.

(* ================================================================== *)
(** ** Package [crypto/sha256] (FIPS 180-4), on 32-bit words held in [Z] *)
(* ================================================================== *)

Module Sha256.

Definition w32 (x : Z) : Z := x mod 2 ^ 32.
Definition add32 (x y : Z) : Z := w32 (x + y).
Definition rotr (n x : Z) : Z :=
  Z.lor (Z.shiftr x n) (w32 (Z.shiftl x (32 - n))).
Definition not32 (x : Z) : Z := Z.lxor x (2 ^ 32 - 1).

Definition Ch (x y z : Z) : Z := Z.lxor (Z.land x y) (Z.land (not32 x) z).
Definition Maj (x y z : Z) : Z :=
  Z.lxor (Z.lxor (Z.land x y) (Z.land x z)) (Z.land y z).
Definition bsig0 (x : Z) : Z := Z.lxor (Z.lxor (rotr 2 x) (rotr 13 x)) (rotr 22 x).
Definition bsig1 (x : Z) : Z := Z.lxor (Z.lxor (rotr 6 x) (rotr 11 x)) (rotr 25 x).
Definition ssig0 (x : Z) : Z := Z.lxor (Z.lxor (rotr 7 x) (rotr 18 x)) (Z.shiftr x 3).
Definition ssig1 (x : Z) : Z := Z.lxor (Z.lxor (rotr 17 x) (rotr 19 x)) (Z.shiftr x 10).

(** The constants of the standard: the fractional parts, to 32 bits,
    of the cube roots of the first 64 primes and of the square roots of
    the first 8. *)
Definition isPrime (n : Z) : bool :=
  forallb (fun d => negb (n mod Z.of_nat d =? 0)) (seq 2 (Z.to_nat n - 2)).

Definition primes : list Z :=
  Eval vm_compute in List.filter isPrime (List.map Z.of_nat (seq 2 310)).

(** The integer cube root, by bisection between [lo] and [hi]. *)
Fixpoint cbrtBetween (fuel : nat) (lo hi n : Z) : Z :=
  match fuel with
  | O => lo
  | S fuel' =>
      if hi - lo <=? 1 then lo
      else
        let mid := (lo + hi) / 2 in
        if mid * mid * mid <=? n then cbrtBetween fuel' mid hi n
        else cbrtBetween fuel' lo mid n
  end.

Definition K : list Z :=
  Eval vm_compute in
    List.map (fun p => w32 (cbrtBetween 64 0 (2 ^ 40) (p * 2 ^ 96))) primes.

Record digest := Digest
  { h0 : Z; h1 : Z; h2 : Z; h3 : Z; h4 : Z; h5 : Z; h6 : Z; h7 : Z }.

Definition frac_sqrt (p : Z) : Z := w32 (Z.sqrt (p * 2 ^ 64)).

Definition init : digest :=
  Eval vm_compute in
    Digest (frac_sqrt 2) (frac_sqrt 3) (frac_sqrt 5) (frac_sqrt 7)
           (frac_sqrt 11) (frac_sqrt 13) (frac_sqrt 17) (frac_sqrt 19).

(** The message with its padding: a 1 bit, zeros up to 56 modulo 64
    bytes, and the bit length as a 64-bit big-endian number. *)
Definition be_bytes (width : nat) (x : Z) : list Z :=
  map (fun i => (x / 2 ^ (8 * Z.of_nat i)) mod 256) (List.rev (seq 0 width)).

Definition pad (msg : list Z) : list Z :=
  let len := Z.of_nat (List.length msg) in
  let zeros := Z.to_nat ((55 - len) mod 64) in
  msg ++ [128] ++ repeat 0 zeros ++ be_bytes 8 (8 * len).

Fixpoint be_words (n : nat) (bytes : list Z) : list Z :=
  match n, bytes with
  | S n', a :: b :: c :: d :: rest =>
      (((a * 256 + b) * 256 + c) * 256 + d) :: be_words n' rest
  | _, _ => []
  end.

(** The message schedule, most recent word first. *)
Fixpoint extend (n : nat) (ws : list Z) : list Z :=
  match n with
  | O => ws
  | S n' =>
      let w := add32 (add32 (ssig1 (nth 1 ws 0)) (nth 6 ws 0))
                     (add32 (ssig0 (nth 14 ws 0)) (nth 15 ws 0)) in
      extend n' (w :: ws)
  end.

Definition schedule (block : list Z) : list Z :=
  List.rev (extend 48 (List.rev (be_words 16 block))).

Definition round (s : digest) (kw : Z * Z) : digest :=
  let '(Digest a b c d e f g h) := s in
  let t1 := add32 (add32 (add32 h (bsig1 e)) (add32 (Ch e f g) (fst kw))) (snd kw) in
  let t2 := add32 (bsig0 a) (Maj a b c) in
  Digest (add32 t1 t2) a b c (add32 d t1) e f g.

Definition compress (s : digest) (block : list Z) : digest :=
  let '(Digest a b c d e f g h) := fold_left round (combine K (schedule block)) s in
  Digest (add32 (h0 s) a) (add32 (h1 s) b) (add32 (h2 s) c) (add32 (h3 s) d)
         (add32 (h4 s) e) (add32 (h5 s) f) (add32 (h6 s) g) (add32 (h7 s) h).

Fixpoint blocks (n : nat) (s : digest) (bytes : list Z) : digest :=
  match n with
  | O => s
  | S n' => blocks n' (compress s (firstn 64 bytes)) (skipn 64 bytes)
  end.

Definition bytes_of_string (s : string) : list Z :=
  map (fun c => Z.of_nat (nat_of_ascii c)) (list_ascii_of_string s).

(** [sha256.Sum256]: the 32 bytes of the digest. *)
Definition Sum (content : string) : list Z :=
  let padded := pad (bytes_of_string content) in
  let '(Digest a b c d e f g h) :=
    blocks (List.length padded / 64) init padded in
  be_bytes 4 a ++ be_bytes 4 b ++ be_bytes 4 c ++ be_bytes 4 d
  ++ be_bytes 4 e ++ be_bytes 4 f ++ be_bytes 4 g ++ be_bytes 4 h.

End Sha256.

(* ================================================================== *)
(** ** Package [os]: the file system *)
(* ================================================================== *)

(** The file system is a finite map from cleaned paths, relative to the
    working directory of the process, to nodes.  A path names the node at
    its lexically cleaned form (no symbolic links): this is what the
    kernel does for a cleaned path, and the paths the program builds
    with [filepath.Join] are cleaned; for a path typed with a trailing
    "/" or with ".." after a name the kernel can fail where the cleaned
    path resolves, and statements about typed paths say that the path is
    cleaned where it matters.  The working
    directory ".", the root "/" and every path ending in ".." always are
    directories.  The program never removes a node, and a node is only
    created inside an existing directory, so a map that starts as a tree
    stays one.  Where nothing is at a path, [os.Stat] tells a path that
    leads through a regular file (ENOTDIR) from a path that is missing
    (ENOENT): [os.IsNotExist] holds of the second only. *)

Module Os.

Inductive node : Type :=
| File (data : string)
| Dir.

(** A Go [error]: the system errors the model raises, and the errors
    the program makes with [errors.New]. *)
Inductive error : Type :=
| ENOENT | EISDIR | ENOTDIR | EEXIST
| errorsNew (text : string).

(** A Go result pair [(value, err)]. *)
Inductive result (A : Type) : Type :=
| Ok (a : A)
| Err (e : error).
Arguments Ok {A} a.
Arguments Err {A} e.

Abbreviation FS := (gmap string node).

Definition key (path : string) : string := Filepath.Clean path.

Definition alwaysDir (k : string) : bool :=
  String.eqb k "." || String.eqb k "/" || String.eqb (Filepath.lastElem k) "..".

Definition lookup (fs : FS) (path : string) : option node :=
  if String.eqb path "" then None
  else if alwaysDir (key path) then Some Dir
  else fs !! key path.

(** The nearest node above [path] is a regular file.  Each step up
    removes one element of the path, so the length of the path bounds
    the recursion. *)
Fixpoint belowFile (fuel : nat) (fs : FS) (path : string) : bool :=
  match fuel with
  | O => false
  | S fuel' =>
      match lookup fs (Filepath.Dir (key path)) with
      | Some (File _) => true
      | Some Dir => false
      | None => belowFile fuel' fs (Filepath.Dir (key path))
      end
  end.

(** [os.Stat(path)]; [os.Open(path)] succeeds and fails alike.  With
    nothing at the path the error is ENOTDIR when the path leads through
    a regular file, and ENOENT otherwise. *)
Definition Stat (fs : FS) (path : string) : result node :=
  match lookup fs path with
  | Some n => Ok n
  | None =>
      Err (if belowFile (String.length path) fs path
           then ENOTDIR else ENOENT)
  end.

(** [os.IsNotExist(err)] on the error of a result. *)
Definition IsNotExist {A : Type} (r : result A) : bool :=
  match r with
  | Err ENOENT => true
  | _ => false
  end.

(** [err != nil] on the error of a result. *)
Definition isErr {A : Type} (r : result A) : bool :=
  match r with
  | Err _ => true
  | Ok _ => false
  end.

(** [info.Size()]: the length of a regular file; 4096 stands for the
    size of a directory, which depends on the file system. *)
Definition Size (n : node) : Z :=
  match n with
  | File data => Z.of_nat (String.length data)
  | Dir => 4096
  end.

(** [os.ReadFile(path)].  A path with nothing at it gives ENOENT here
    also when it leads through a regular file: the program looks at the
    kind of a read error only in [createLog], where the write that
    follows fails for such a path, so that the run ends in [log.Fatal]
    either way. *)
Definition ReadFile (fs : FS) (path : string) : result string :=
  match lookup fs path with
  | Some (File data) => Ok data
  | Some Dir => Err EISDIR
  | None => Err ENOENT
  end.

(** A new node can be made at [path] when its directory exists. *)
Definition parentCheck (fs : FS) (path : string) : result unit :=
  if String.eqb path "" then Err ENOENT
  else
    match lookup fs (Filepath.Dir (key path)) with
    | Some Dir => Ok tt
    | Some (File _) => Err ENOTDIR
    | None => Err ENOENT
    end.

(** [os.WriteFile(path, data, perm)]: create or truncate, then write. *)
Definition WriteFile (fs : FS) (path data : string) : result FS :=
  match lookup fs path with
  | Some Dir => Err EISDIR
  | Some (File _) => Ok (<[key path := File data]> fs)
  | None =>
      match parentCheck fs path with
      | Ok _ => Ok (<[key path := File data]> fs)
      | Err e => Err e
      end
  end.

(** [os.Create(path)] *)
Definition Create (fs : FS) (path : string) : result FS :=
  WriteFile fs path EmptyString.

(** [os.OpenFile(path, O_APPEND|O_CREATE|O_WRONLY, perm)] followed by
    [WriteString(data)]. *)
Definition AppendString (fs : FS) (path data : string) : result FS :=
  match lookup fs path with
  | Some Dir => Err EISDIR
  | Some (File old) => Ok (<[key path := File (old +:+ data)]> fs)
  | None =>
      match parentCheck fs path with
      | Ok _ => Ok (<[key path := File data]> fs)
      | Err e => Err e
      end
  end.

(** [os.Mkdir(path, perm)] *)
Definition Mkdir (fs : FS) (path : string) : result FS :=
  match lookup fs path with
  | Some _ => Err EEXIST
  | None =>
      match parentCheck fs path with
      | Ok _ => Ok (<[key path := Dir]> fs)
      | Err e => Err e
      end
  end.

(** [os.MkdirAll(path, perm)]: the missing directories from the top
    down.  Each step up removes one element of the path, so the length
    of the path bounds the recursion. *)
Fixpoint mkdirAll (fuel : nat) (fs : FS) (path : string) : result FS :=
  match lookup fs path with
  | Some Dir => Ok fs
  | Some (File _) => Err ENOTDIR
  | None =>
      match fuel with
      | O => Err ENOENT
      | S fuel' =>
          match mkdirAll fuel' fs (Filepath.Dir (key path)) with
          | Ok fs1 => Mkdir fs1 path
          | Err e => Err e
          end
      end
  end.

Definition MkdirAll (fs : FS) (path : string) : result FS :=
  mkdirAll (String.length path) fs path.

(** A simple file name: not empty, not "." or "..", without "/". *)
Definition simpleName (name : string) : bool :=
  negb (String.eqb name "") && negb (String.eqb name ".")
  && negb (String.eqb name "..") && noChar "/" name.

(** The node at key [k] is an entry of the directory at key [d]. *)
Definition isEntry (d k : string) : bool :=
  let name := Filepath.lastElem k in
  simpleName name && String.eqb (Filepath.Join [d; name]) k.

Definition entries (fs : FS) (d : string) : list string :=
  merge_sort String.le
    (Filepath.lastElem
       <$> filter (fun k => isEntry d k = true) (map_to_list fs).*1).

(** [os.ReadDir(path)]: the names in the directory, sorted. *)
Definition ReadDir (fs : FS) (path : string) : result (list string) :=
  match lookup fs path with
  | Some Dir => Ok (entries fs (key path))
  | Some (File _) => Err ENOTDIR
  | None => Err ENOENT
  end.

End Os.

(* ================================================================== *)
(** ** The program: src/main.go *)
(* ================================================================== *)

Module Vcs.

Import Os.

(** What a run sees and changes: the files and what was printed. *)
Record World : Type := mkWorld { files : gmap string node; stdout : string }.

(** A computation changes the world and either returns a value or ends
    the process through [log.Fatal] ([None]). *)
Definition M (A : Type) : Type := World -> World * option A.

#[global] Instance M_ret : MRet M := fun A a w => (w, Some a).

#[global] Instance M_bind : MBind M := fun A B f m w =>
  match m w with
  | (w', Some a) => f a w'
  | (w', None) => (w', None)
  end.

Definition fatal {A : Type} : M A := fun w => (w, None).

Definition Print (text : string) : M unit := fun w =>
  (mkWorld (files w) (stdout w +:+ text), Some tt).

Definition Println (text : string) : M unit := Print (text +:+ nl).

(** A system call that reads the files. *)
Definition sysRead {A : Type} (f : FS -> A) : M A := fun w =>
  (w, Some (f (files w))).

(** A system call that changes the files on success. *)
Definition sysWrite (f : FS -> result FS) : M (result unit) := fun w =>
  match f (files w) with
  | Ok fs' => (mkWorld fs' (stdout w), Some (Ok tt))
  | Err e => (w, Some (Err e))
  end.

Record Commit : Type := mkCommit
  { HashID : string; Author : string; Message : string }.

Definition configPath : string := "vcs/config.txt".
Definition indexFilePath : string := "vcs/index.txt".
Definition commitDir : string := "vcs/commits".
Definition logFilePath : string := "vcs/log.txt".

(** *** CONFIG *)

Definition doesConfigExist : M bool :=
  r ← sysRead (fun fs => Stat fs configPath);
  mret (match r with Ok _ => true | Err _ => false end).

Definition readConfig : M string :=
  r ← sysRead (fun fs => ReadFile fs configPath);
  match r with
  | Ok data => mret data
  | Err _ => fatal
  end.

Definition setupConfig (name : string) : M unit :=
  ex ← doesConfigExist;
  if ex && String.eqb name "" then
    user ← readConfig;
    Print ("The username is " +:+ user +:+ "." +:+ nl)
  else if String.eqb name "" then
    Println "Please, tell me who you are."
  else
    r ← sysWrite (fun fs => WriteFile fs configPath name);
    match r with
    | Err _ => fatal
    | Ok _ => Print ("The username is " +:+ name +:+ "." +:+ nl)
    end.

Definition handleConfig (args : list string) : M unit :=
  content ← sysRead (fun fs => ReadFile fs configPath);
  match args with
  | name :: _ => setupConfig name
  | [] =>
      match content with
      | Ok (c ::: rest) => Print ("The username is " +:+ (c ::: rest) +:+ ".")
      | _ => Println "Please, tell me who you are."
      end
  end.

(** *** ADD *)

Definition isIndexEmpty : M bool :=
  r ← sysRead (fun fs => Stat fs indexFilePath);
  match r with
  | Err _ => mret true
  | Ok info => mret (Size info =? 0)
  end.

Definition readIndex : M unit :=
  r ← sysRead (fun fs => ReadFile fs indexFilePath);
  match r with
  | Err _ => Println "No commits yet."
  | Ok data => Print ("Tracked files:" +:+ nl +:+ data)
  end.

Definition isFileTracked (filePath : string) : M bool :=
  r ← sysRead (fun fs => ReadFile fs indexFilePath);
  match r with
  | Err _ => fatal
  | Ok indexContent =>
      let filePaths := Strings.Split indexContent nl in
      mret (existsb (fun path => String.eqb path filePath) filePaths)
  end.

Definition createIndex (addedFile : string) : M (result unit) :=
  sysWrite (fun fs => AppendString fs indexFilePath (addedFile +:+ nl)).

(** [setupAdd] once a file name was given. *)
Definition trackFile (file : string) : M unit :=
  st ← sysRead (fun fs => Stat fs file);
  if IsNotExist st then Print ("Can't find '" +:+ file +:+ "'." +:+ nl)
  else
    tracked ← isFileTracked file;
    if tracked : bool then
      Print ("The file '" +:+ file +:+ "' is already tracked." +:+ nl)
    else
      r ← createIndex file;
      match r with
      | Err _ => mret tt
      | Ok _ => Print ("The file '" +:+ file +:+ "' is tracked." +:+ nl)
      end.

Definition setupAdd (file : string) : M unit :=
  if String.eqb file "" then
    empty ← isIndexEmpty;
    if negb empty then readIndex
    else
      empty' ← isIndexEmpty;
      if empty' : bool then Println "Add a file to the index."
      else trackFile file
  else trackFile file.

Definition handleAdd (args : list string) : M unit :=
  st ← sysRead (fun fs => Stat fs indexFilePath);
  made ← (if IsNotExist st
          then sysWrite (fun fs => Create fs indexFilePath)
          else mret (Ok tt));
  match made with
  | Err _ => fatal
  | Ok _ =>
      r ← sysRead (fun fs => ReadFile fs indexFilePath);
      match r with
      | Err _ => fatal
      | Ok content =>
          match args with
          | file :: _ => setupAdd file
          | [] =>
              if String.eqb content "" then Println "Add a file to the index."
              else _ ← Println "Tracked files:"; Println content
          end
      end
  end.

(** *** COMMITS *)

Definition hashContent (content : string) : string :=
  Fmt.Sprintx (Sha256.Sum content).

(** [now] is the value of [time.Now().UnixNano()]. *)
Definition createId (c : Commit) (now : Z) : M (result string) :=
  r ← sysRead (fun fs => ReadFile fs indexFilePath);
  match r with
  | Err e => mret (Err e)
  | Ok indexContent =>
      if String.eqb indexContent "" then mret (Err (errorsNew "nothing to commit"))
      else
        let timestamp := now in
        let contentWithTimestamp := indexContent +:+ Fmt.Sprintd timestamp in
        let id := hashContent contentWithTimestamp in
        mret (Ok id)
  end.

Definition createCommitDir (c : Commit) : M (result string) :=
  let commitDirPath := commitDir +:+ "/" +:+ HashID c in
  st ← sysRead (fun fs => Stat fs commitDirPath);
  if IsNotExist st then
    r ← sysWrite (fun fs => Mkdir fs commitDirPath);
    match r with
    | Err e => mret (Err e)
    | Ok _ => mret (Ok commitDirPath)
    end
  else mret (Ok commitDirPath).

Definition getMessageFromArgs (args : list string) : string :=
  Strings.TrimSpace (Strings.Join args " ").

Definition createCommit (message : string) : M Commit :=
  opened ← sysRead (fun fs => Stat fs indexFilePath);
  match opened with
  | Err _ => fatal
  | Ok _ =>
      author ← readConfig;
      mret (mkCommit EmptyString author message)
  end.

Definition getLastCommitID : M string :=
  st ← sysRead (fun fs => Stat fs commitDir);
  made ← (if IsNotExist st
          then sysWrite (fun fs => MkdirAll fs commitDir)
          else mret (Ok tt));
  match made with
  | Err _ => mret EmptyString
  | Ok _ =>
      r ← sysRead (fun fs => ReadFile fs logFilePath);
      match r with
      | Err _ => mret EmptyString
      | Ok logContent =>
          let commitID := hd EmptyString (Strings.Split logContent nl) in
          mret (Strings.TrimPrefix commitID "commit ")
      end
  end.

Definition fileHasChanges (filePath commitDirPath : string) : M bool :=
  let relativePath := Strings.TrimPrefix filePath commitDir in
  let lastCommitFile := Filepath.Join [commitDir; commitDirPath; relativePath] in
  st ← sysRead (fun fs => Stat fs lastCommitFile);
  match st with
  | Ok _ =>
      r1 ← sysRead (fun fs => ReadFile fs lastCommitFile);
      match r1 with
      | Err _ => fatal
      | Ok lastCommitFileContent =>
          let lastCommitFileHash := hashContent lastCommitFileContent in
          r2 ← sysRead (fun fs => ReadFile fs filePath);
          match r2 with
          | Err _ => fatal
          | Ok fileContent =>
              let currentFileHash := hashContent fileContent in
              mret (negb (String.eqb lastCommitFileHash currentFileHash))
          end
      end
  | Err _ => mret true
  end.

Fixpoint hasChanges (filePaths : list string) (commitDirPath : string) : M bool :=
  match filePaths with
  | [] => mret false
  | filePath :: rest =>
      if String.eqb filePath "" then hasChanges rest commitDirPath
      else
        changed ← fileHasChanges filePath commitDirPath;
        if changed : bool then mret true else hasChanges rest commitDirPath
  end.

Definition compareWithLastCommit : M bool :=
  lastCommitID ← getLastCommitID;
  if String.eqb lastCommitID "" then mret true
  else
    r ← sysRead (fun fs => ReadFile fs indexFilePath);
    match r with
    | Err _ => fatal
    | Ok indexContent =>
        let filePaths := Strings.Split indexContent nl in
        hasChanges filePaths lastCommitID
    end.

(** [os.Open(src)], [os.Create(dst)], [io.Copy(dstFile, srcFile)] and
    [dstFile.Sync()]: the source is read after the destination was
    created or truncated. *)
Definition copyFile (src dst : string) : M (result unit) :=
  opened ← sysRead (fun fs => Stat fs src);
  match opened with
  | Err e => mret (Err e)
  | Ok _ =>
      created ← sysWrite (fun fs => Create fs dst);
      match created with
      | Err e => mret (Err e)
      | Ok _ =>
          r ← sysRead (fun fs => ReadFile fs src);
          match r with
          | Err e => mret (Err e)
          | Ok data => sysWrite (fun fs => Ok (<[key dst := File data]> fs))
          end
      end
  end.

(** The loop of [copyFilesToCommitDir] over the lines of the index. *)
Fixpoint copyEach (filePaths : list string) (commitDirPath : string) : M unit :=
  match filePaths with
  | [] => mret tt
  | filePath :: rest =>
      if String.eqb filePath "" then copyEach rest commitDirPath
      else
        let destination :=
          Filepath.Join [commitDirPath; Strings.TrimPrefix filePath "vcs/"] in
        r ← copyFile filePath destination;
        match r with
        | Err _ => fatal
        | Ok _ => copyEach rest commitDirPath
        end
  end.

Definition copyFilesToCommitDir (commitDirPath : string) : M unit :=
  st ← sysRead (fun fs => Stat fs commitDir);
  made ← (if IsNotExist st
          then sysWrite (fun fs => MkdirAll fs commitDir)
          else mret (Ok tt));
  match made with
  | Err _ => fatal
  | Ok _ =>
      r ← sysRead (fun fs => ReadFile fs indexFilePath);
      match r with
      | Err _ => fatal
      | Ok indexContent =>
          copyEach (Strings.Split indexContent nl) commitDirPath
      end
  end.

(** The scan of one log entry's lines for the author and the message. *)
Definition scanLine (acc : string * string) (line : string) : string * string :=
  let '(author, message) := acc in
  if Strings.HasPrefix line "Author: " then
    (Strings.TrimPrefix line "Author: ", message)
  else if negb (Strings.HasPrefix line "commit ") then
    (author, message +:+ line +:+ nl)
  else (author, message).

Fixpoint findEntry (commitEntries : list string) (id : string) : option Commit :=
  match commitEntries with
  | [] => None
  | entry :: rest =>
      let lines := Strings.Split entry nl in
      let commitID := Strings.TrimPrefix (hd EmptyString lines) "commit " in
      if String.eqb commitID id then
        let '(author, message) :=
          fold_left scanLine lines (EmptyString, EmptyString) in
        Some (mkCommit commitID author (Strings.TrimSpace message))
      else findEntry rest id
  end.

(** [findCommitById]: [None] is the nil pointer. *)
Definition findCommitById (id : string) : M (option Commit) :=
  let commitDirPath := Filepath.Join [commitDir; id] in
  st ← sysRead (fun fs => Stat fs commitDirPath);
  if IsNotExist st then mret None
  else
    r ← sysRead (fun fs => ReadFile fs logFilePath);
    match r with
    | Err _ => fatal
    | Ok logContent =>
        let commitEntries := Strings.Split logContent (nl +:+ nl) in
        mret (findEntry commitEntries id)
    end.

(** *** LOG *)

Definition logEntry (c : Commit) : string :=
  "commit " +:+ HashID c +:+ nl +:+ "Author: " +:+ Author c +:+ nl
  +:+ Message c +:+ nl +:+ nl.

Definition createLog (c : Commit) : M unit :=
  let newCommitInfo := logEntry c in
  r ← sysRead (fun fs => ReadFile fs logFilePath);
  if isErr r && negb (IsNotExist r) then fatal
  else
    let existingLogContent :=
      match r with Ok data => data | Err _ => EmptyString end in
    let updatedLogContent := newCommitInfo +:+ existingLogContent in
    w ← sysWrite (fun fs => WriteFile fs logFilePath updatedLogContent);
    match w with
    | Err _ => fatal
    | Ok _ => mret tt
    end.

Definition readCommits : M unit :=
  r ← sysRead (fun fs => ReadDir fs commitDir);
  match r with
  | Err _ => Println "No commits yet."
  | Ok [] => Println "No commits yet."
  | Ok _ =>
      l ← sysRead (fun fs => ReadFile fs logFilePath);
      match l with
      | Err _ => fatal
      | Ok logContent => Println logContent
      end
  end.

Definition handleLog (args : list string) : M unit :=
  match args with
  | _ :: _ => Println "Too many arguments."
  | [] => readCommits
  end.

Definition handleCommit (args : list string) (now : Z) : M unit :=
  let message := getMessageFromArgs args in
  if String.eqb message "" then Println "Message was not passed."
  else
    empty ← isIndexEmpty;
    if empty : bool then Println "Nothing to commit."
    else
      changes ← compareWithLastCommit;
      if negb changes then Println "Nothing to commit."
      else
        newCommit ← createCommit message;
        r ← createId newCommit now;
        match r with
        | Err _ => fatal
        | Ok commitID =>
            let newCommit := mkCommit commitID (Author newCommit) (Message newCommit) in
            d ← createCommitDir newCommit;
            match d with
            | Err _ => fatal
            | Ok commitDirPath =>
                _ ← copyFilesToCommitDir commitDirPath;
                _ ← createLog newCommit;
                Println "Changes are committed."
            end
        end.

(** *** CHECKOUT *)

(** The copy loop of [switchCommit] over the entries of the snapshot. *)
Fixpoint restoreEach (commitFiles : list string) (commitDirPath : string) : M unit :=
  match commitFiles with
  | [] => mret tt
  | name :: rest =>
      let source := Filepath.Join [commitDirPath; name] in
      let destination := Filepath.Join ["."; name] in
      r ← copyFile source destination;
      match r with
      | Err _ => fatal
      | Ok _ => restoreEach rest commitDirPath
      end
  end.

Definition switchCommit (commitID : string) : M unit :=
  commit ← findCommitById commitID;
  match commit with
  | None => Println "Commit does not exist."
  | Some _ =>
      let commitDirPath := Filepath.Join [commitDir; commitID] in
      r ← sysRead (fun fs => ReadDir fs commitDirPath);
      match r with
      | Err _ => fatal
      | Ok commitFiles =>
          _ ← restoreEach commitFiles commitDirPath;
          Print ("Switched to commit " +:+ commitID +:+ "." +:+ nl)
      end
  end.

Definition handleCheckout (args : list string) : M unit :=
  match args with
  | [commitID] => switchCommit commitID
  | _ => Println "Commit id was not passed."
  end.

(** *** The command line *)

(** A command: its name, its description and its handler. *)
Record Command : Type := mkCommand
  { Name : string; Description : string; Handler : list string -> M unit }.

(** The table of commands, in order.  Only [commit] reads the clock. *)
Definition Commands (now : Z) : list Command :=
  [ mkCommand "config" "Get and set a username." handleConfig;
    mkCommand "add" "Add a file to the index." handleAdd;
    mkCommand "log" "Show commit logs." handleLog;
    mkCommand "commit" "Save changes." (fun args => handleCommit args now);
    mkCommand "checkout" "Restore a file." handleCheckout ].

(** [fmt.Printf("%-30s %s\n", name, description)] for each command. *)
Fixpoint printEach (commands : list Command) : M unit :=
  match commands with
  | [] => mret tt
  | cmd :: rest =>
      _ ← Print (Name cmd
                 +:+ string_of_list_ascii
                       (repeat " "%char (30 - String.length (Name cmd)))
                 +:+ " " +:+ Description cmd +:+ nl);
      printEach rest
  end.

Definition printHelp (now : Z) : M unit :=
  _ ← Println "These are SVCS commands:";
  printEach (Commands now).

(** [setupCommands] on [os.Args[1:]]. *)
Definition setupCommands (args : list string) (now : Z) : M unit :=
  match args with
  | [] => printHelp now
  | commandName :: rest =>
      if String.eqb commandName "--help" then printHelp now
      else
        match List.find (fun cmd => String.eqb (Name cmd) commandName)
                        (Commands now) with
        | Some cmd => Handler cmd rest
        | None =>
            Print ("'" +:+ commandName +:+ "' is not a SVCS command." +:+ nl)
        end
  end.

(** [main]: [args] is [os.Args[1:]], [now] the reading of the clock. *)
Definition main (args : list string) (now : Z) : M unit :=
  made ← sysWrite (fun fs => MkdirAll fs "./vcs");
  match made with
  | Err _ => fatal
  | Ok _ => setupCommands args now
  end.

End Vcs.

(* ================================================================== *)
(** ** Vocabulary of the statements *)
(* ================================================================== *)

Import Os Vcs.

(** Every line feed of [s] is followed by another byte that is not a
    line feed: [s] has no blank line and does not end in a line feed. *)
Fixpoint noBlank (s : string) : bool :=
  match s with
  | EmptyString => true
  | c ::: s' =>
      (if Ascii.eqb c LF
       then match s' with
            | EmptyString => false
            | d ::: _ => negb (Ascii.eqb d LF)
            end
       else true) && noBlank s'
  end.

(** A string of lower-case hexadecimal digits. *)
Fixpoint allHex (s : string) : bool :=
  match s with
  | EmptyString => true
  | c ::: s' => existsb (Ascii.eqb c) Fmt.hexchars && allHex s'
  end.

(** The identifier [findCommitById] reads off a log entry. *)
Definition entryID (entry : string) : string :=
  Strings.TrimPrefix (hd EmptyString (Strings.Split entry nl)) "commit ".

(** [checkout commitID] prints "Commit does not exist." and changes
    nothing else. *)
Definition reportsMissing (commitID : string) (w : World) : Prop :=
  switchCommit commitID w
  = (mkWorld (files w) (stdout w +:+ "Commit does not exist." +:+ nl), Some tt).

(** What the log holds before an entry is written: nothing when the
    file is missing. *)
Definition logBefore (w : World) : string :=
  match ReadFile (files w) logFilePath with
  | Ok data => data
  | Err _ => EmptyString
  end.

(** Empty, or ending in a line feed: how [createIndex] leaves the index. *)
Fixpoint terminated (s : string) : bool :=
  match s with
  | EmptyString => true
  | c ::: s' =>
      match s' with
      | EmptyString => Ascii.eqb c LF
      | _ => terminated s'
      end
  end.

Definition indexTerminated (w : World) : Prop :=
  match ReadFile (files w) indexFilePath with
  | Ok indexContent => terminated indexContent = true
  | Err _ => True
  end.

(** [n] more runs of [add file]. *)
Fixpoint addAgain (n : nat) (file : string) (w : World) : World * option unit :=
  match n with
  | O => (w, Some tt)
  | S n' =>
      match handleAdd [file] w with
      | (w', Some _) => addAgain n' file w'
      | (w', None) => (w', None)
      end
  end.

(** [n] copies of [text]. *)
Fixpoint repeatText (n : nat) (text : string) : string :=
  match n with
  | O => EmptyString
  | S n' => text +:+ repeatText n' text
  end.

(** The two reports of [add file]. *)
Definition trackedText (file : string) : string :=
  "The file '" +:+ file +:+ "' is tracked." +:+ nl.

Definition alreadyText (file : string) : string :=
  "The file '" +:+ file +:+ "' is already tracked." +:+ nl.

(** Where [copyFilesToCommitDir] puts a staged path. *)
Definition destinationOf (commitDirPath filePath : string) : string :=
  Filepath.Join [commitDirPath; Strings.TrimPrefix filePath "vcs/"].

(** No staged file is itself the destination of a staged file. *)
Definition sourcesApart (commitDirPath : string) (filePaths : list string) : bool :=
  forallb (fun q =>
    forallb (fun r =>
      String.eqb q "" || String.eqb r ""
      || negb (String.eqb (key q) (key (destinationOf commitDirPath r))))
      filePaths) filePaths.

(** Only [filePath] itself is copied to the destination of [filePath]. *)
Definition targetOwned (commitDirPath : string) (filePaths : list string)
           (filePath : string) : bool :=
  forallb (fun q =>
    String.eqb q ""
    || negb (String.eqb (key (destinationOf commitDirPath q))
                        (key (destinationOf commitDirPath filePath)))
    || String.eqb (key q) (key filePath)) filePaths.

(** Where [copyFilesToCommitDir] stored a staged path in the snapshot of
    the commit [commitID]. *)
Definition storedCopyOf (commitID filePath : string) : string :=
  destinationOf (commitDir +:+ "/" +:+ commitID) filePath.

(** The path that [fileHasChanges] opens for a staged path: its
    [lastCommitFile]. *)
Definition lastCommitFileOf (lastCommitID filePath : string) : string :=
  Filepath.Join [commitDir; lastCommitID; Strings.TrimPrefix filePath commitDir].

(** The stored copy and the working file can both be read. *)
Definition bothRead (fs : FS) (lastCommitID filePath stored current : string) : Prop :=
  ReadFile fs (storedCopyOf lastCommitID filePath) = Ok stored
  /\ ReadFile fs filePath = Ok current.

(** A staged path is changed: nothing is stored for it in the last
    snapshot, or the SHA-256 digest of what is stored differs from the
    digest of the working file. *)
Definition changed (fs : FS) (lastCommitID filePath : string) : Prop :=
  isErr (Stat fs (storedCopyOf lastCommitID filePath)) = true
  \/ exists stored current,
       bothRead fs lastCommitID filePath stored current
       /\ Sha256.Sum stored <> Sha256.Sum current.

(** The stored copy and the working file have the same SHA-256
    digest. *)
Definition sameDigest (fs : FS) (lastCommitID filePath : string) : Prop :=
  exists stored current,
    bothRead fs lastCommitID filePath stored current
    /\ Sha256.Sum stored = Sha256.Sum current.


(** The comparison of a staged path does not end in [log.Fatal]. *)
Definition comparable (fs : FS) (lastCommitID filePath : string) : Prop :=
  isErr (Stat fs (storedCopyOf lastCommitID filePath)) = true
  \/ exists stored current, bothRead fs lastCommitID filePath stored current.

(** [filePath] is a line of the index that names a file. *)
Definition stagedIn (indexContent filePath : string) : Prop :=
  In filePath (Strings.Split indexContent nl) /\ filePath <> "".

(** A line of a message that the log keeps as it is: not empty, and not
    taken for the author line or the identifier line. *)
Definition plainLine (line : string) : bool :=
  negb (String.eqb line "")
  && negb (Strings.HasPrefix line "Author: ")
  && negb (Strings.HasPrefix line "commit ").

(** The lines, each followed by a line feed. *)
Fixpoint unlines (lines : list string) : string :=
  match lines with
  | [] => EmptyString
  | line :: rest => line +:+ nl +:+ unlines rest
  end.

(** The same regular files with the same bytes. *)
Definition sameFiles (fs fs' : FS) : Prop :=
  forall x data, ReadFile fs' x = Ok data <-> ReadFile fs x = Ok data.

(** How [os.MkdirAll] changes the files: every new node is a directory
    inside a directory. *)
Definition grows (fs fs' : FS) : Prop :=
  forall k,
    fs' !! k = fs !! k
    \/ (fs !! k = None /\ fs' !! k = Some Dir
        /\ lookup fs' (Filepath.Dir k) = Some Dir).

(** A run of the program: command lines with the clock reading of each. *)
Fixpoint runAll (commands : list (list string * Z)) (w : World) : World * option unit :=
  match commands with
  | [] => (w, Some tt)
  | (args, now) :: rest =>
      match main args now w with
      | (w', Some _) => runAll rest w'
      | (w', None) => (w', None)
      end
  end.

(** A working directory with one file. *)
Definition demoStart : World := mkWorld (<["a.txt" := File "hello"]> ∅) "".

(** After [config alice], [add a.txt] and [commit first] at clock 17. *)
Definition demoCommitted : World :=
  fst (runAll [(["config"; "alice"], 0); (["add"; "a.txt"], 0);
               (["commit"; "first"], 17)] demoStart).

(** The identifier of that commit. *)
Definition demoID : string := hashContent ("a.txt" +:+ nl +:+ "17").

(** The same with [a.txt] edited and a file the snapshot does not hold. *)
Definition demoEdited : World :=
  mkWorld (<["notes.txt" := File "keep"]>
           (<["a.txt" := File "hello world"]> (files demoCommitted)))
          (stdout demoCommitted).

(** What the index holds when [add] starts: nothing when it is missing. *)
Definition indexBefore (w : World) : string :=
  match ReadFile (files w) indexFilePath with
  | Ok data => data
  | Err _ => EmptyString
  end.

(** [add file] for each file of the list, in order. *)
Fixpoint addEach (filePaths : list string) (w : World) : World * option unit :=
  match filePaths with
  | [] => (w, Some tt)
  | file :: rest =>
      match handleAdd [file] w with
      | (w', Some _) => addEach rest w'
      | (w', None) => (w', None)
      end
  end.

(** The reports of [add] for the files of the list, in order. *)
Fixpoint trackedTexts (filePaths : list string) : string :=
  match filePaths with
  | [] => EmptyString
  | file :: rest => trackedText file +:+ trackedTexts rest
  end.

(** Every line of the index is empty or a simple file name: the staged
    files lie directly in the working directory. *)
Definition flatIndex (indexContent : string) : bool :=
  forallb (fun p => String.eqb p "" || simpleName p)
          (Strings.Split indexContent nl).

(** A printable ASCII byte other than the space. *)
Definition plainByte (c : ascii) : bool :=
  ((32 <? nat_of_ascii c) && (nat_of_ascii c <? 127))%nat.

(** A word: not empty, of such bytes only. *)
Fixpoint plainBytes (s : string) : bool :=
  match s with
  | EmptyString => true
  | c ::: s' => plainByte c && plainBytes s'
  end.

Definition plainWord (s : string) : bool :=
  negb (String.eqb s "") && plainBytes s.

(** After [config alice] and [add a.txt] in the working directory of
    [demoStart]. *)
Definition demoStaged : World :=
  fst (runAll [(["config"; "alice"], 0); (["add"; "a.txt"], 0)] demoStart).

(* ================================================================== *)
(** ** The library models on known values *)
(* ================================================================== *)

Example Split_lines : Strings.Split ("a" +:+ nl +:+ "b" +:+ nl) nl = ["a"; "b"; ""].
Proof. reflexivity. Qed.

Example Split_empty : Strings.Split "" "/" = [""].
Proof. reflexivity. Qed.

Example TrimSpace_ex : Strings.TrimSpace (nl +:+ "  first msg " +:+ nl) = "first msg".
Proof. reflexivity. Qed.

Example TrimSpace_no_break_space :
  Strings.TrimSpace (ascii_of_nat 194 ::: ascii_of_nat 160 ::: "x" +:+ nl) = "x".
Proof. reflexivity. Qed.

Example Clean_go_1 : Filepath.Clean "a//b/./c/.." = "a/b".
Proof. reflexivity. Qed.

Example Clean_go_2 : Filepath.Clean "../../a/../.." = "../../..".
Proof. reflexivity. Qed.

Example Clean_go_3 : Filepath.Clean "/../a/" = "/a".
Proof. reflexivity. Qed.

Example Clean_go_4 : Filepath.Clean "a/.." = ".".
Proof. reflexivity. Qed.

Example Join_go_1 : Filepath.Join ["vcs/commits"; ""] = "vcs/commits".
Proof. reflexivity. Qed.

Example Join_go_2 : Filepath.Join ["."; "a.txt"] = "a.txt".
Proof. reflexivity. Qed.

Example Join_go_3 : Filepath.Join [""; ""] = "".
Proof. reflexivity. Qed.

Example Sprintd_ex : Fmt.Sprintd 1714000000123456789 = "1714000000123456789".
Proof. reflexivity. Qed.

Example sha256_abc :
  Fmt.Sprintx (Sha256.Sum "abc")
  = "ba7816bf8f01cfea414140de5dae2223b00361a396177a9cb410ff61f20015ad".
Proof. vm_compute. reflexivity. Qed.

Example sha256_empty :
  Fmt.Sprintx (Sha256.Sum "")
  = "e3b0c44298fc1c149afbf4c8996fb92427ae41e4649b934ca495991b7852b855".
Proof. vm_compute. reflexivity. Qed.

Example sha256_two_blocks :
  Fmt.Sprintx (Sha256.Sum "abcdbcdecdefdefgefghfghighijhijkijkljklmklmnlmnomnopnopq")
  = "248d6a61d20638b8e5c026930c3e6039a33ce45964ff2167f6ecedd419db06c1".
Proof. vm_compute. reflexivity. Qed.

Example Dir_go_1 : Filepath.Dir "vcs/commits/ab/a.txt" = "vcs/commits/ab".
Proof. reflexivity. Qed.

Example Dir_go_2 : Filepath.Dir "a.txt" = ".".
Proof. reflexivity. Qed.

Example Dir_go_3 : Filepath.Dir "/a.txt" = "/".
Proof. reflexivity. Qed.

Example Stat_missing :
  Stat (<["a.txt" := File "hello"]> ∅) "b.txt" = Err ENOENT
  /\ Stat (<["a.txt" := File "hello"]> ∅) "sub/b.txt" = Err ENOENT.
Proof. split; reflexivity. Qed.

Example Stat_through_file :
  Stat (<["a.txt" := File "hello"]> ∅) "a.txt/b" = Err ENOTDIR
  /\ Stat (<["a.txt" := File "hello"]> ∅) "a.txt/b/c" = Err ENOTDIR.
Proof. split; reflexivity. Qed.

Example ReadDir_ex :
  Os.ReadDir (<["vcs/commits/ab/b.txt" := Os.File "2"]>
              (<["vcs/commits/ab/a.txt" := Os.File "1"]>
               (<["vcs/commits/ab" := Os.Dir]>
                (<["vcs/commits/abc/z" := Os.File "3"]> ∅))))
             "vcs/commits/ab"
  = Os.Ok ["a.txt"; "b.txt"].
Proof. vm_compute. reflexivity. Qed.

Example MkdirAll_ex :
  Os.MkdirAll ∅ "vcs/commits"
  = Os.Ok (<["vcs/commits" := Os.Dir]> (<["vcs" := Os.Dir]> ∅)).
Proof. vm_compute. reflexivity. Qed.

(* ================================================================== *)
(** ** Lemmas and theorems *)
(* ================================================================== *)

(** *** Byte strings *)

Lemma app_nil_s (t : string) : "" +:+ t = t.
Proof. reflexivity. Qed.

Lemma app_cons_s (c : ascii) (s t : string) : (c ::: s) +:+ t = c ::: (s +:+ t).
Proof. reflexivity. Qed.

Lemma app_empty_r (s : string) : s +:+ "" = s.
Proof.
  induction s as [|c s IH]; [reflexivity |].
  now rewrite app_cons_s, IH.
Qed.

Lemma app_assoc_s (a b c : string) : (a +:+ b) +:+ c = a +:+ (b +:+ c).
Proof.
  induction a as [|x a IH]; [reflexivity |].
  now rewrite !app_cons_s, IH.
Qed.

Lemma app_inv_head_s (a b c : string) : a +:+ b = a +:+ c -> b = c.
Proof.
  induction a as [|x a IH]; [trivial |].
  rewrite !app_cons_s. intros H. injection H. exact IH.
Qed.

Lemma ascii_eqb_refl (c : ascii) : Ascii.eqb c c = true.
Proof. apply Ascii.eqb_refl. Qed.

Lemma noChar_app (c : ascii) (a b : string) :
  noChar c (a +:+ b) = noChar c a && noChar c b.
Proof.
  induction a as [|x a IH]; [reflexivity |].
  rewrite app_cons_s. simpl. rewrite IH. now rewrite andb_assoc.
Qed.

Lemma stripPrefix_app (p s : string) : Strings.stripPrefix (p +:+ s) p = Some s.
Proof.
  induction p as [|c p IH]; [reflexivity |].
  rewrite app_cons_s. simpl. now rewrite ascii_eqb_refl.
Qed.

Lemma stripPrefix_Some (s p r : string) :
  Strings.stripPrefix s p = Some r -> s = p +:+ r.
Proof.
  revert s. induction p as [|c p IH]; simpl; intros s H.
  - now injection H.
  - destruct s as [|d s]; [discriminate |].
    destruct (Ascii.eqb_spec c d) as [->|]; [|discriminate].
    now rewrite (IH _ H), app_cons_s.
Qed.

Lemma TrimPrefix_app (p s : string) : Strings.TrimPrefix (p +:+ s) p = s.
Proof. unfold Strings.TrimPrefix. now rewrite stripPrefix_app. Qed.

Lemma HasPrefix_app (p s : string) : Strings.HasPrefix (p +:+ s) p = true.
Proof. unfold Strings.HasPrefix. now rewrite stripPrefix_app. Qed.

(** *** Splitting at one byte *)

Lemma splitFrom_nonempty (sep : string) (k : nat) (s : string) :
  Strings.splitFrom sep k s <> [].
Proof.
  revert k. induction s as [|c s IH]; simpl; intros k; [discriminate |].
  destruct k; [|apply IH].
  destruct (Strings.stripPrefix _ _); [discriminate |].
  destruct (Strings.splitFrom sep 0 s); discriminate.
Qed.

Lemma split1_cons (c d : ascii) (s : string) :
  Strings.Split (d ::: s) (c ::: "")
  = if Ascii.eqb c d then "" :: Strings.Split s (c ::: "")
    else match Strings.Split s (c ::: "") with
         | piece :: rest => (d ::: piece) :: rest
         | [] => [d ::: ""]
         end.
Proof.
  unfold Strings.Split. simpl. destruct (Ascii.eqb c d); reflexivity.
Qed.

Lemma split1_noChar (c : ascii) (a : string) :
  noChar c a = true -> Strings.Split a (c ::: "") = [a].
Proof.
  induction a as [|d a IH]; [reflexivity |].
  simpl. intros H. apply andb_prop in H as [Hd Ha].
  rewrite split1_cons, (IH Ha).
  rewrite Ascii.eqb_sym. now destruct (Ascii.eqb d c).
Qed.

Lemma split1_app (c : ascii) (a b : string) :
  noChar c a = true ->
  Strings.Split (a +:+ (c ::: b)) (c ::: "") = a :: Strings.Split b (c ::: "").
Proof.
  induction a as [|d a IH]; simpl; intros H.
  - now rewrite app_nil_s, split1_cons, ascii_eqb_refl.
  - apply andb_prop in H as [Hd Ha].
    rewrite app_cons_s, split1_cons, (IH Ha), Ascii.eqb_sym.
    now destruct (Ascii.eqb d c).
Qed.

Lemma split1_Join (c : ascii) (e : string) (es : list string) :
  Forall (fun x => noChar c x = true) (e :: es) ->
  Strings.Split (Strings.Join (e :: es) (c ::: "")) (c ::: "") = e :: es.
Proof.
  revert e. induction es as [|e' es IH]; intros e H.
  - simpl. apply split1_noChar. now inversion H.
  - inversion H as [|? ? He Hes]; subst.
    change (Strings.Join (e :: e' :: es) (c ::: ""))
      with (e +:+ (c ::: Strings.Join (e' :: es) (c ::: ""))).
    rewrite (split1_app _ _ _ He). f_equal. now apply IH.
Qed.

Lemma split1_pieces (c : ascii) (s : string) :
  Forall (fun x => noChar c x = true) (Strings.Split s (c ::: "")).
Proof.
  induction s as [|d s IH]; [repeat constructor |].
  rewrite split1_cons.
  destruct (Ascii.eqb_spec c d) as [->|Hne].
  - constructor; [reflexivity | assumption].
  - destruct (Strings.Split s (c ::: "")) as [|piece rest].
    + repeat constructor. simpl.
      destruct (Ascii.eqb_spec d c); [congruence | reflexivity].
    + inversion IH; subst. constructor; [|assumption].
      simpl. destruct (Ascii.eqb_spec d c); [congruence | assumption].
Qed.

Lemma Join_split1 (c : ascii) (s : string) :
  Strings.Join (Strings.Split s (c ::: "")) (c ::: "") = s.
Proof.
  induction s as [|d s IH]; [reflexivity |].
  rewrite split1_cons.
  pose proof (splitFrom_nonempty (c ::: "") 0 s) as Hne.
  fold (Strings.Split s (c ::: "")) in Hne.
  destruct (Ascii.eqb_spec c d) as [->|Hcd].
  - destruct (Strings.Split s (d ::: "")) as [|p r]; [congruence |].
    change (Strings.Join ("" :: p :: r) (d ::: "")) with (d ::: Strings.Join (p :: r) (d ::: "")).
    now rewrite IH.
  - destruct (Strings.Split s (c ::: "")) as [|p r]; [congruence |].
    destruct r as [|q r]; simpl in *; [now rewrite IH |].
    now rewrite app_cons_s, IH.
Qed.

(** *** Splitting at the blank line *)

Lemma split2_first (t rest : string) :
  noBlank t = true ->
  Strings.Split (t +:+ nl +:+ nl +:+ rest) (nl +:+ nl)
  = t :: Strings.Split rest (nl +:+ nl).
Proof.
  unfold Strings.Split.
  induction t as [|c t IH]; intros H.
  - reflexivity.
  - simpl in H. apply andb_prop in H as [Hc Ht].
    rewrite app_cons_s.
    assert (Hno : Strings.stripPrefix (c ::: t +:+ nl +:+ nl +:+ rest) (nl +:+ nl) = None).
    { change (nl +:+ nl) with (LF ::: LF ::: "").
      cbn [Strings.stripPrefix]. rewrite Ascii.eqb_sym.
      destruct (Ascii.eqb c LF); [|reflexivity].
      destruct t as [|d t]; [discriminate |].
      rewrite app_cons_s, Ascii.eqb_sym.
      now destruct (Ascii.eqb d LF). }
    cbn [Strings.splitFrom]. rewrite Hno, (IH Ht). reflexivity.
Qed.

Lemma noBlank_noChar (s : string) : noChar LF s = true -> noBlank s = true.
Proof.
  induction s as [|c s IH]; [reflexivity |].
  simpl. intros H. apply andb_prop in H as [Hc Hs].
  rewrite (IH Hs). destruct (Ascii.eqb c LF); [discriminate | reflexivity].
Qed.

Lemma Join_cons_cons (l m : string) (ls : list string) (sep : string) :
  Strings.Join (l :: m :: ls) sep = l +:+ sep +:+ Strings.Join (m :: ls) sep.
Proof. reflexivity. Qed.

Lemma Join_head (c : ascii) (e : string) (es : list string) (sep : string) :
  Strings.Join ((c ::: e) :: es) sep = c ::: Strings.Join (e :: es) sep.
Proof. destruct es; reflexivity. Qed.

Lemma noBlank_prefix (l rest : string) :
  noChar LF l = true -> noBlank rest = true -> noBlank (l +:+ rest) = true.
Proof.
  induction l as [|c l IH]; intros Hl Hr; [exact Hr |].
  simpl in Hl. apply andb_prop in Hl as [Hc Hl].
  rewrite app_cons_s. cbn [noBlank]. rewrite (IH Hl Hr).
  destruct (Ascii.eqb c LF); [discriminate | reflexivity].
Qed.

(** A first line followed by non-empty lines has no blank line. *)
Lemma noBlank_Join (l : string) (ls : list string) :
  Forall (fun x => noChar LF x = true) (l :: ls) ->
  Forall (fun x => x <> "") ls ->
  noBlank (Strings.Join (l :: ls) nl) = true.
Proof.
  revert l. induction ls as [|m ls IH]; intros l Hfree Hne.
  - apply noBlank_noChar. now inversion Hfree.
  - inversion Hfree as [|? ? Hl Hrest]; subst.
    inversion Hne as [|? ? Hm Hls]; subst.
    specialize (IH m Hrest Hls).
    rewrite Join_cons_cons. apply noBlank_prefix; [assumption |].
    destruct m as [|d m]; [congruence |].
    rewrite Join_head in *.
    assert (Hd : Ascii.eqb d LF = false).
    { inversion Hrest as [|? ? Hdm _]; subst. simpl in Hdm.
      now destruct (Ascii.eqb d LF). }
    change (nl +:+ ?x) with (LF ::: x).
    cbn [noBlank] in *. rewrite Hd in *. rewrite ascii_eqb_refl.
    exact IH.
Qed.

(** *** Trimming *)

Lemma space2_LF (c : ascii) : Strings.space2 c LF = false.
Proof. unfold Strings.space2. apply andb_false_r. Qed.

Lemma space3_LF (c d : ascii) : Strings.space3 c d LF = false.
Proof.
  unfold Strings.space3. change (nat_of_ascii LF) with 10%nat. simpl.
  now rewrite !andb_false_r.
Qed.

Lemma trimLeft_app_nl_le (n : nat) (s : string) :
  (String.length s <= n)%nat ->
  Strings.trimLeft (s +:+ nl)
  = if String.eqb (Strings.trimLeft s) "" then "" else Strings.trimLeft s +:+ nl.
Proof.
  revert s. induction n as [|n IH]; intros s Hlen.
  - destruct s; [reflexivity | simpl in Hlen; lia].
  - destruct s as [|c s1]; [reflexivity |].
    rewrite app_cons_s. cbn [Strings.trimLeft].
    simpl in Hlen.
    destruct (Strings.asciiSpace c); [apply IH; lia |].
    destruct s1 as [|d s2].
    + rewrite app_nil_s. unfold nl. rewrite space2_LF. reflexivity.
    + rewrite app_cons_s. simpl in Hlen.
      destruct (Strings.space2 c d); [apply IH; lia |].
      destruct s2 as [|e s3].
      * rewrite app_nil_s. unfold nl. rewrite space3_LF. reflexivity.
      * rewrite app_cons_s. simpl in Hlen.
        destruct (Strings.space3 c d e); [apply IH; lia |].
        reflexivity.
Qed.

Lemma rev_app_nl (s : string) : Strings.rev (s +:+ nl) = LF ::: Strings.rev s.
Proof.
  induction s as [|c s IH]; [reflexivity |].
  rewrite app_cons_s. cbn [Strings.rev]. rewrite IH. reflexivity.
Qed.

Lemma trimRight_app_nl (s : string) :
  Strings.trimRight (s +:+ nl) = Strings.trimRight s.
Proof. unfold Strings.trimRight. rewrite rev_app_nl. reflexivity. Qed.

Lemma TrimSpace_app_nl (s : string) :
  Strings.TrimSpace (s +:+ nl) = Strings.TrimSpace s.
Proof.
  unfold Strings.TrimSpace.
  rewrite (trimLeft_app_nl_le (String.length s) s (Nat.le_refl _)).
  destruct (String.eqb_spec (Strings.trimLeft s) "") as [->|_]; [reflexivity |].
  apply trimRight_app_nl.
Qed.

(** *** Cleaning paths whose elements are simple names *)

Lemma simpleName_inv (n : string) :
  Os.simpleName n = true ->
  n <> "" /\ n <> "." /\ n <> ".." /\ noChar "/" n = true.
Proof.
  unfold Os.simpleName. intros H.
  apply andb_prop in H as [H H4]. apply andb_prop in H as [H H3].
  apply andb_prop in H as [H1 H2].
  repeat split; try assumption; intros ->; discriminate.
Qed.

Lemma cleanStep_simple (rooted : bool) (stack : list string) (e : string) :
  Os.simpleName e = true -> Filepath.cleanStep rooted stack e = e :: stack.
Proof.
  intros H. apply simpleName_inv in H as (H1 & H2 & H3 & _).
  unfold Filepath.cleanStep.
  apply String.eqb_neq in H1, H2, H3. now rewrite H1, H2, H3.
Qed.

Lemma fold_cleanStep_simple (rooted : bool) (es stack : list string) :
  Forall (fun e => Os.simpleName e = true) es ->
  fold_left (Filepath.cleanStep rooted) es stack = (List.rev es ++ stack)%list.
Proof.
  revert stack. induction es as [|e es IH]; intros stack H; [reflexivity |].
  inversion H; subst. simpl.
  rewrite cleanStep_simple by assumption.
  rewrite IH by assumption. now rewrite <- app_assoc.
Qed.

Lemma Clean_simple (e : string) (es : list string) :
  Forall (fun x => Os.simpleName x = true) (e :: es) ->
  Filepath.Clean (Strings.Join (e :: es) "/") = Strings.Join (e :: es) "/".
Proof.
  intros H.
  assert (Hfree : Forall (fun x => noChar "/" x = true) (e :: es)).
  { eapply Forall_impl; [exact H |]. intros x Hx. now apply simpleName_inv in Hx. }
  pose proof (split1_Join "/" e es Hfree) as Hsplit.
  inversion H as [|? ? He _]; subst.
  apply simpleName_inv in He as (He & _ & _ & Hs).
  destruct e as [|c e]; [congruence |].
  rewrite Join_head in *.
  unfold Filepath.Clean.
  assert (Hc : Ascii.eqb c "/" = false).
  { simpl in Hs. now destruct (Ascii.eqb c "/"). }
  rewrite Hc, Hsplit, fold_cleanStep_simple by assumption.
  rewrite app_nil_r, rev_involutive, Join_head. reflexivity.
Qed.

Lemma Join_dot (n : string) :
  Os.simpleName n = true -> Filepath.Join ["."; n] = n.
Proof.
  intros H. pose proof H as Hn.
  apply simpleName_inv in Hn as (Hne & _ & _ & Hs).
  unfold Filepath.Join. simpl String.eqb. cbv iota.
  change (Strings.Join ["."; n] "/") with ("." ::: "/" ::: n).
  unfold Filepath.Clean. simpl Ascii.eqb. cbv iota.
  change ("." ::: "/" ::: n) with ("." +:+ ("/" ::: n)).
  rewrite split1_app by reflexivity.
  rewrite split1_noChar by assumption.
  simpl fold_left.
  change (Filepath.cleanStep false [] ".") with (@nil string).
  rewrite cleanStep_simple by assumption. simpl.
  apply String.eqb_neq in Hne. now rewrite Hne.
Qed.

Lemma Clean_name (n : string) :
  Os.simpleName n = true -> Filepath.Clean n = n.
Proof.
  intros H. change n with (Strings.Join [n] "/") at 1 2.
  apply Clean_simple. now constructor.
Qed.


(** *** Hexadecimal digests *)

Lemma hexdigit_hex (z : Z) : existsb (Ascii.eqb (Fmt.hexdigit z)) Fmt.hexchars = true.
Proof.
  unfold Fmt.hexdigit.
  assert (H : (Z.to_nat (z mod 16) < 16)%nat).
  { pose proof (Z.mod_pos_bound z 16). lia. }
  destruct (Z.to_nat (z mod 16)) as [|n]; [reflexivity |].
  do 15 (destruct n as [|n]; [reflexivity |]). lia.
Qed.

Lemma Sprintx_allHex (l : list Z) : allHex (Fmt.Sprintx l) = true.
Proof.
  induction l as [|x l IH]; [reflexivity |].
  cbn [Fmt.Sprintx allHex]. now rewrite !hexdigit_hex, IH.
Qed.

Lemma Sprintx_length (l : list Z) :
  String.length (Fmt.Sprintx l) = (2 * List.length l)%nat.
Proof.
  induction l as [|x l IH]; [reflexivity |].
  cbn [Fmt.Sprintx String.length List.length]. rewrite IH. lia.
Qed.

Lemma Sum_length (content : string) : List.length (Sha256.Sum content) = 32%nat.
Proof.
  unfold Sha256.Sum.
  destruct (Sha256.blocks _ _ _). reflexivity.
Qed.

Lemma hexchars_NoDup : List.NoDup Fmt.hexchars.
Proof.
  apply (List.NoDup_nth Fmt.hexchars "0"%char). intros i j Hi Hj.
  change (List.length Fmt.hexchars) with 16%nat in Hi, Hj.
  do 16 (destruct i as [|i]; [do 16 (destruct j as [|j]; [reflexivity || discriminate |]); lia |]).
  lia.
Qed.

Lemma hexdigit_inj (a b : Z) :
  Fmt.hexdigit a = Fmt.hexdigit b -> a mod 16 = b mod 16.
Proof.
  unfold Fmt.hexdigit. intros H.
  pose proof (Z.mod_pos_bound a 16). pose proof (Z.mod_pos_bound b 16).
  apply (proj1 (List.NoDup_nth Fmt.hexchars "0"%char) hexchars_NoDup) in H;
    change (List.length Fmt.hexchars) with 16%nat; lia.
Qed.

(** Two hexadecimal digits determine a byte. *)
Lemma hexdigits_byte (x y : Z) :
  0 <= x < 256 -> 0 <= y < 256 ->
  Fmt.hexdigit (x / 16) = Fmt.hexdigit (y / 16) ->
  Fmt.hexdigit x = Fmt.hexdigit y ->
  x = y.
Proof.
  intros Hx Hy Hhi Hlo. apply hexdigit_inj in Hhi, Hlo.
  revert Hhi Hlo. Z.div_mod_to_equations. lia.
Qed.

Lemma Sprintx_inj (l1 l2 : list Z) :
  List.Forall (fun b => 0 <= b < 256) l1 ->
  List.Forall (fun b => 0 <= b < 256) l2 ->
  Fmt.Sprintx l1 = Fmt.Sprintx l2 -> l1 = l2.
Proof.
  intros H1. revert l2. induction H1 as [|x l1 Hx _ IH]; intros l2 H2 E.
  - destruct l2; [reflexivity | discriminate].
  - destruct H2 as [|y l2 Hy H2]; [discriminate |].
    cbn [Fmt.Sprintx] in E. injection E as Ehi Elo Erest.
    f_equal; [now apply hexdigits_byte | now apply IH].
Qed.

Lemma be_bytes_range (width : nat) (x : Z) :
  List.Forall (fun b => 0 <= b < 256) (Sha256.be_bytes width x).
Proof.
  apply List.Forall_forall. intros b Hb. unfold Sha256.be_bytes in Hb.
  apply in_map_iff in Hb as (i & <- & _). apply Z.mod_pos_bound. lia.
Qed.

Lemma Sum_range (content : string) :
  List.Forall (fun b => 0 <= b < 256) (Sha256.Sum content).
Proof.
  unfold Sha256.Sum. destruct (Sha256.blocks _ _ _).
  repeat (apply List.Forall_app; split); apply be_bytes_range.
Qed.

(** The program compares digests in hexadecimal: two contents have the
    same text exactly when they have the same SHA-256 digest. *)
Lemma hashContent_eq_Sum (a b : string) :
  Vcs.hashContent a = Vcs.hashContent b <-> Sha256.Sum a = Sha256.Sum b.
Proof.
  unfold Vcs.hashContent. split; [|now intros ->].
  apply Sprintx_inj; apply Sum_range.
Qed.

Lemma hashContent_length (content : string) :
  String.length (Vcs.hashContent content) = 64%nat.
Proof. unfold Vcs.hashContent. now rewrite Sprintx_length, Sum_length. Qed.

Lemma hashContent_allHex (content : string) :
  allHex (Vcs.hashContent content) = true.
Proof. apply Sprintx_allHex. Qed.

Lemma allHex_noChar (c : ascii) (s : string) :
  existsb (Ascii.eqb c) Fmt.hexchars = false ->
  allHex s = true -> noChar c s = true.
Proof.
  intros Hc. induction s as [|d s IH]; [reflexivity |].
  cbn [allHex]. intros H. apply andb_prop in H as [Hd Hs].
  cbn [noChar]. rewrite (IH Hs), andb_true_r.
  destruct (Ascii.eqb_spec d c) as [->|]; [congruence | reflexivity].
Qed.

Lemma hashContent_noLF (content : string) :
  noChar LF (Vcs.hashContent content) = true.
Proof. apply allHex_noChar; [reflexivity | apply hashContent_allHex]. Qed.

Lemma hashContent_simple (content : string) :
  Os.simpleName (Vcs.hashContent content) = true.
Proof.
  pose proof (hashContent_length content) as Hlen.
  unfold Os.simpleName.
  rewrite (allHex_noChar "/" _ eq_refl (hashContent_allHex content)).
  assert (H1 : Vcs.hashContent content <> "") by (intros E; now rewrite E in Hlen).
  assert (H2 : Vcs.hashContent content <> ".") by (intros E; now rewrite E in Hlen).
  assert (H3 : Vcs.hashContent content <> "..") by (intros E; now rewrite E in Hlen).
  apply String.eqb_neq in H1, H2, H3. now rewrite H1, H2, H3.
Qed.


(** *** Running monadic code *)

Lemma bind_run {A B : Type} (m : M A) (f : A -> M B) (w : World) :
  (m ≫= f) w = match m w with
               | (w', Some a) => f a w'
               | (w', None) => (w', None)
               end.
Proof. reflexivity. Qed.

Lemma ret_run {A : Type} (a : A) (w : World) : (mret a : M A) w = (w, Some a).
Proof. reflexivity. Qed.

Lemma sysRead_run {A : Type} (f : FS -> A) (w : World) :
  sysRead f w = (w, Some (f (files w))).
Proof. reflexivity. Qed.

Lemma sysWrite_run (f : FS -> result FS) (w : World) :
  sysWrite f w = match f (files w) with
                 | Ok fs' => (mkWorld fs' (stdout w), Some (Ok tt))
                 | Err e => (w, Some (Err e))
                 end.
Proof. reflexivity. Qed.

Lemma fatal_run {A : Type} (w : World) : (fatal : M A) w = (w, None).
Proof. reflexivity. Qed.

Ltac mrun :=
  repeat first [ rewrite bind_run | rewrite ret_run | rewrite sysRead_run
               | rewrite sysWrite_run | rewrite fatal_run
               | progress cbv beta iota ].

Lemma eta_World (w : World) : mkWorld (files w) (stdout w) = w.
Proof. now destruct w. Qed.

(** *** A commit on an empty index *)

(** C7 (amended).  A commit attempted while the staging index is missing
    or empty is rejected and changes no file, so no snapshot directory
    is created and nothing is written to the log.  The report is
    "Nothing to commit." when a message was passed; without a message
    the run already ends with "Message was not passed.". *)
Theorem commit_empty_index (w : World) (args : list string) (now : Z) :
  isIndexEmpty w = (w, Some true) ->
  handleCommit args now w
  = (mkWorld (files w)
             (stdout w
              +:+ (if String.eqb (getMessageFromArgs args) ""
                   then "Message was not passed."
                   else "Nothing to commit.") +:+ nl),
     Some tt).
Proof.
  intros Hempty. unfold handleCommit.
  destruct (String.eqb (getMessageFromArgs args) ""); [reflexivity |].
  rewrite bind_run, Hempty. reflexivity.
Qed.

(** C7, witness: a commit with a message on a repository without index. *)
Lemma commit_empty_index_witness :
  let w := mkWorld (<["vcs" := Dir]> ∅) "" in
  handleCommit ["first"] 17 w
  = (mkWorld (files w) ("Nothing to commit." +:+ nl), Some tt).
Proof.
  intros w. apply (commit_empty_index w ["first"] 17). reflexivity.
Defined.

(** C7, counterexample: with an empty index and no message the report
    is "Message was not passed.", not "Nothing to commit.". *)
Lemma commit_empty_index_no_message :
  let w := mkWorld (<["vcs" := Dir]> ∅) "" in
  isIndexEmpty w = (w, Some true)
  /\ handleCommit [] 17 w
     = (mkWorld (files w) ("Message was not passed." +:+ nl), Some tt)
  /\ stdout (fst (handleCommit [] 17 w)) <> stdout w +:+ "Nothing to commit." +:+ nl.
Proof.
  intros w. split; [reflexivity |]. split; [reflexivity |].
  vm_compute. discriminate.
Qed.

(** *** The commit identifier *)

(** C9.  When the index can be read and is not empty, [createId] returns
    the SHA-256 digest of the bytes of the index followed by the decimal
    clock reading (nanoseconds): 32 bytes, written as 64 lower-case
    hexadecimal digits.  The digest is a function of these bytes alone,
    and the call changes nothing. *)
Theorem createId_derivation (c : Commit) (now : Z) (w : World) (indexContent : string) :
  ReadFile (files w) indexFilePath = Ok indexContent ->
  indexContent <> "" ->
  let id := hashContent (indexContent +:+ Fmt.Sprintd now) in
  createId c now w = (w, Some (Ok id))
  /\ id = Fmt.Sprintx (Sha256.Sum (indexContent +:+ Fmt.Sprintd now))
  /\ List.length (Sha256.Sum (indexContent +:+ Fmt.Sprintd now)) = 32%nat
  /\ String.length id = 64%nat
  /\ allHex id = true.
Proof.
  intros Hread Hne id. unfold createId.
  rewrite bind_run, sysRead_run, Hread.
  apply String.eqb_neq in Hne. rewrite Hne.
  repeat split.
  - apply Sum_length.
  - apply hashContent_length.
  - apply hashContent_allHex.
Qed.

(** C9, witness: the identifier of the index "a.txt\n" at clock 17. *)
Lemma createId_derivation_witness :
  let w := mkWorld (<[indexFilePath := File ("a.txt" +:+ nl)]> (<["vcs" := Dir]> ∅)) "" in
  createId (mkCommit "" "alice" "first") 17 w
  = (w, Some (Ok "2e87cd8ea0c588ed5b0a1ad8cb798fef31a4dbca4889b5e5b78482fa7aad081c")).
Proof.
  intros w.
  destruct (createId_derivation (mkCommit "" "alice" "first") 17 w ("a.txt" +:+ nl))
    as [H _]; [reflexivity | discriminate |].
  rewrite H. vm_compute. reflexivity.
Defined.

(** *** Checkout of a commit that is not there *)

Lemma findEntry_None (commitEntries : list string) (id : string) :
  findEntry commitEntries id = None
  <-> Forall (fun entry => entryID entry <> id) commitEntries.
Proof.
  induction commitEntries as [|entry rest IH]; simpl.
  - split; [constructor | reflexivity].
  - fold (entryID entry).
    destruct (String.eqb_spec (entryID entry) id) as [Heq|Hne].
    + destruct (fold_left scanLine _ _). split; [discriminate |].
      intros H. inversion H; subst. congruence.
    + rewrite IH. split.
      * intros H. now constructor.
      * intros H. now inversion H.
Qed.

Lemma sysWrite_stdout (f : FS -> result FS) (w w' : World) (r : option (result unit)) :
  sysWrite f w = (w', r) -> stdout w' = stdout w /\ r <> None.
Proof.
  unfold sysWrite. destruct (f (files w)); intros H; injection H as <- <-;
    split; (reflexivity || discriminate).
Qed.

Lemma copyFile_stdout (src dst : string) (w w' : World) (r : option (result unit)) :
  copyFile src dst w = (w', r) -> stdout w' = stdout w /\ r <> None.
Proof.
  unfold copyFile. rewrite bind_run, sysRead_run.
  destruct (Stat (files w) src); [|intros H; injection H as <- <-; now split].
  rewrite bind_run.
  destruct (sysWrite _ w) as [w1 r1] eqn:H1.
  apply sysWrite_stdout in H1 as [H1 Hr1].
  destruct r1 as [[[]|e]|]; [| |congruence].
  - rewrite bind_run, sysRead_run.
    destruct (ReadFile (files w1) src).
    + intros H. apply sysWrite_stdout in H as [H Hr]. split; congruence.
    + intros H; injection H as <- <-. split; [assumption | discriminate].
  - intros H; injection H as <- <-. split; [assumption | discriminate].
Qed.

Lemma restoreEach_stdout (names : list string) (d : string) (w w' : World) (r : option unit) :
  restoreEach names d w = (w', r) -> stdout w' = stdout w.
Proof.
  revert w. induction names as [|n names IH]; intros w; simpl.
  - intros H; now injection H as <- <-.
  - rewrite bind_run.
    destruct (copyFile _ _ w) as [w1 r1] eqn:H1.
    apply copyFile_stdout in H1 as [H1 Hr1].
    destruct r1 as [[[]|e]|]; [| |congruence].
    + intros H. apply IH in H. congruence.
    + intros H; now injection H as <- <-.
Qed.

(** C1 (amended).  [checkout commitID] reports "Commit does not exist."
    exactly when [os.Stat] of vcs/commits/<commitID> fails with
    not-exist (nothing is at the path, and the path does not lead
    through a regular file), or the log can be read and no entry of it
    has the identifier as its first line, a leading "commit " removed:
    something at the path and such a log entry are both needed. *)
Theorem checkout_missing_iff (w : World) (commitID : string) :
  reportsMissing commitID w
  <-> (IsNotExist (Stat (files w) (Filepath.Join [commitDir; commitID])) = true
       \/ exists logContent,
            ReadFile (files w) logFilePath = Ok logContent
            /\ Forall (fun entry => entryID entry <> commitID)
                      (Strings.Split logContent (nl +:+ nl))).
Proof.
  unfold reportsMissing, switchCommit, findCommitById.
  rewrite !bind_run, sysRead_run.
  destruct (IsNotExist (Stat (files w) _)) eqn:Hstat.
  - rewrite ret_run. split; [now left | reflexivity].
  - rewrite bind_run, sysRead_run.
    destruct (ReadFile (files w) logFilePath) as [logContent|e] eqn:Hlog.
    + rewrite ret_run.
      destruct (findEntry _ commitID) as [c|] eqn:Hfind.
      * split.
        -- rewrite bind_run, sysRead_run.
           destruct (ReadDir (files w) _) as [names|e]; [|discriminate].
           rewrite bind_run.
           destruct (restoreEach names _ w) as [w1 [[]|]] eqn:Hrest; [|discriminate].
           apply restoreEach_stdout in Hrest.
           unfold Print. rewrite Hrest. intros H. injection H as _ H.
           apply app_inv_head_s in H. discriminate.
        -- intros [H|(l & Hl & Hall)]; [discriminate |].
           injection Hl as <-. apply findEntry_None in Hall. congruence.
      * split; [|reflexivity].
        intros _. right. exists logContent. split; [reflexivity |].
        now apply findEntry_None.
    + split; [discriminate |].
      intros [H|(l & Hl & _)]; discriminate.
Qed.

(** C1, counterexample: a snapshot directory without a log entry, and a
    log entry without a snapshot directory, are both reported as
    missing. *)
Lemma checkout_needs_both :
  let entry := "commit abc" +:+ nl +:+ "Author: alice" +:+ nl +:+ "first" +:+ nl +:+ nl in
  let w1 := mkWorld (<[logFilePath := File ""]>
                     (<["vcs/commits/abc" := Dir]>
                      (<["vcs/commits" := Dir]> (<["vcs" := Dir]> ∅)))) "" in
  let w2 := mkWorld (<[logFilePath := File entry]>
                     (<["vcs/commits" := Dir]> (<["vcs" := Dir]> ∅))) "" in
  (Stat (files w1) (Filepath.Join [commitDir; "abc"]) = Ok Dir
   /\ reportsMissing "abc" w1)
  /\ (findEntry (Strings.Split entry (nl +:+ nl)) "abc"
      = Some (mkCommit "abc" "alice" "first")
      /\ reportsMissing "abc" w2).
Proof. vm_compute. repeat split. Qed.


(** *** The log *)

Lemma ReadFile_insert_File (fs : FS) (path data : string) (n : node) :
  lookup fs path = Some n \/ parentCheck fs path = Ok tt ->
  lookup fs path <> Some Dir ->
  ReadFile (<[key path := File data]> fs) path = Ok data.
Proof.
  unfold ReadFile, lookup, parentCheck.
  destruct (String.eqb path ""); [intros [|]; discriminate |].
  destruct (alwaysDir (key path)); [congruence |].
  intros _ _. now rewrite lookup_insert_eq.
Qed.

Lemma WriteFile_Ok (fs fs' : FS) (path data : string) :
  WriteFile fs path data = Ok fs' ->
  fs' = <[key path := File data]> fs /\ ReadFile fs' path = Ok data.
Proof.
  unfold WriteFile.
  destruct (lookup fs path) as [[old|]|] eqn:Hl; try discriminate.
  - intros H; injection H as <-. split; [reflexivity |].
    eapply (ReadFile_insert_File _ _ _ (File old)); [now left | congruence].
  - destruct (parentCheck fs path) as [[]|] eqn:Hp; [|discriminate].
    intros H; injection H as <-. split; [reflexivity |].
    eapply (ReadFile_insert_File _ _ _ Dir); [now right | congruence].
Qed.

Lemma createLog_Ok (c : Commit) (w w' : World) :
  createLog c w = (w', Some tt) ->
  files w' = <[key logFilePath := File (logEntry c +:+ logBefore w)]> (files w)
  /\ stdout w' = stdout w
  /\ ReadFile (files w') logFilePath = Ok (logEntry c +:+ logBefore w).
Proof.
  unfold createLog, logBefore. rewrite bind_run, sysRead_run.
  destruct (isErr _ && negb _); [discriminate |].
  rewrite bind_run. unfold sysWrite.
  destruct (WriteFile _ _ _) as [fs'|e] eqn:Hw; [|discriminate].
  apply WriteFile_Ok in Hw as [-> Hr].
  rewrite ret_run. intros H; injection H as <-. simpl. auto.
Qed.

Lemma logEntry_first_line (c : Commit) (rest : string) :
  noChar LF (HashID c) = true ->
  hd EmptyString (Strings.Split (logEntry c +:+ rest) nl) = "commit " +:+ HashID c.
Proof.
  intros Hid.
  assert (E : logEntry c +:+ rest
              = ("commit " +:+ HashID c)
                +:+ (LF ::: ("Author: " +:+ Author c +:+ nl +:+ Message c
                             +:+ nl +:+ nl +:+ rest))).
  { unfold logEntry. rewrite !app_assoc_s. reflexivity. }
  rewrite E. unfold nl at 1. rewrite split1_app; [reflexivity |].
  now rewrite noChar_app, Hid.
Qed.

Lemma getLastCommitID_run (w : World) (logContent : string) :
  IsNotExist (Stat (files w) commitDir) = false ->
  ReadFile (files w) logFilePath = Ok logContent ->
  getLastCommitID w
  = (w, Some (Strings.TrimPrefix (hd EmptyString (Strings.Split logContent nl)) "commit ")).
Proof.
  intros Hdir Hlog. unfold getLastCommitID.
  mrun. rewrite Hdir. mrun. rewrite Hlog. reflexivity.
Qed.

Lemma lookup_insert_other (fs : FS) (path k : string) (n : node) :
  k <> key path -> lookup (<[k := n]> fs) path = lookup fs path.
Proof.
  intros Hne. unfold lookup.
  destruct (String.eqb path ""); [reflexivity |].
  destruct (alwaysDir (key path)); [reflexivity |].
  now rewrite lookup_insert_ne.
Qed.

Lemma lookup_insert_cases (fs : FS) (path k : string) (n : node) :
  lookup (<[k := n]> fs) path = lookup fs path
  \/ lookup (<[k := n]> fs) path = Some n.
Proof.
  destruct (decide (k = key path)) as [->|Hne].
  - unfold lookup. destruct (String.eqb path ""); [now left |].
    destruct (alwaysDir (key path)); [now left |].
    right. apply lookup_insert_eq.
  - left. now apply lookup_insert_other.
Qed.

(** A new regular file leaves a path below a regular file where it
    was. *)
Lemma belowFile_insert_File (n : nat) (fs : FS) (k data x : string) :
  belowFile n fs x = true -> belowFile n (<[k := File data]> fs) x = true.
Proof.
  revert x. induction n as [|n IH]; intros x; cbn [belowFile]; [trivial |].
  destruct (lookup_insert_cases fs (Filepath.Dir (key x)) k (File data))
    as [-> | ->]; [|reflexivity].
  destruct (lookup fs (Filepath.Dir (key x))) as [[?|]|]; auto.
Qed.

Lemma IsNotExist_insert (fs : FS) (path k : string) (data : string) :
  IsNotExist (Stat fs path) = false ->
  IsNotExist (Stat (<[k := File data]> fs) path) = false.
Proof.
  unfold Stat.
  destruct (lookup_insert_cases fs path k (File data)) as [-> | ->];
    [|reflexivity].
  destruct (lookup fs path); [trivial |].
  destruct (belowFile _ fs _) eqn:Hb; [|discriminate]. intros _.
  now rewrite belowFile_insert_File.
Qed.

Lemma Stat_Ok_lookup (fs : FS) (path : string) (n : node) :
  Stat fs path = Ok n <-> lookup fs path = Some n.
Proof.
  unfold Stat. destruct (lookup fs path); split; congruence.
Qed.

(** [os.IsNotExist] of [os.Stat]: nothing at the path, and the path does
    not lead through a regular file. *)
Lemma IsNotExist_Stat (fs : FS) (path : string) :
  IsNotExist (Stat fs path) = true
  <-> lookup fs path = None
      /\ belowFile (String.length path) fs path = false.
Proof.
  unfold Stat. destruct (lookup fs path).
  - split; [discriminate | intros [? _]; discriminate].
  - destruct (belowFile _ fs _); split; try discriminate; auto.
    intros [_ ?]; discriminate.
Qed.

Lemma Stat_insert_not_Dir (fs : FS) (path k : string) (n : node) :
  k <> key path -> Stat fs path <> Ok Dir -> Stat (<[k := n]> fs) path <> Ok Dir.
Proof.
  intros Hne. rewrite !Stat_Ok_lookup.
  now rewrite lookup_insert_other.
Qed.

(** C5.  [createLog] puts the new entry in front of the log.  After the
    entries of two commits [c1], then [c2], whose identifiers are
    digests as [createId] makes them, the log reads entry of [c2], entry
    of [c1], earlier content; [getLastCommitID] returns the identifier
    of [c2]; and [log] prints the log in that order. *)
Theorem log_newest_first (w w1 w2 : World) (content1 content2 : string)
        (author1 message1 author2 message2 : string) :
  let c1 := mkCommit (hashContent content1) author1 message1 in
  let c2 := mkCommit (hashContent content2) author2 message2 in
  IsNotExist (Stat (files w) commitDir) = false ->
  createLog c1 w = (w1, Some tt) ->
  createLog c2 w1 = (w2, Some tt) ->
  ReadFile (files w2) logFilePath
  = Ok (logEntry c2 +:+ logEntry c1 +:+ logBefore w)
  /\ getLastCommitID w2 = (w2, Some (HashID c2))
  /\ (forall name names,
        ReadDir (files w2) commitDir = Ok (name :: names) ->
        readCommits w2
        = (mkWorld (files w2)
                   (stdout w2 +:+ (logEntry c2 +:+ logEntry c1 +:+ logBefore w) +:+ nl),
           Some tt)).
Proof.
  intros c1 c2 Hdir H1 H2.
  apply createLog_Ok in H1 as (Hf1 & _ & Hr1).
  apply createLog_Ok in H2 as (Hf2 & _ & Hr2).
  assert (Hb : logBefore w1 = logEntry c1 +:+ logBefore w).
  { unfold logBefore at 1. now rewrite Hr1. }
  rewrite Hb in *.
  split; [exact Hr2 |]. split.
  - rewrite (getLastCommitID_run w2 _) with (2 := Hr2).
    + rewrite logEntry_first_line by apply hashContent_noLF.
      now rewrite TrimPrefix_app.
    + rewrite Hf2, Hf1. now do 2 apply IsNotExist_insert.
  - intros name names Hls. unfold readCommits.
    rewrite bind_run, sysRead_run, Hls, bind_run, sysRead_run, Hr2.
    reflexivity.
Qed.


(** *** The staging index *)

Lemma split1_terminated (old : string) :
  terminated old = true ->
  exists body,
    Strings.Split old nl = (body ++ [""])%list
    /\ (old <> "" -> body <> [])
    /\ forall x, Strings.Split (old +:+ x) nl = (body ++ Strings.Split x nl)%list.
Proof.
  induction old as [|c old IH]; intros Ht.
  - exists []. split; [reflexivity |]. split; [congruence | reflexivity].
  - destruct old as [|d old'].
    + simpl in Ht. apply Ascii.eqb_eq in Ht as ->.
      exists [""]. split; [reflexivity |]. split; [discriminate |].
      intros x. rewrite app_cons_s, app_nil_s. unfold nl.
      now rewrite split1_cons, ascii_eqb_refl.
    + change (terminated (c ::: d ::: old')) with (terminated (d ::: old')) in Ht.
      destruct (IH Ht) as (body & Hs & Hne & Happ).
      destruct body as [|p r]; [exfalso; now apply Hne |].
      unfold nl in *.
      destruct (Ascii.eqb_spec LF c) as [<-|Hc].
      * exists ("" :: p :: r). split; [|split; [discriminate |]].
        -- rewrite split1_cons, ascii_eqb_refl, Hs. reflexivity.
        -- intros x. rewrite app_cons_s, split1_cons, ascii_eqb_refl, Happ.
           reflexivity.
      * apply Ascii.eqb_neq in Hc.
        exists ((c ::: p) :: r). split; [|split; [discriminate |]].
        -- rewrite split1_cons, Hc, Hs. reflexivity.
        -- intros x. rewrite app_cons_s, split1_cons, Hc, Happ. reflexivity.
Qed.

Lemma terminated_app_nl (old f : string) :
  terminated (old +:+ f +:+ nl) = true.
Proof.
  assert (H : forall s, terminated (s +:+ nl) = true).
  { induction s as [|c s IH]; [reflexivity |].
    rewrite app_cons_s. cbn [terminated].
    destruct (s +:+ nl) eqn:E; [|exact IH].
    destruct s; discriminate. }
  rewrite <- app_assoc_s. apply H.
Qed.

Lemma existsb_eqb_In (f : string) (l : list string) :
  existsb (fun path => String.eqb path f) l = true <-> In f l.
Proof.
  rewrite existsb_exists. split.
  - intros (x & Hx & E). apply String.eqb_eq in E. now subst.
  - intros H. exists f. split; [assumption | apply String.eqb_refl].
Qed.

Lemma app_self_inv (s t : string) : s = s +:+ t -> t = "".
Proof.
  intros H. rewrite <- (app_empty_r s) in H at 1.
  now apply app_inv_head_s in H.
Qed.

Lemma key_index : key indexFilePath = indexFilePath.
Proof. reflexivity. Qed.

Lemma ReadFile_index_insert (fs : FS) (data : string) :
  ReadFile (<[key indexFilePath := File data]> fs) indexFilePath = Ok data.
Proof.
  unfold ReadFile, lookup.
  change (String.eqb indexFilePath "") with false.
  change (alwaysDir (key indexFilePath)) with false.
  cbv iota. now rewrite lookup_insert_eq.
Qed.

(** One run of [add file] on a world whose index exists. *)
Lemma handleAdd_run (w : World) (file indexContent : string) :
  file <> "" ->
  ReadFile (files w) indexFilePath = Ok indexContent ->
  handleAdd [file] w
  = if IsNotExist (Stat (files w) file)
    then (mkWorld (files w) (stdout w +:+ "Can't find '" +:+ file +:+ "'." +:+ nl), Some tt)
    else if existsb (fun path => String.eqb path file) (Strings.Split indexContent nl)
    then (mkWorld (files w) (stdout w +:+ alreadyText file), Some tt)
    else (mkWorld (<[key indexFilePath := File (indexContent +:+ file +:+ nl)]> (files w))
                  (stdout w +:+ trackedText file), Some tt).
Proof.
  intros Hfile Hidx.
  assert (Hstat : IsNotExist (Stat (files w) indexFilePath) = false).
  { unfold ReadFile in Hidx. unfold Stat.
    destruct (lookup (files w) indexFilePath); [reflexivity | discriminate]. }
  assert (Hlook : lookup (files w) indexFilePath = Some (File indexContent)).
  { unfold ReadFile in Hidx.
    destruct (lookup (files w) indexFilePath) as [[?|]|]; congruence. }
  unfold handleAdd. mrun. rewrite Hstat. mrun. rewrite Hidx. mrun.
  unfold setupAdd. apply String.eqb_neq in Hfile. rewrite Hfile.
  unfold trackFile. mrun.
  destruct (IsNotExist (Stat (files w) file)); [reflexivity |].
  unfold isFileTracked. mrun. rewrite Hidx. mrun.
  destruct (existsb _ _); [reflexivity |].
  unfold createIndex. mrun. unfold AppendString.
  rewrite Hlook. reflexivity.
Qed.

Lemma handleAdd_fresh (w : World) (file : string) :
  IsNotExist (Stat (files w) indexFilePath) = true ->
  handleAdd [file] w
  = match Create (files w) indexFilePath with
    | Ok fs' => handleAdd [file] (mkWorld fs' (stdout w))
    | Err _ => (w, None)
    end.
Proof.
  intros Hstat. unfold handleAdd at 1. mrun. rewrite Hstat. mrun.
  destruct (Create (files w) indexFilePath) as [fs'|e] eqn:Hc; [|reflexivity].
  cbv iota.
  assert (Hr : ReadFile fs' indexFilePath = Ok "").
  { unfold Create in Hc. now apply WriteFile_Ok in Hc. }
  assert (Hs : IsNotExist (Stat fs' indexFilePath) = false).
  { unfold ReadFile in Hr. unfold Stat.
    destruct (lookup fs' indexFilePath); [reflexivity | discriminate]. }
  unfold handleAdd. mrun. cbn [files stdout]. rewrite Hs. mrun.
  cbn [files stdout]. reflexivity.
Qed.

Lemma addAgain_tracked (file indexContent : string) (n : nat) (w : World) :
  file <> "" ->
  ReadFile (files w) indexFilePath = Ok indexContent ->
  In file (Strings.Split indexContent nl) ->
  IsNotExist (Stat (files w) file) = false ->
  addAgain n file w
  = (mkWorld (files w) (stdout w +:+ repeatText n (alreadyText file)), Some tt).
Proof.
  intros Hfile. revert w. induction n as [|n IH]; intros w Hidx Hin Hstat.
  - simpl. now rewrite app_empty_r, eta_World.
  - cbn [addAgain repeatText].
    rewrite (handleAdd_run w file indexContent Hfile Hidx), Hstat.
    pose proof Hin as Hex. apply existsb_eqb_In in Hex. rewrite Hex.
    rewrite IH; cbn [files stdout]; try assumption.
    now rewrite app_assoc_s.
Qed.

Lemma stage_core (w w1 : World) (file indexContent : string) :
  file <> "" ->
  noChar LF file = true ->
  ReadFile (files w) indexFilePath = Ok indexContent ->
  terminated indexContent = true ->
  handleAdd [file] w = (w1, Some tt) ->
  stdout w1 = stdout w +:+ trackedText file ->
  ReadFile (files w1) indexFilePath = Ok (indexContent +:+ file +:+ nl)
  /\ count_occ string_dec (Strings.Split (indexContent +:+ file +:+ nl) nl) file = 1%nat
  /\ IsNotExist (Stat (files w1) file) = false.
Proof.
  intros Hfile Hfree Hidx Hterm Hrun Hout.
  rewrite (handleAdd_run w file indexContent Hfile Hidx) in Hrun.
  destruct (IsNotExist (Stat (files w) file)) eqn:Hstat.
  { injection Hrun as <-. cbn [stdout] in Hout.
    apply app_inv_head_s in Hout. discriminate. }
  destruct (existsb _ _) eqn:Hex.
  { injection Hrun as <-. cbn [stdout] in Hout.
    apply app_inv_head_s in Hout. unfold alreadyText, trackedText in Hout.
    apply (app_inv_head_s "The file '") in Hout.
    apply app_inv_head_s in Hout. discriminate. }
  injection Hrun as <-. cbn [files].
  split; [apply ReadFile_index_insert |].
  split; [|now apply IsNotExist_insert].
  destruct (split1_terminated indexContent Hterm) as (body & Hs & _ & Happ).
  rewrite Happ. unfold nl at 1. rewrite split1_app by assumption.
  change (Strings.Split "" (LF ::: "")) with [""].
  rewrite count_occ_app.
  assert (Hnot : ~ In file body).
  { intros Hin. apply not_true_iff_false in Hex. apply Hex.
    apply existsb_eqb_In. rewrite Hs. apply in_or_app. now left. }
  apply (count_occ_not_In string_dec) in Hnot. rewrite Hnot.
  cbn [count_occ].
  destruct (string_dec file file); [|congruence].
  destruct (string_dec "" file); [congruence | reflexivity].
Qed.

(** C6 (amended).  Let [file] be a path without line feed, staged with
    success into an index that is missing, empty or ends in a line
    feed.  Then [file] is exactly one line of the index, and each of any
    number of further [add file] runs reports that the file is already
    tracked and changes no file. *)
Theorem stage_once (w w1 : World) (file : string) :
  file <> "" ->
  noChar LF file = true ->
  indexTerminated w ->
  handleAdd [file] w = (w1, Some tt) ->
  stdout w1 = stdout w +:+ trackedText file ->
  (exists indexContent,
     ReadFile (files w1) indexFilePath = Ok indexContent
     /\ count_occ string_dec (Strings.Split indexContent nl) file = 1%nat)
  /\ forall n,
       addAgain n file w1
       = (mkWorld (files w1) (stdout w1 +:+ repeatText n (alreadyText file)), Some tt).
Proof.
  intros Hfile Hfree Hterm Hrun Hout.
  assert (Hcore : exists w0 indexContent,
             ReadFile (files w0) indexFilePath = Ok indexContent
             /\ terminated indexContent = true
             /\ handleAdd [file] w0 = (w1, Some tt)
             /\ stdout w0 = stdout w).
  { destruct (IsNotExist (Stat (files w) indexFilePath)) eqn:Hstat.
    - rewrite (handleAdd_fresh w file Hstat) in Hrun.
      destruct (Create (files w) indexFilePath) as [fs'|e] eqn:Hc; [|discriminate].
      exists (mkWorld fs' (stdout w)), "".
      unfold Create in Hc. apply WriteFile_Ok in Hc as [_ Hc]. auto.
    - unfold indexTerminated in Hterm.
      destruct (ReadFile (files w) indexFilePath) as [indexContent|e] eqn:Hidx.
      + exists w, indexContent. auto.
      + unfold handleAdd in Hrun. revert Hrun. mrun. rewrite Hstat. mrun.
        rewrite Hidx. discriminate. }
  destruct Hcore as (w0 & indexContent & Hidx & Ht & Hrun0 & Hout0).
  rewrite <- Hout0 in Hout.
  destruct (stage_core w0 w1 file indexContent Hfile Hfree Hidx Ht Hrun0 Hout)
    as (Hr1 & Hcount & Hstat1).
  split; [eauto |].
  intros n. apply (addAgain_tracked file (indexContent +:+ file +:+ nl)); try assumption.
  destruct (in_dec string_dec file (Strings.Split (indexContent +:+ file +:+ nl) nl))
    as [Hin|Hnin]; [assumption |].
  apply (count_occ_not_In string_dec) in Hnin. lia.
Qed.

(** C6, witness: [a.txt] staged, then staged three more times. *)
Lemma stage_once_witness :
  let w := mkWorld (<["a.txt" := File "hello"]> (<["vcs" := Dir]> ∅)) "" in
  let w1 := fst (handleAdd ["a.txt"] w) in
  ReadFile (files w1) indexFilePath = Ok ("a.txt" +:+ nl)
  /\ addAgain 3 "a.txt" w1
     = (mkWorld (files w1)
                (stdout w1 +:+ repeatText 3 (alreadyText "a.txt")), Some tt).
Proof.
  intros w w1.
  destruct (stage_once w w1 "a.txt") as [_ H];
    [discriminate | reflexivity | exact I | reflexivity | reflexivity |].
  split; [reflexivity | apply H].
Defined.

(** C6, counterexample: a path with a line feed in it is not found in
    the index again; the second [add] is accepted and appends it once
    more. *)
Lemma stage_twice_with_line_feed :
  let file := "a" +:+ nl +:+ "b" in
  let w := mkWorld (<[file := File "hello"]> (<["vcs" := Dir]> ∅)) "" in
  let w1 := fst (handleAdd [file] w) in
  let w2 := fst (handleAdd [file] w1) in
  handleAdd [file] w = (w1, Some tt)
  /\ stdout w1 = stdout w +:+ trackedText file
  /\ ReadFile (files w1) indexFilePath = Ok (file +:+ nl)
  /\ count_occ string_dec (Strings.Split (file +:+ nl) nl) file = 0%nat
  /\ stdout w2 = stdout w1 +:+ trackedText file
  /\ ReadFile (files w2) indexFilePath = Ok (file +:+ nl +:+ file +:+ nl).
Proof. vm_compute. repeat split. Qed.


(** *** Reading and copying files *)

Lemma ReadFile_ext (fs1 fs2 : FS) (path : string) :
  fs1 !! key path = fs2 !! key path -> ReadFile fs1 path = ReadFile fs2 path.
Proof.
  intros H. unfold ReadFile, lookup.
  destruct (String.eqb path ""); [reflexivity |].
  destruct (alwaysDir (key path)); [reflexivity |]. now rewrite H.
Qed.

Lemma ReadFile_insert_ne (fs : FS) (path k : string) (n : node) :
  k <> key path -> ReadFile (<[k := n]> fs) path = ReadFile fs path.
Proof. intros H. apply ReadFile_ext. now rewrite lookup_insert_ne. Qed.

Lemma ReadFile_insert_same (fs : FS) (path old data : string) :
  ReadFile fs path = Ok old ->
  ReadFile (<[key path := File data]> fs) path = Ok data.
Proof.
  unfold ReadFile, lookup.
  destruct (String.eqb path ""); [discriminate |].
  destruct (alwaysDir (key path)); [discriminate |].
  intros _. now rewrite lookup_insert_eq.
Qed.

Lemma copyFile_Ok (src dst : string) (w w' : World) :
  copyFile src dst w = (w', Some (Ok tt)) ->
  exists data,
    ReadFile (<[key dst := File ""]> (files w)) src = Ok data
    /\ files w' = <[key dst := File data]> (files w)
    /\ ReadFile (files w') dst = Ok data.
Proof.
  unfold copyFile. mrun.
  destruct (Stat (files w) src); [|discriminate].
  mrun. unfold Create.
  destruct (WriteFile (files w) dst "") as [fs1|e] eqn:Hc; [|discriminate].
  apply WriteFile_Ok in Hc as [-> Hr].
  mrun. cbn [files stdout].
  destruct (ReadFile _ src) as [data|e]; [|discriminate].
  mrun. cbn [files stdout]. intros H. injection H as <-.
  exists data. cbn [files].
  rewrite insert_insert_eq. split; [reflexivity |]. split; [reflexivity |].
  pose proof (ReadFile_insert_same _ _ _ data Hr) as H.
  now rewrite insert_insert_eq in H.
Qed.

Lemma copyFile_frame (src dst : string) (w w' : World) (r : option (result unit)) (k : string) :
  copyFile src dst w = (w', r) ->
  k <> key dst ->
  files w' !! k = files w !! k.
Proof.
  intros H Hk. revert H. unfold copyFile. mrun.
  destruct (Stat (files w) src); [|intros H; now injection H as <- _].
  mrun. unfold Create.
  destruct (WriteFile (files w) dst "") as [fs1|e] eqn:Hc;
    [|intros H; now injection H as <- _].
  apply WriteFile_Ok in Hc as [-> _].
  mrun. cbn [files stdout].
  destruct (ReadFile _ src) as [data|e]; mrun; cbn [files stdout];
    intros H; injection H as <- _; cbn [files];
    rewrite ?insert_insert_eq; now rewrite lookup_insert_ne by congruence.
Qed.

(** *** Directory entries *)

Lemma entries_simple (fs : FS) (d name : string) :
  In name (entries fs d) -> simpleName name = true.
Proof.
  intros H. apply list_elem_of_In in H. unfold entries in H.
  rewrite merge_sort_Permutation in H.
  apply list_elem_of_fmap in H as (k & -> & Hk).
  apply list_elem_of_filter in Hk as [Hk _].
  unfold isEntry in Hk. now apply andb_prop in Hk as [Hk _].
Qed.

Lemma ReadDir_simple (fs : FS) (path name : string) (names : list string) :
  ReadDir fs path = Ok names -> In name names -> simpleName name = true.
Proof.
  unfold ReadDir. destruct (lookup fs path) as [[|]|]; try discriminate.
  intros H; injection H as <-. apply entries_simple.
Qed.

Lemma key_name (name : string) :
  simpleName name = true -> key (Filepath.Join ["."; name]) = name.
Proof. intros H. unfold key. now rewrite Join_dot, Clean_name. Qed.

(** *** Checkout *)

Lemma restoreEach_frame (names : list string) (d : string) (w w' : World) (r : option unit) (k : string) :
  restoreEach names d w = (w', r) ->
  (forall name, In name names -> k <> key (Filepath.Join ["."; name])) ->
  files w' !! k = files w !! k.
Proof.
  revert w. induction names as [|n names IH]; intros w H Hk.
  - simpl in H. now injection H as <- _.
  - cbn [restoreEach] in H. revert H. mrun.
    destruct (copyFile _ _ w) as [w1 r1] eqn:H1.
    apply copyFile_frame with (k := k) in H1; [|apply Hk; now left].
    destruct r1 as [[[]|e]|]; intros H.
    + rewrite <- H1. apply (IH w1 H). intros name Hn. apply Hk. now right.
    + now injection H as <- _.
    + now injection H as <- _.
Qed.

Lemma findCommitById_world (id : string) (w w' : World) (r : option (option Commit)) :
  findCommitById id w = (w', r) -> w' = w.
Proof.
  unfold findCommitById. mrun.
  destruct (IsNotExist _); mrun; [intros H; now injection H |].
  destruct (ReadFile _ _); mrun; intros H; now injection H.
Qed.

(** C8.  Whatever the outcome of [checkout commitID], a file of the
    working tree whose name is not the name of an entry of the snapshot
    directory is left as it was: nothing is removed, nothing else is
    written. *)
Theorem checkout_frame (w w' : World) (commitID : string) (r : option unit) (k : string) :
  switchCommit commitID w = (w', r) ->
  (forall names,
     ReadDir (files w) (Filepath.Join [commitDir; commitID]) = Ok names ->
     ~ In k names) ->
  files w' !! k = files w !! k.
Proof.
  unfold switchCommit. mrun.
  destruct (findCommitById commitID w) as [w0 c] eqn:Hfind.
  apply findCommitById_world in Hfind as ->.
  destruct c as [[c|]|]; [| |intros H; now injection H as <- _].
  - mrun.
    destruct (ReadDir (files w) _) as [names|e] eqn:Hdir;
      [|intros H; now injection H as <- _].
    mrun.
    destruct (restoreEach names _ w) as [w1 r1] eqn:Hrest.
    intros H Hk.
    assert (Hframe : files w1 !! k = files w !! k).
    { apply (restoreEach_frame _ _ _ _ _ _ Hrest).
      intros name Hin.
      rewrite key_name by (eapply ReadDir_simple; eassumption).
      intros ->. now apply (Hk names). }
    destruct r1 as [[]|]; injection H as <- _; exact Hframe.
  - intros H _. now injection H as <- _.
Qed.

Lemma restoreEach_Ok (names : list string) (d : string) (w w' : World) :
  restoreEach names d w = (w', Some tt) ->
  (forall n, In n names -> simpleName n = true) ->
  (forall n m, In n names -> In m names -> n <> key (Filepath.Join [d; m])) ->
  forall n, In n names ->
    exists data,
      ReadFile (files w) (Filepath.Join [d; n]) = Ok data
      /\ ReadFile (files w') (Filepath.Join ["."; n]) = Ok data.
Proof.
  revert w. induction names as [|n0 rest IH]; intros w Hrun Hsimple Hdisj n Hin;
    [destruct Hin |].
  cbn [restoreEach] in Hrun. revert Hrun. mrun.
  destruct (copyFile _ _ w) as [w1 r1] eqn:Hcopy.
  destruct r1 as [[[]|e]|]; try discriminate.
  intros Hrest.
  apply copyFile_Ok in Hcopy as (data0 & Hsrc & Hfiles & Hdst).
  assert (Hkey0 : key (Filepath.Join ["."; n0]) = n0).
  { apply key_name, Hsimple. now left. }
  rewrite Hkey0 in *.
  assert (Hsame : forall m, In m (n0 :: rest) ->
            ReadFile (files w1) (Filepath.Join [d; m])
            = ReadFile (files w) (Filepath.Join [d; m])).
  { intros m Hm. rewrite Hfiles. apply ReadFile_insert_ne.
    apply Hdisj; [now left | assumption]. }
  destruct (in_dec string_dec n rest) as [Hn|Hn].
  - destruct (IH w1 Hrest) with (n := n) as (data & H1 & H2); try assumption.
    + intros m Hm. apply Hsimple. now right.
    + intros a b Ha Hb. apply Hdisj; now right.
    + exists data. split; [|assumption].
      rewrite <- H1. symmetry. apply Hsame. now right.
  - destruct Hin as [<-|Hin]; [|contradiction].
    exists data0. split.
    + rewrite ReadFile_insert_ne in Hsrc; [assumption |].
      apply Hdisj; now left.
    + rewrite <- Hdst. apply ReadFile_ext. rewrite Hkey0.
      apply (restoreEach_frame _ _ _ _ _ _ Hrest).
      intros name Hname. rewrite key_name by (apply Hsimple; now right).
      intros ->. contradiction.
Qed.

Lemma Join_commitDir (id : string) :
  simpleName id = true ->
  Filepath.Join [commitDir; id] = "vcs/commits/" +:+ id.
Proof.
  intros H. unfold Filepath.Join. change (String.eqb commitDir "") with false.
  cbv iota.
  change (Strings.Join [commitDir; id] "/") with (Strings.Join ["vcs"; "commits"; id] "/").
  rewrite Clean_simple; [reflexivity |].
  repeat constructor. exact H.
Qed.

Lemma Join_snapshot (id name : string) :
  simpleName id = true ->
  simpleName name = true ->
  Filepath.Join ["vcs/commits/" +:+ id; name]
  = "vcs/commits/" +:+ id +:+ "/" +:+ name
  /\ key (Filepath.Join ["vcs/commits/" +:+ id; name])
     = "vcs/commits/" +:+ id +:+ "/" +:+ name.
Proof.
  intros Hid Hname.
  assert (H : Filepath.Join ["vcs/commits/" +:+ id; name]
              = Strings.Join ["vcs"; "commits"; id; name] "/").
  { unfold Filepath.Join. change (String.eqb ("vcs/commits/" +:+ id) "") with false.
    cbv iota.
    assert (E : Strings.Join ["vcs/commits/" +:+ id; name] "/"
                = Strings.Join ["vcs"; "commits"; id; name] "/").
    { cbn [Strings.Join]. now rewrite !app_assoc_s. }
    rewrite E. apply Clean_simple. repeat constructor; assumption. }
  assert (E : Strings.Join ["vcs"; "commits"; id; name] "/"
              = "vcs/commits/" +:+ id +:+ "/" +:+ name) by reflexivity.
  split; [now rewrite H |].
  unfold key. rewrite H, Clean_simple; [exact E |].
  repeat constructor; assumption.
Qed.

Lemma dirPrefix_noSlash (n : string) :
  noChar "/" n = true -> Filepath.dirPrefix n = "".
Proof.
  induction n as [|c n IH]; [reflexivity |].
  simpl. intros H. apply andb_prop in H as [Hc Hn].
  rewrite (IH Hn). now destruct (Ascii.eqb c "/").
Qed.

Lemma parentCheck_name (fs : FS) (n : string) :
  simpleName n = true -> parentCheck fs n = Ok tt.
Proof.
  intros H. pose proof H as Hn.
  apply simpleName_inv in Hn as (Hne & _ & _ & Hs).
  unfold parentCheck. apply String.eqb_neq in Hne. rewrite Hne.
  unfold key. rewrite Clean_name by assumption.
  unfold Filepath.Dir. rewrite dirPrefix_noSlash by assumption.
  reflexivity.
Qed.

Lemma copyFile_total (src dst data : string) (w : World) :
  ReadFile (files w) src = Ok data ->
  key dst <> key src ->
  Stat (files w) dst <> Ok Dir ->
  parentCheck (files w) dst = Ok tt ->
  copyFile src dst w
  = (mkWorld (<[key dst := File data]> (files w)) (stdout w), Some (Ok tt)).
Proof.
  intros Hsrc Hne Hdst Hparent. unfold copyFile. mrun.
  assert (Hstat : exists n, Stat (files w) src = Ok n).
  { unfold ReadFile in Hsrc. unfold Stat.
    destruct (lookup (files w) src); [eauto | discriminate]. }
  destruct Hstat as (n & ->). mrun.
  unfold Create, WriteFile. unfold Stat in Hdst. rewrite Hparent.
  assert (Hw : match lookup (files w) dst with
               | Some (File _) => Ok (<[key dst := File ""]> (files w))
               | Some Dir => Err EISDIR
               | None => Ok (<[key dst := File ""]> (files w))
               end = Ok (<[key dst := File ""]> (files w))).
  { destruct (lookup (files w) dst) as [[|]|]; congruence. }
  rewrite Hw. mrun. cbn [files stdout].
  rewrite ReadFile_insert_ne, Hsrc by assumption. mrun. cbn [files stdout].
  now rewrite insert_insert_eq.
Qed.

Lemma Stat_insert_File (fs : FS) (path k data : string) :
  Stat fs path <> Ok Dir -> Stat (<[k := File data]> fs) path <> Ok Dir.
Proof.
  rewrite !Stat_Ok_lookup.
  destruct (lookup_insert_cases fs path k (File data)) as [-> | ->];
    [trivial | intros _; discriminate].
Qed.

Lemma restoreEach_total (names : list string) (d : string) (w : World) :
  (forall n, In n names -> simpleName n = true) ->
  (forall n m, In n names -> In m names -> n <> key (Filepath.Join [d; m])) ->
  (forall n, In n names ->
             (exists data, ReadFile (files w) (Filepath.Join [d; n]) = Ok data)
             /\ Stat (files w) n <> Ok Dir) ->
  exists fs', restoreEach names d w = (mkWorld fs' (stdout w), Some tt).
Proof.
  revert w. induction names as [|n0 rest IH]; intros w Hsimple Hdisj Hready.
  - exists (files w). simpl. now rewrite eta_World.
  - cbn [restoreEach]. mrun.
    destruct (Hready n0 (or_introl eq_refl)) as [(data & Hsrc) Hdst].
    assert (Hn0 : simpleName n0 = true) by (apply Hsimple; now left).
    assert (Hj : Filepath.Join ["."; n0] = n0) by now apply Join_dot.
    assert (Hk : key n0 = n0) by (unfold key; now apply Clean_name).
    rewrite Hj, (copyFile_total _ _ data); try assumption.
    + mrun. rewrite Hk.
      destruct (IH (mkWorld (<[n0 := File data]> (files w)) (stdout w))) as (fs' & Hrest).
      * intros n Hn. apply Hsimple. now right.
      * intros n m Hn Hm. apply Hdisj; now right.
      * intros n Hn. cbn [files].
        destruct (Hready n (or_intror Hn)) as [(dn & Hdn) Hsn]. split.
        -- exists dn. rewrite ReadFile_insert_ne; [assumption |].
           apply Hdisj; [now left | now right].
        -- now apply Stat_insert_File.
      * exists fs'. exact Hrest.
    + rewrite Hk. apply Hdisj; now left.
    + now apply parentCheck_name.
Qed.

(** C3.  Take a snapshot whose identifier is a digest as [createId]
    makes it, the world [w1] at commit time and a later world [w2] in
    which the stored files are as they were.  After a successful
    [checkout], every entry [name] of the snapshot is a working file
    with the bytes stored at commit time, so hashing it gives the digest
    of the stored file.  The checkout succeeds when the log lists the
    commit, the entries are regular files and no directory of the
    working tree has the name of one. *)
Theorem checkout_roundtrip (content : string) (w1 w2 : World) (names : list string) :
  let commitID := hashContent content in
  let snapshot := Filepath.Join [commitDir; commitID] in
  let switched := "Switched to commit " +:+ commitID +:+ "." +:+ nl in
  ReadDir (files w2) snapshot = Ok names ->
  (forall name, In name names ->
     ReadFile (files w2) (Filepath.Join [snapshot; name])
     = ReadFile (files w1) (Filepath.Join [snapshot; name])) ->
  (forall w3,
     switchCommit commitID w2 = (w3, Some tt) ->
     stdout w3 = stdout w2 +:+ switched ->
     forall name, In name names ->
       exists stored restored,
         ReadFile (files w1) (Filepath.Join [snapshot; name]) = Ok stored
         /\ ReadFile (files w3) name = Ok restored
         /\ restored = stored
         /\ hashContent restored = hashContent stored)
  /\ (forall c,
        findCommitById commitID w2 = (w2, Some (Some c)) ->
        (forall name, In name names ->
           (exists stored,
              ReadFile (files w1) (Filepath.Join [snapshot; name]) = Ok stored)
           /\ Stat (files w2) name <> Ok Dir) ->
        exists w3,
          switchCommit commitID w2 = (w3, Some tt)
          /\ stdout w3 = stdout w2 +:+ switched).
Proof.
  intros commitID snapshot switched Hdir Hsame.
  pose proof (hashContent_simple content) as Hid. fold commitID in Hid.
  assert (Hsimple : forall n, In n names -> simpleName n = true).
  { intros n Hn. eapply ReadDir_simple; eassumption. }
  assert (Hsnap : snapshot = "vcs/commits/" +:+ commitID) by now apply Join_commitDir.
  assert (Hdisj : forall n m, In n names -> In m names ->
                    n <> key (Filepath.Join [snapshot; m])).
  { intros n m Hn Hm E. apply Hsimple in Hn, Hm.
    rewrite Hsnap in E.
    destruct (Join_snapshot commitID m Hid Hm) as [_ Hk]. rewrite Hk in E.
    apply simpleName_inv in Hn as (_ & _ & _ & Hn).
    rewrite E in Hn. discriminate. }
  split.
  - intros w3 Hrun Hout name Hin.
    revert Hrun. unfold switchCommit. mrun.
    destruct (findCommitById commitID w2) as [w0 c] eqn:Hfind.
    apply findCommitById_world in Hfind as ->.
    destruct c as [[c|]|]; [| |discriminate].
    2:{ intros H. injection H as <-. cbn [stdout] in Hout.
        apply app_inv_head_s in Hout. discriminate. }
    mrun. fold snapshot. rewrite Hdir. mrun.
    destruct (restoreEach names snapshot w2) as [w' [[]|]] eqn:Hrest; [|discriminate].
    intros H. injection H as <-. cbn [files].
    destruct (restoreEach_Ok names snapshot w2 w' Hrest Hsimple Hdisj name Hin)
      as (data & Hsrc & Hdst).
    exists data, data. rewrite <- Hsame, Hsrc by assumption.
    rewrite Join_dot in Hdst by now apply Hsimple. auto.
  - intros c Hfind Hready.
    destruct (restoreEach_total names snapshot w2 Hsimple Hdisj) as (fs' & Hrest).
    { intros n Hn. destruct (Hready n Hn) as [(stored & Hstored) Hstat].
      split; [|assumption]. exists stored. now rewrite Hsame. }
    exists (mkWorld fs' (stdout w2 +:+ switched)).
    split; [|reflexivity].
    unfold switchCommit. mrun. rewrite Hfind. mrun. fold snapshot.
    rewrite Hdir. mrun. rewrite Hrest. reflexivity.
Qed.


(** *** Snapshots *)

Lemma ReadFile_key_eq (fs : FS) (a b : string) :
  key a = key b -> a <> "" -> b <> "" -> ReadFile fs a = ReadFile fs b.
Proof.
  intros Hk Ha Hb. unfold ReadFile, lookup. rewrite Hk.
  apply String.eqb_neq in Ha, Hb. now rewrite Ha, Hb.
Qed.

Lemma ReadFile_Ok_nonempty (fs : FS) (path data : string) :
  ReadFile fs path = Ok data -> path <> "".
Proof. intros H ->. discriminate. Qed.

Lemma ReadFile_insert_keeps (fs : FS) (path k data old : string) :
  ReadFile fs path = Ok old ->
  exists data', ReadFile (<[k := File data]> fs) path = Ok data'.
Proof.
  intros H. destruct (decide (k = key path)) as [->|Hne].
  - exists data. now apply (ReadFile_insert_same _ _ old).
  - exists old. now rewrite ReadFile_insert_ne.
Qed.

Lemma copyEach_frame (ps : list string) (d : string) (w w' : World) (r : option unit) (k : string) :
  copyEach ps d w = (w', r) ->
  (forall p, In p ps -> p <> "" -> k <> key (destinationOf d p)) ->
  files w' !! k = files w !! k.
Proof.
  revert w. induction ps as [|q rest IH]; intros w H Hk.
  - simpl in H. now injection H as <- _.
  - cbn [copyEach] in H.
    destruct (String.eqb_spec q "") as [->|Hq].
    + apply (IH w H). intros p Hp. apply Hk. now right.
    + revert H. mrun.
      destruct (copyFile _ _ w) as [w1 r1] eqn:H1.
      apply copyFile_frame with (k := k) in H1; [|apply Hk; [now left | assumption]].
      destruct r1 as [[[]|e]|]; intros H.
      * rewrite <- H1. apply (IH w1 H). intros p Hp. apply Hk. now right.
      * now injection H as <- _.
      * now injection H as <- _.
Qed.

Lemma copyEach_keeps (ps : list string) (d : string) (w w' : World) (x old : string) :
  copyEach ps d w = (w', Some tt) ->
  ReadFile (files w) x = Ok old ->
  exists data, ReadFile (files w') x = Ok data.
Proof.
  revert w old. induction ps as [|q rest IH]; intros w old H Hx.
  - simpl in H. injection H as <-. eauto.
  - cbn [copyEach] in H.
    destruct (String.eqb q ""); [eapply IH; eassumption |].
    revert H. mrun.
    destruct (copyFile _ _ w) as [w1 r1] eqn:H1.
    destruct r1 as [[[]|e]|]; try discriminate. intros H.
    apply copyFile_Ok in H1 as (data & _ & Hf & _).
    destruct (ReadFile_insert_keeps (files w) x (key (Filepath.Join [d; Strings.TrimPrefix q "vcs/"])) data old Hx)
      as (data' & Hx').
    rewrite <- Hf in Hx'. eapply IH; eassumption.
Qed.

Lemma copyEach_exists (ps : list string) (d : string) (w w' : World) (p : string) :
  copyEach ps d w = (w', Some tt) ->
  In p ps -> p <> "" ->
  exists data, ReadFile (files w') (destinationOf d p) = Ok data.
Proof.
  revert w. induction ps as [|q rest IH]; intros w H Hin Hp; [destruct Hin |].
  cbn [copyEach] in H.
  destruct (String.eqb_spec q "") as [->|Hq].
  - destruct Hin as [<-|Hin]; [congruence |]. eapply IH; eassumption.
  - revert H. mrun.
    destruct (copyFile _ _ w) as [w1 r1] eqn:H1.
    destruct r1 as [[[]|e]|]; try discriminate. intros H.
    destruct Hin as [<-|Hin]; [|eapply IH; eassumption].
    apply copyFile_Ok in H1 as (data & _ & _ & Hd).
    eapply copyEach_keeps; eassumption.
Qed.

Lemma copyEach_content (ps : list string) (d : string) (w w' : World) (p : string) :
  copyEach ps d w = (w', Some tt) ->
  (forall q r, In q ps -> In r ps -> q <> "" -> r <> "" ->
               key q <> key (destinationOf d r)) ->
  (forall q, In q ps -> q <> "" ->
             key (destinationOf d q) = key (destinationOf d p) -> key q = key p) ->
  In p ps -> p <> "" ->
  ReadFile (files w') (destinationOf d p) = ReadFile (files w) p.
Proof.
  revert w p. induction ps as [|q rest IH]; intros w p H Hapart Hown Hin Hp;
    [destruct Hin |].
  cbn [copyEach] in H.
  destruct (String.eqb_spec q "") as [->|Hq].
  { destruct Hin as [<-|Hin]; [congruence |].
    apply (IH w p H); try assumption.
    - intros a b Ha Hb. apply Hapart; now right.
    - intros a Ha. apply Hown. now right. }
  revert H. mrun.
  destruct (copyFile _ _ w) as [w1 r1] eqn:H1.
  destruct r1 as [[[]|e]|]; try discriminate. intros H.
  apply copyFile_Ok in H1 as (data & Hsrc & Hf & Hdst).
  fold (destinationOf d q) in Hsrc, Hf, Hdst.
  assert (Hsame : forall r, In r (q :: rest) -> r <> "" ->
            ReadFile (files w1) r = ReadFile (files w) r).
  { intros r Hr Hne. rewrite Hf. apply ReadFile_insert_ne.
    intros E. apply (Hapart r q); auto. now left. }
  assert (Hq0 : ReadFile (files w) q = Ok data).
  { rewrite <- Hsrc. symmetry. apply ReadFile_insert_ne.
    intros E. apply (Hapart q q); auto; now left. }
  assert (Htail : forall a, In a rest -> a <> "" ->
            (forall b, In b rest -> b <> "" ->
                       key (destinationOf d b) = key (destinationOf d a) -> key b = key a) ->
            ReadFile (files w') (destinationOf d a) = ReadFile (files w) a).
  { intros a Ha Hne Howna. rewrite <- (Hsame a) by (auto; now right).
    apply (IH w1 a H); try assumption.
    intros x y Hx Hy. apply Hapart; now right. }
  destruct (in_dec string_dec p rest) as [Hrest|Hrest].
  { apply Htail; try assumption. intros b Hb. apply Hown. now right. }
  destruct Hin as [<-|Hin]; [|contradiction].
  destruct (existsb (fun r => negb (String.eqb r "")
                              && String.eqb (key (destinationOf d r))
                                            (key (destinationOf d q))) rest) eqn:Hex.
  - apply existsb_exists in Hex as (r & Hr & Hrq).
    apply andb_prop in Hrq as [Hne Hk].
    apply negb_true_iff, String.eqb_neq in Hne. apply String.eqb_eq in Hk.
    assert (Hkr : key r = key q) by (apply Hown; auto; now right).
    assert (Hr' : ReadFile (files w') (destinationOf d r) = ReadFile (files w) r).
    { apply Htail; try assumption.
      intros b Hb Hbne Hkb. rewrite Hkr. apply Hown; [now right | assumption |].
      now rewrite Hkb. }
    rewrite (ReadFile_key_eq (files w) r q Hkr Hne Hq) in Hr'.
    rewrite <- Hr'. symmetry. apply ReadFile_key_eq; [assumption | |].
    + rewrite Hq0 in Hr'. now apply ReadFile_Ok_nonempty in Hr'.
    + now apply ReadFile_Ok_nonempty in Hdst.
  - rewrite Hq0, <- Hdst. apply ReadFile_ext.
    apply (copyEach_frame _ _ _ _ _ _ H).
    intros r Hr Hne E. apply not_true_iff_false in Hex. apply Hex.
    apply existsb_exists. exists r. split; [assumption |].
    apply String.eqb_neq in Hne. rewrite Hne, E. apply String.eqb_refl.
Qed.

Lemma Mkdir_Ok (fs fs' : FS) (path : string) :
  Mkdir fs path = Ok fs' ->
  fs !! key path = None /\ fs' = <[key path := Dir]> fs.
Proof.
  unfold Mkdir, parentCheck, lookup.
  destruct (String.eqb path ""); [discriminate |].
  destruct (alwaysDir (key path)); [discriminate |].
  destruct (fs !! key path); [discriminate |].
  destruct (if String.eqb _ "" then _ else _) as [[|]|]; try discriminate.
  intros H; injection H as <-. auto.
Qed.

Lemma mkdirAll_mono (fuel : nat) (fs fs' : FS) (path k : string) :
  mkdirAll fuel fs path = Ok fs' ->
  fs' !! k = fs !! k \/ (fs !! k = None /\ fs' !! k = Some Dir).
Proof.
  revert fs fs' path. induction fuel as [|fuel IH]; intros fs fs' path; simpl.
  - destruct (lookup fs path) as [[|]|]; try discriminate.
    intros H; injection H as <-. now left.
  - destruct (lookup fs path) as [[|]|]; try discriminate.
    + intros H; injection H as <-. now left.
    + destruct (mkdirAll fuel fs _) as [fs1|] eqn:H1; [|discriminate].
      intros H. apply Mkdir_Ok in H as [Hnone ->].
      specialize (IH _ _ _ H1).
      destruct (decide (key path = k)) as [<-|Hne].
      * rewrite lookup_insert_eq. right. split; [|reflexivity].
        destruct IH as [IH|[IH _]]; congruence.
      * rewrite lookup_insert_ne by assumption. exact IH.
Qed.

Lemma ReadFile_Ok_iff (fs : FS) (path data : string) :
  ReadFile fs path = Ok data
  <-> path <> "" /\ alwaysDir (key path) = false
      /\ fs !! key path = Some (File data).
Proof.
  unfold ReadFile, lookup.
  destruct (String.eqb_spec path "") as [->|Hne].
  - split; [discriminate | intros [H _]; congruence].
  - destruct (alwaysDir (key path)).
    + split; [discriminate | intros (_ & H & _); discriminate].
    + destruct (fs !! key path) as [[d|]|]; split;
        try discriminate; try (intros (_ & _ & H); congruence).
      intros H; injection H as <-. auto.
Qed.

Lemma MkdirAll_ReadFile (fs fs' : FS) (path x data : string) :
  MkdirAll fs path = Ok fs' ->
  ReadFile fs' x = Ok data <-> ReadFile fs x = Ok data.
Proof.
  intros H. rewrite !ReadFile_Ok_iff.
  destruct (mkdirAll_mono _ _ _ _ (key x) H) as [E|[E1 E2]].
  - now rewrite E.
  - rewrite E1, E2. split; intros (_ & _ & F); discriminate.
Qed.

Lemma trimPrefix_first_element (c : string) (cs : list string) :
  Forall (fun x => simpleName x = true) (c :: cs) ->
  c <> "vcs" ->
  Strings.TrimPrefix (Strings.Join (c :: cs) "/") "vcs/" = Strings.Join (c :: cs) "/".
Proof.
  intros Hs Hc. unfold Strings.TrimPrefix.
  destruct (Strings.stripPrefix _ _) as [r|] eqn:E; [|reflexivity].
  exfalso. apply stripPrefix_Some in E.
  assert (Hfree : Forall (fun x => noChar "/" x = true) (c :: cs)).
  { eapply Forall_impl; [exact Hs |]. intros x Hx. now apply simpleName_inv in Hx. }
  pose proof (split1_Join "/" c cs Hfree) as Hsplit.
  rewrite E in Hsplit.
  change ("vcs/" +:+ r) with ("vcs" +:+ ("/" ::: r)) in Hsplit.
  rewrite split1_app in Hsplit by reflexivity. congruence.
Qed.

(** After [copyFilesToCommitDir] succeeded, every staged path has a
    regular file at its destination; the file holds the bytes of the
    staged file when the copies do not interfere; for a path of simple
    names outside vcs/ the destination is the path itself below the
    snapshot directory. *)
Lemma copyFilesToCommitDir_layout (w w' : World) (commitDirPath indexContent filePath : string) :
  ReadFile (files w) indexFilePath = Ok indexContent ->
  copyFilesToCommitDir commitDirPath w = (w', Some tt) ->
  In filePath (Strings.Split indexContent nl) ->
  filePath <> "" ->
  let filePaths := Strings.Split indexContent nl in
  let destination :=
    Filepath.Join [commitDirPath; Strings.TrimPrefix filePath "vcs/"] in
  (exists data, ReadFile (files w') destination = Ok data)
  /\ (sourcesApart commitDirPath filePaths = true ->
      targetOwned commitDirPath filePaths filePath = true ->
      ReadFile (files w') destination = ReadFile (files w) filePath)
  /\ (forall commitID element elements,
        simpleName commitID = true ->
        Forall (fun x => simpleName x = true) (element :: elements) ->
        element <> "vcs" ->
        commitDirPath = commitDir +:+ "/" +:+ commitID ->
        filePath = Strings.Join (element :: elements) "/" ->
        destination = commitDirPath +:+ "/" +:+ filePath).
Proof.
  intros Hidx Hrun Hin Hne filePaths destination.
  assert (Hcore : exists w0,
             copyEach filePaths commitDirPath w0 = (w', Some tt)
             /\ forall x data, ReadFile (files w0) x = Ok data
                               <-> ReadFile (files w) x = Ok data).
  { revert Hrun. unfold copyFilesToCommitDir. mrun.
    destruct (IsNotExist (Stat (files w) commitDir)).
    - mrun. destruct (MkdirAll (files w) commitDir) as [fs1|e] eqn:Hmk; [|discriminate].
      mrun. cbn [files stdout].
      pose proof (fun x data => MkdirAll_ReadFile _ _ _ x data Hmk) as Hsame.
      apply Hsame in Hidx. rewrite Hidx. intros Hrun.
      exists (mkWorld fs1 (stdout w)). split; [exact Hrun | exact Hsame].
    - mrun. rewrite Hidx. intros Hrun. exists w. split; [exact Hrun | reflexivity]. }
  destruct Hcore as (w0 & Hcopy & Hsame).
  destruct (copyEach_exists _ _ _ _ filePath Hcopy Hin Hne) as (data & Hdata).
  change destination with (destinationOf commitDirPath filePath).
  split; [eauto |]. split.
  - intros Hapart Hown.
    unfold sourcesApart in Hapart. unfold targetOwned in Hown.
    rewrite forallb_forall in Hapart, Hown.
    assert (E : ReadFile (files w') (destinationOf commitDirPath filePath)
                = ReadFile (files w0) filePath).
    { apply (copyEach_content filePaths); try assumption.
      - intros q r Hq Hr Hqn Hrn. specialize (Hapart q Hq).
        rewrite forallb_forall in Hapart. specialize (Hapart r Hr).
        apply String.eqb_neq in Hqn, Hrn. rewrite Hqn, Hrn in Hapart.
        simpl in Hapart. now apply negb_true_iff, String.eqb_neq in Hapart.
      - intros q Hq Hqn Hk. specialize (Hown q Hq).
        apply String.eqb_neq in Hqn. rewrite Hqn, Hk, String.eqb_refl in Hown.
        simpl in Hown. now apply String.eqb_eq in Hown. }
    rewrite E in Hdata |- *.
    pose proof (proj1 (Hsame _ _) Hdata) as Hd. now rewrite Hdata, Hd.
  - intros commitID element elements Hid Hel Hvcs -> ->.
    unfold destinationOf. rewrite trimPrefix_first_element by assumption.
    unfold Filepath.Join.
    change (String.eqb (commitDir +:+ "/" +:+ commitID) "") with false. cbv iota.
    assert (E : Strings.Join [commitDir +:+ "/" +:+ commitID;
                              Strings.Join (element :: elements) "/"] "/"
                = Strings.Join ("vcs" :: "commits" :: commitID :: element :: elements) "/").
    { rewrite !Join_cons_cons. cbn [Strings.Join]. unfold commitDir.
      now rewrite !app_assoc_s. }
    rewrite E, Clean_simple; [|repeat constructor; assumption || now inversion Hel].
    rewrite <- E. reflexivity.
Qed.


(** *** The change detector *)

Lemma Stat_ReadFile (fs : FS) (path data : string) :
  ReadFile fs path = Ok data -> isErr (Stat fs path) = false.
Proof.
  unfold ReadFile, Stat. destruct (lookup fs path); [reflexivity | discriminate].
Qed.

Lemma fileHasChanges_run (filePath id : string) (w : World) :
  fileHasChanges filePath id w
  = (w, match Stat (files w) (lastCommitFileOf id filePath) with
        | Err _ => Some true
        | Ok _ =>
            match ReadFile (files w) (lastCommitFileOf id filePath),
                  ReadFile (files w) filePath with
            | Ok stored, Ok current =>
                Some (negb (String.eqb (hashContent stored) (hashContent current)))
            | _, _ => None
            end
        end).
Proof.
  unfold fileHasChanges. fold (lastCommitFileOf id filePath). mrun.
  destruct (Stat _ _); [|reflexivity]. mrun.
  destruct (ReadFile _ (lastCommitFileOf id filePath)); [|reflexivity]. mrun.
  destruct (ReadFile _ filePath); reflexivity.
Qed.

Lemma TrimPrefix_not_vcs (p : string) :
  Strings.HasPrefix p "vcs/" = false ->
  Strings.TrimPrefix p "vcs/" = p /\ Strings.TrimPrefix p commitDir = p.
Proof.
  unfold Strings.HasPrefix, Strings.TrimPrefix. intros H. split.
  - destruct (Strings.stripPrefix p "vcs/"); [discriminate | reflexivity].
  - destruct (Strings.stripPrefix p commitDir) as [r|] eqn:E; [|reflexivity].
    apply stripPrefix_Some in E. rewrite E in H.
    change (commitDir +:+ r) with ("vcs/" +:+ ("commits" +:+ r)) in H.
    now rewrite stripPrefix_app in H.
Qed.

(** For a staged path that does not begin with "vcs/", the detector
    opens the path at which the commit stored it. *)
Lemma lastCommitFile_stored (id p : string) :
  Strings.HasPrefix p "vcs/" = false -> lastCommitFileOf id p = storedCopyOf id p.
Proof.
  intros H. destruct (TrimPrefix_not_vcs p H) as [H1 H2].
  unfold lastCommitFileOf, storedCopyOf, destinationOf. rewrite H1, H2.
  unfold Filepath.Join. change (String.eqb commitDir "") with false.
  change (String.eqb (commitDir +:+ "/" +:+ id) "") with false. cbv iota.
  reflexivity.
Qed.


Lemma fileHasChanges_false (filePath id : string) (w : World) :
  Strings.HasPrefix filePath "vcs/" = false ->
  fileHasChanges filePath id w = (w, Some false) <-> sameDigest (files w) id filePath.
Proof.
  intros Hp. rewrite fileHasChanges_run, (lastCommitFile_stored id filePath Hp).
  unfold sameDigest, bothRead.
  destruct (Stat _ _) as [n|e] eqn:Hs.
  - destruct (ReadFile _ (storedCopyOf id filePath)) as [stored|e1].
    + destruct (ReadFile _ filePath) as [current|e2].
      * destruct (String.eqb_spec (hashContent stored) (hashContent current)) as [E|E];
          rewrite hashContent_eq_Sum in E.
        -- split; [|reflexivity]. intros _. eauto.
        -- split; [discriminate |].
           intros (s & c & [H1 H2] & H). congruence.
      * split; [discriminate |]. intros (s & c & [H1 H2] & H). discriminate.
    + split; [discriminate |]. intros (s & c & [H1 H2] & H). discriminate.
  - split; [discriminate |].
    intros (s & c & [H1 H2] & H). apply Stat_ReadFile in H1.
    rewrite Hs in H1. discriminate.
Qed.

Lemma fileHasChanges_total (filePath id : string) (w : World) :
  Strings.HasPrefix filePath "vcs/" = false ->
  comparable (files w) id filePath ->
  exists b, fileHasChanges filePath id w = (w, Some b).
Proof.
  intros Hp. rewrite fileHasChanges_run, (lastCommitFile_stored id filePath Hp).
  unfold comparable, bothRead.
  intros [H|(s & c & H1 & H2)].
  - destruct (Stat _ _); [discriminate | eauto].
  - rewrite H1, H2. destruct (Stat _ _); eauto.
Qed.

Lemma fileHasChanges_world (filePath id : string) (w w' : World) (r : option bool) :
  fileHasChanges filePath id w = (w', r) -> w' = w.
Proof. rewrite fileHasChanges_run. intros H. now injection H. Qed.

Lemma hasChanges_world (ps : list string) (id : string) (w w' : World) (r : option bool) :
  hasChanges ps id w = (w', r) -> w' = w.
Proof.
  revert w'. induction ps as [|q rest IH]; intros w'; cbn [hasChanges].
  - intros H. now injection H.
  - destruct (String.eqb q ""); [apply IH |]. mrun.
    rewrite fileHasChanges_run.
    destruct (match Stat _ _ with Ok _ => _ | Err _ => _ end) as [[|]|];
      mrun; try (intros H; now injection H). apply IH.
Qed.


Lemma hasChanges_false (ps : list string) (id : string) (w : World) (b : bool) :
  (forall p, In p ps /\ p <> "" -> Strings.HasPrefix p "vcs/" = false) ->
  hasChanges ps id w = (w, Some b) ->
  (b = false <-> forall p, In p ps /\ p <> "" -> sameDigest (files w) id p).
Proof.
  induction ps as [|q rest IH]; intros Hpre; cbn [hasChanges].
  - intros H. injection H as <-. split; [|reflexivity]. intros _ p [[] _].
  - assert (Hrest : forall p, In p rest /\ p <> "" -> Strings.HasPrefix p "vcs/" = false).
    { intros p [Hp Hne]. apply Hpre. split; [now right | assumption]. }
    specialize (IH Hrest).
    destruct (String.eqb_spec q "") as [->|Hq].
    + intros H. rewrite (IH H). split.
      * intros Hall p [[<-|Hp] Hne]; [congruence | now apply Hall].
      * intros Hall p [Hp Hne]. apply Hall. split; [now right | assumption].
    + assert (Hqp : Strings.HasPrefix q "vcs/" = false).
      { apply Hpre. split; [now left | assumption]. }
      mrun. destruct (fileHasChanges q id w) as [w1 r1] eqn:Hf.
      pose proof (fileHasChanges_world _ _ _ _ _ Hf) as ->.
      destruct r1 as [[|]|]; mrun; [| |discriminate].
      * intros H. injection H as <-. split; [discriminate |].
        intros Hall. assert (Hs : sameDigest (files w) id q) by (apply Hall; split; [now left | assumption]).
        apply fileHasChanges_false in Hs; [congruence | assumption].
      * intros H. rewrite (IH H). split.
        -- intros Hall p [[<-|Hp] Hne]; [now apply fileHasChanges_false | now apply Hall].
        -- intros Hall p [Hp Hne]. apply Hall. split; [now right | assumption].
Qed.

Lemma hasChanges_total (ps : list string) (id : string) (w : World) :
  (forall p, In p ps /\ p <> "" -> Strings.HasPrefix p "vcs/" = false) ->
  (forall p, In p ps /\ p <> "" -> comparable (files w) id p) ->
  exists b, hasChanges ps id w = (w, Some b).
Proof.
  induction ps as [|q rest IH]; intros Hpre Hall; cbn [hasChanges].
  - exists false. reflexivity.
  - assert (Hrest : exists b, hasChanges rest id w = (w, Some b)).
    { apply IH; intros p [Hp Hne]; [apply Hpre | apply Hall];
        (split; [now right | assumption]). }
    destruct (String.eqb_spec q "") as [->|Hq]; [exact Hrest |].
    mrun. destruct (fileHasChanges_total q id w) as (b & Hb).
    { apply Hpre. split; [now left | assumption]. }
    { apply Hall. split; [now left | assumption]. }
    rewrite Hb. destruct b; mrun; [now exists true | exact Hrest].
Qed.

Lemma getLastCommitID_total (w : World) :
  exists w1 id, getLastCommitID w = (w1, Some id).
Proof.
  unfold getLastCommitID. mrun.
  destruct (IsNotExist _); mrun.
  - destruct (MkdirAll _ _); mrun; [|eauto].
    cbn [files]. destruct (ReadFile _ _); mrun; eauto.
  - destruct (ReadFile _ _); mrun; eauto.
Qed.




(** *** Reading the log back *)

Lemma unlines_Join (l : string) (ls : list string) :
  unlines (l :: ls) = Strings.Join (l :: ls) nl +:+ nl.
Proof.
  revert l. induction ls as [|m ls IH]; intros l.
  - cbn [unlines Strings.Join]. now rewrite app_empty_r.
  - cbn [unlines] in *. rewrite IH, Join_cons_cons. now rewrite !app_assoc_s.
Qed.

Lemma scan_plain (lines : list string) (author message : string) :
  Forall (fun line => plainLine line = true) lines ->
  fold_left scanLine lines (author, message) = (author, message +:+ unlines lines).
Proof.
  revert message. induction lines as [|l ls IH]; intros message H.
  - simpl. now rewrite app_empty_r.
  - inversion H as [|? ? Hl Hls]; subst. cbn [fold_left unlines].
    unfold plainLine in Hl. apply andb_prop in Hl as [Hl Hc].
    apply andb_prop in Hl as [_ Ha].
    apply negb_true_iff in Ha, Hc.
    unfold scanLine at 2. rewrite Ha, Hc. cbn [negb].
    rewrite IH by assumption. now rewrite !app_assoc_s.
Qed.

Lemma plainLine_nonempty (lines : list string) :
  Forall (fun line => plainLine line = true) lines ->
  Forall (fun line => line <> "") lines.
Proof.
  intros H. eapply Forall_impl; [exact H |]. intros l Hl ->. discriminate.
Qed.

(** C10 (amended).  Let the identifier and the author be free of line
    feeds, and every line of the message be non-empty and begin neither
    with "Author: " nor with "commit ".  If the snapshot directory
    exists once [createLog] wrote the entry, [findCommitById] returns
    the identifier, the author and the trimmed message.  A line
    "Author: text" is read as the author [text]. *)
Theorem log_roundtrip (c : Commit) (w w1 : World) :
  noChar LF (HashID c) = true ->
  noChar LF (Author c) = true ->
  Forall (fun line => plainLine line = true) (Strings.Split (Message c) nl) ->
  createLog c w = (w1, Some tt) ->
  IsNotExist (Stat (files w1) (Filepath.Join [commitDir; HashID c])) = false ->
  findCommitById (HashID c) w1
  = (w1, Some (Some (mkCommit (HashID c) (Author c) (Strings.TrimSpace (Message c)))))
  /\ forall author message text,
       scanLine (author, message) ("Author: " +:+ text) = (text, message).
Proof.
  intros Hid Hauthor Hplain Hlog Hdir. split.
  2:{ intros author message text. unfold scanLine.
      now rewrite HasPrefix_app, TrimPrefix_app. }
  apply createLog_Ok in Hlog as (_ & _ & Hread).
  unfold findCommitById. mrun. rewrite Hdir. mrun. rewrite Hread. mrun.
  pose proof (splitFrom_nonempty nl 0 (Message c)) as Hne.
  fold (Strings.Split (Message c) nl) in Hne.
  pose proof (Join_split1 LF (Message c)) as Hjoin. fold nl in Hjoin.
  pose proof (split1_pieces LF (Message c)) as Hfree. fold nl in Hfree.
  destruct (Strings.Split (Message c) nl) as [|m ms] eqn:Hm; [congruence |].
  set (l0 := "commit " +:+ HashID c).
  set (l1 := "Author: " +:+ Author c).
  assert (Hentry : logEntry c +:+ logBefore w
                   = Strings.Join (l0 :: l1 :: m :: ms) nl
                     +:+ nl +:+ nl +:+ logBefore w).
  { unfold logEntry. rewrite !Join_cons_cons, Hjoin. unfold l0, l1.
    now rewrite !app_assoc_s. }
  assert (Hall : Forall (fun x => noChar LF x = true) (l0 :: l1 :: m :: ms)).
  { constructor; [unfold l0; now rewrite noChar_app, Hid |].
    constructor; [unfold l1; now rewrite noChar_app, Hauthor | assumption]. }
  rewrite Hentry, split2_first.
  2:{ apply noBlank_Join; [assumption |].
      constructor; [discriminate | now apply plainLine_nonempty]. }
  pose proof (split1_Join LF l0 (l1 :: m :: ms) Hall) as Hlines.
  fold nl in Hlines.
  cbn [findEntry]. rewrite !Hlines.
  cbn [hd]. unfold l0 at 1. rewrite TrimPrefix_app, String.eqb_refl.
  change (fold_left scanLine (l0 :: l1 :: m :: ms) ("", ""))
    with (fold_left scanLine (m :: ms) (scanLine (scanLine ("", "") l0) l1)).
  change (scanLine ("", "") l0) with (@pair string string "" "").
  assert (H1 : scanLine ("", "") l1 = (Author c, "")).
  { unfold scanLine, l1. now rewrite HasPrefix_app, TrimPrefix_app. }
  rewrite H1, scan_plain by assumption.
  rewrite unlines_Join, Hjoin, app_nil_s, TrimSpace_app_nl. reflexivity.
Qed.

(** C10, witness: a message of two lines. *)
Lemma log_roundtrip_witness :
  let c := mkCommit (hashContent "x") "alice" ("first" +:+ nl +:+ "second line") in
  let w := mkWorld (<["vcs/commits/" +:+ hashContent "x" := Dir]>
                    (<["vcs/commits" := Dir]> (<["vcs" := Dir]> ∅))) "" in
  let w1 := fst (createLog c w) in
  findCommitById (HashID c) w1
  = (w1, Some (Some (mkCommit (HashID c) (Author c) (Strings.TrimSpace (Message c))))).
Proof.
  intros c w w1.
  apply (log_roundtrip c w w1).
  - apply hashContent_noLF.
  - reflexivity.
  - (vm_compute; repeat constructor).
  - (vm_compute; reflexivity).
  - (vm_compute; reflexivity).
Defined.

(** A line of the message that begins with "Author: " replaces the
    author. *)
Example log_author_line :
  let c := mkCommit "abc" "alice" ("first" +:+ nl +:+ "Author: mallory") in
  let w := mkWorld (<["vcs/commits/abc" := Dir]>
                    (<["vcs/commits" := Dir]> (<["vcs" := Dir]> ∅))) "" in
  let w1 := fst (createLog c w) in
  findCommitById "abc" w1 = (w1, Some (Some (mkCommit "abc" "mallory" "first"))).
Proof. vm_compute. reflexivity. Qed.

(** C10, counterexample: no line of the message begins with "Author: "
    or "commit ", yet the blank line ends the entry and the message
    comes back as its first paragraph. *)
Lemma log_roundtrip_blank_line :
  let message := "first" +:+ nl +:+ nl +:+ "second paragraph" in
  let c := mkCommit "abc" "alice" message in
  let w := mkWorld (<["vcs/commits/abc" := Dir]>
                    (<["vcs/commits" := Dir]> (<["vcs" := Dir]> ∅))) "" in
  let w1 := fst (createLog c w) in
  Forall (fun line => Strings.HasPrefix line "Author: " = false
                      /\ Strings.HasPrefix line "commit " = false)
         (Strings.Split message nl)
  /\ Stat (files w1) (Filepath.Join [commitDir; "abc"]) = Ok Dir
  /\ createLog c w = (w1, Some tt)
  /\ findCommitById "abc" w1 = (w1, Some (Some (mkCommit "abc" "alice" "first")))
  /\ Strings.TrimSpace message = message.
Proof. vm_compute. repeat split; repeat constructor. Qed.


(** *** A whole commit *)

Lemma sameFiles_refl (fs : FS) : sameFiles fs fs.
Proof. intros x data. reflexivity. Qed.

Lemma sameFiles_trans (a b c : FS) : sameFiles a b -> sameFiles b c -> sameFiles a c.
Proof.
  intros H1 H2 x data. specialize (H1 x data). specialize (H2 x data). tauto.
Qed.

Lemma sameFiles_MkdirAll (fs fs' : FS) (path : string) :
  MkdirAll fs path = Ok fs' -> sameFiles fs fs'.
Proof. intros H x data. eapply MkdirAll_ReadFile; eassumption. Qed.

Lemma sameFiles_Mkdir (fs fs' : FS) (path : string) :
  Mkdir fs path = Ok fs' -> sameFiles fs fs'.
Proof.
  intros H x data. apply Mkdir_Ok in H as [Hnone ->].
  rewrite !ReadFile_Ok_iff.
  destruct (decide (key path = key x)) as [E|E].
  - rewrite <- E, lookup_insert_eq, Hnone.
    split; intros (_ & _ & F); discriminate.
  - now rewrite lookup_insert_ne.
Qed.

Lemma getLastCommitID_files (w w1 : World) (r : option string) :
  getLastCommitID w = (w1, r) ->
  stdout w1 = stdout w /\ sameFiles (files w) (files w1).
Proof.
  unfold getLastCommitID. mrun.
  destruct (IsNotExist _); mrun.
  - destruct (MkdirAll _ _) as [fs1|e] eqn:Hmk; mrun.
    + cbn [files]. destruct (ReadFile fs1 _); mrun; intros H; injection H as <- _;
        (split; [reflexivity | eapply sameFiles_MkdirAll; eassumption]).
    + intros H; injection H as <- _. split; [reflexivity | apply sameFiles_refl].
  - destruct (ReadFile _ _); mrun; intros H; injection H as <- _;
      (split; [reflexivity | apply sameFiles_refl]).
Qed.

Lemma compareWithLastCommit_files (w w1 : World) (r : option bool) :
  compareWithLastCommit w = (w1, r) ->
  stdout w1 = stdout w /\ sameFiles (files w) (files w1).
Proof.
  unfold compareWithLastCommit. mrun.
  destruct (getLastCommitID w) as [wa ra] eqn:Hlast.
  apply getLastCommitID_files in Hlast.
  destruct ra as [id|]; [|intros H; now injection H as <- _].
  destruct (String.eqb id ""); mrun; [intros H; now injection H as <- _ |].
  destruct (ReadFile _ _); mrun; [|intros H; now injection H as <- _].
  intros H. apply hasChanges_world in H as ->. exact Hlast.
Qed.

Lemma createCommitDir_files (c : Commit) (w w1 : World) (r : option (result string)) :
  createCommitDir c w = (w1, r) ->
  stdout w1 = stdout w /\ sameFiles (files w) (files w1)
  /\ forall path, r = Some (Ok path) -> path = commitDir +:+ "/" +:+ HashID c.
Proof.
  unfold createCommitDir. mrun.
  destruct (IsNotExist _); mrun.
  - destruct (Mkdir _ _) as [fs1|e] eqn:Hmk; mrun; intros H; injection H as <- <-.
    + split; [reflexivity |]. split; [eapply sameFiles_Mkdir; eassumption |].
      intros path E. now injection E.
    + split; [reflexivity |]. split; [apply sameFiles_refl | discriminate].
  - intros H; injection H as <- <-.
    split; [reflexivity |]. split; [apply sameFiles_refl |].
    intros path E. now injection E.
Qed.

Lemma copyEach_stdout (ps : list string) (d : string) (w w' : World) (r : option unit) :
  copyEach ps d w = (w', r) -> stdout w' = stdout w.
Proof.
  revert w. induction ps as [|q rest IH]; intros w; cbn [copyEach].
  - intros H; now injection H as <- _.
  - destruct (String.eqb q ""); [apply IH |]. mrun.
    destruct (copyFile _ _ w) as [w1 r1] eqn:H1.
    apply copyFile_stdout in H1 as [H1 Hr1].
    destruct r1 as [[[]|e]|]; [| |congruence].
    + intros H. apply IH in H. congruence.
    + intros H; now injection H as <- _.
Qed.

Lemma copyFilesToCommitDir_stdout (d : string) (w w' : World) (r : option unit) :
  copyFilesToCommitDir d w = (w', r) -> stdout w' = stdout w.
Proof.
  unfold copyFilesToCommitDir. mrun.
  destruct (IsNotExist _); mrun.
  - destruct (MkdirAll _ _); mrun; [|intros H; now injection H as <- _].
    cbn [files stdout].
    destruct (ReadFile _ _); mrun; [|intros H; now injection H as <- _].
    intros H. now apply copyEach_stdout in H.
  - destruct (ReadFile _ _); mrun; [|intros H; now injection H as <- _].
    intros H. now apply copyEach_stdout in H.
Qed.

Lemma isIndexEmpty_run (w : World) :
  isIndexEmpty w
  = (w, Some (match Stat (files w) indexFilePath with
              | Err _ => true
              | Ok info => Size info =? 0
              end)).
Proof. unfold isIndexEmpty. mrun. now destruct (Stat _ _). Qed.

(** What a run of [commit] that reports success went through. *)
Lemma handleCommit_committed (args : list string) (now : Z) (w w' : World) (indexContent : string) :
  ReadFile (files w) indexFilePath = Ok indexContent ->
  handleCommit args now w = (w', Some tt) ->
  stdout w' = stdout w +:+ "Changes are committed." +:+ nl ->
  exists wb wc author,
    let c := mkCommit (hashContent (indexContent +:+ Fmt.Sprintd now)) author
                      (getMessageFromArgs args) in
    sameFiles (files w) (files wb)
    /\ copyFilesToCommitDir (commitDir +:+ "/" +:+ HashID c) wb = (wc, Some tt)
    /\ createLog c wc = (mkWorld (files w') (stdout wc), Some tt).
Proof.
  intros Hidx Hrun Hout. revert Hrun. unfold handleCommit.
  destruct (String.eqb (getMessageFromArgs args) "").
  { intros H. injection H as <-. cbn [stdout] in Hout.
    apply app_inv_head_s in Hout. discriminate. }
  mrun. rewrite isIndexEmpty_run.
  destruct (match Stat (files w) indexFilePath with Ok info => _ | Err _ => _ end).
  { mrun. intros H. injection H as <-. cbn [stdout] in Hout.
    apply app_inv_head_s in Hout. discriminate. }
  mrun. destruct (compareWithLastCommit w) as [wa ra] eqn:Hcmp.
  apply compareWithLastCommit_files in Hcmp as [Hsa Hfa].
  destruct ra as [[|]|]; [| |discriminate].
  2:{ cbn [negb]. mrun. intros H. injection H as <-. cbn [stdout] in Hout.
      rewrite <- Hsa in Hout. apply app_inv_head_s in Hout. discriminate. }
  cbn [negb]. mrun. unfold createCommit at 1. mrun.
  destruct (Stat (files wa) indexFilePath); mrun; [|discriminate].
  unfold readConfig. mrun.
  destruct (ReadFile (files wa) configPath) as [author|]; mrun; [|discriminate].
  unfold createId. mrun.
  pose proof (proj2 (Hfa indexFilePath indexContent) Hidx) as Hidxa.
  rewrite Hidxa.
  destruct (String.eqb indexContent ""); mrun; [discriminate |].
  cbn [Author Message].
  destruct (createCommitDir _ wa) as [wb rb] eqn:Hdir.
  apply createCommitDir_files in Hdir as (Hsb & Hfb & Hpath).
  destruct rb as [[path|e]|]; mrun; try discriminate.
  specialize (Hpath path eq_refl). cbn [HashID] in Hpath. subst path.
  destruct (copyFilesToCommitDir _ wb) as [wc rc] eqn:Hcopy.
  destruct rc as [[]|]; [|discriminate].
  mrun.
  match goal with
  | |- context [createLog ?c wc] => destruct (createLog c wc) as [wd rd] eqn:Hlog
  end.
  destruct rd as [[]|]; [|discriminate].
  intros H. injection H as <-.
  exists wb, wc, author. cbn zeta. cbn [HashID].
  split; [eapply sameFiles_trans; eassumption |].
  split; [exact Hcopy |].
  rewrite Hlog. apply createLog_Ok in Hlog as (_ & Hs & _).
  cbn [files]. rewrite <- Hs. now rewrite eta_World.
Qed.

(** C2 (amended).  After a commit that reports success, every staged
    path has a regular file at
    [filepath.Join(snapshot, strings.TrimPrefix(path, "vcs/"))], where
    the snapshot directory is named by the new identifier.  The file
    holds the bytes of the staged file when no staged file is itself
    such a destination, no other staged file is copied to the same
    destination, and the destination is not the log.  For a path of
    simple names that does not start with the element "vcs" the
    destination is the path itself below the snapshot directory. *)
Theorem commit_snapshot_layout (w w' : World) (args : list string) (now : Z)
        (indexContent filePath : string) :
  ReadFile (files w) indexFilePath = Ok indexContent ->
  handleCommit args now w = (w', Some tt) ->
  stdout w' = stdout w +:+ "Changes are committed." +:+ nl ->
  In filePath (Strings.Split indexContent nl) ->
  filePath <> "" ->
  let filePaths := Strings.Split indexContent nl in
  let commitID := hashContent (indexContent +:+ Fmt.Sprintd now) in
  let commitDirPath := commitDir +:+ "/" +:+ commitID in
  let destination :=
    Filepath.Join [commitDirPath; Strings.TrimPrefix filePath "vcs/"] in
  (exists data, ReadFile (files w') destination = Ok data)
  /\ (sourcesApart commitDirPath filePaths = true ->
      targetOwned commitDirPath filePaths filePath = true ->
      key destination <> key logFilePath ->
      ReadFile (files w') destination = ReadFile (files w) filePath)
  /\ (forall element elements,
        Forall (fun x => simpleName x = true) (element :: elements) ->
        element <> "vcs" ->
        filePath = Strings.Join (element :: elements) "/" ->
        destination = commitDirPath +:+ "/" +:+ filePath).
Proof.
  intros Hidx Hrun Hout Hin Hne filePaths commitID commitDirPath destination.
  destruct (handleCommit_committed args now w w' indexContent Hidx Hrun Hout)
    as (wb & wc & author & Hsame & Hcopy & Hlog).
  cbn zeta in Hcopy, Hlog. cbn [HashID] in Hcopy.
  fold commitID in Hcopy, Hlog. fold commitDirPath in Hcopy.
  apply createLog_Ok in Hlog as (Hfiles & _ & _). cbn [files] in Hfiles.
  pose proof (proj2 (Hsame indexFilePath indexContent) Hidx) as Hidxb.
  destruct (copyFilesToCommitDir_layout wb wc commitDirPath indexContent filePath
              Hidxb Hcopy Hin Hne) as ((data & Hdata) & Hcontent & Hlayout).
  fold destination in Hdata, Hcontent, Hlayout.
  split; [|split].
  - rewrite Hfiles. eapply ReadFile_insert_keeps. exact Hdata.
  - intros Hapart Hown Hlogkey.
    rewrite Hfiles, ReadFile_insert_ne by congruence.
    rewrite (Hcontent Hapart Hown) in Hdata |- *.
    pose proof (proj1 (Hsame filePath data) Hdata) as Hw. congruence.
  - intros element elements Hsimple Hvcs Hpath.
    apply (Hlayout commitID element elements); try assumption; try reflexivity.
    apply hashContent_simple.
Qed.

(** C2, witness: [a.txt] staged and committed at clock 17. *)
Lemma commit_snapshot_layout_witness :
  let w := fst (runAll [(["config"; "alice"], 0); (["add"; "a.txt"], 0)] demoStart) in
  let w' := fst (handleCommit ["first"] 17 w) in
  let commitDirPath := commitDir +:+ "/" +:+ hashContent (("a.txt" +:+ nl) +:+ Fmt.Sprintd 17) in
  ReadFile (files w') (Filepath.Join [commitDirPath; Strings.TrimPrefix "a.txt" "vcs/"])
  = ReadFile (files w) "a.txt".
Proof.
  intros w w' commitDirPath.
  destruct (commit_snapshot_layout w w' ["first"] 17 ("a.txt" +:+ nl) "a.txt")
    as (_ & H & _).
  - vm_compute; reflexivity.
  - vm_compute; reflexivity.
  - vm_compute; reflexivity.
  - now left.
  - discriminate.
  - apply H.
    + vm_compute; reflexivity.
    + vm_compute; reflexivity.
    + vm_compute; discriminate.
Defined.

(** *** Worked runs *)

Example demo_commit_run :
  ReadFile (files demoCommitted) (commitDir +:+ "/" +:+ demoID +:+ "/a.txt") = Ok "hello"
  /\ ReadFile (files demoCommitted) logFilePath
     = Ok ("commit " +:+ demoID +:+ nl +:+ "Author: alice" +:+ nl +:+ "first" +:+ nl +:+ nl)
  /\ stdout demoCommitted
     = "The username is alice." +:+ nl +:+ "The file 'a.txt' is tracked." +:+ nl
       +:+ "Changes are committed." +:+ nl.
Proof. vm_compute. repeat split. Qed.

(** [add a.txt/b] where a.txt is a regular file: [os.Stat] fails, but
    not with not-exist, and the path is staged. *)
Example add_below_a_file :
  let w := mkWorld (<["a.txt" := File "hello"]> (<["vcs" := Dir]> ∅)) "" in
  handleAdd ["a.txt/b"] w
  = (mkWorld (<[indexFilePath := File ("a.txt/b" +:+ nl)]> (files w))
             (trackedText "a.txt/b"), Some tt).
Proof. vm_compute. reflexivity. Qed.

(** [checkout x/y] where vcs/commits/x is a regular file and the log has
    an entry for x/y: the commit is found and the run ends in
    [log.Fatal] when the snapshot cannot be listed. *)
Example checkout_below_a_file :
  let entry := "commit x/y" +:+ nl +:+ "Author: alice" +:+ nl +:+ "first" +:+ nl +:+ nl in
  let w := mkWorld (<[logFilePath := File entry]>
                    (<["vcs/commits/x" := File ""]>
                     (<["vcs/commits" := Dir]> (<["vcs" := Dir]> ∅)))) "" in
  switchCommit "x/y" w = (w, None).
Proof. vm_compute. reflexivity. Qed.

(** C3, witness: [a.txt] edited after the commit and restored. *)
Lemma checkout_roundtrip_witness :
  let snapshot := Filepath.Join [commitDir; demoID] in
  let w3 := fst (switchCommit demoID demoEdited) in
  exists stored restored,
    ReadFile (files demoCommitted) (Filepath.Join [snapshot; "a.txt"]) = Ok stored
    /\ ReadFile (files w3) "a.txt" = Ok restored
    /\ restored = stored
    /\ hashContent restored = hashContent stored.
Proof.
  intros snapshot w3.
  destruct (checkout_roundtrip ("a.txt" +:+ nl +:+ "17") demoCommitted demoEdited ["a.txt"])
    as [Hrestore _].
  - vm_compute; reflexivity.
  - intros name [<-|[]]. vm_compute; reflexivity.
  - apply (Hrestore w3).
    + vm_compute; reflexivity.
    + vm_compute; reflexivity.
    + now left.
Defined.

(** C8, witness: [notes.txt] is not in the snapshot and survives. *)
Lemma checkout_frame_witness :
  let w' := fst (switchCommit demoID demoEdited) in
  files w' !! "notes.txt" = files demoEdited !! "notes.txt".
Proof.
  intros w'.
  apply (checkout_frame demoEdited w' demoID (snd (switchCommit demoID demoEdited)) "notes.txt").
  - vm_compute; reflexivity.
  - intros names H. vm_compute in H. injection H as <-.
    intros [E|[]]. discriminate.
Defined.



(** C5, witness: two entries written to an empty log. *)
Lemma log_newest_first_witness :
  let c1 := mkCommit (hashContent "x") "alice" "first" in
  let c2 := mkCommit (hashContent "y") "alice" "second" in
  let w := mkWorld (<["vcs/commits" := Dir]> (<["vcs" := Dir]> ∅)) "" in
  let w1 := fst (createLog c1 w) in
  let w2 := fst (createLog c2 w1) in
  getLastCommitID w2 = (w2, Some (HashID c2)).
Proof.
  intros c1 c2 w w1 w2.
  apply (log_newest_first w w1 w2 "x" "y" "alice" "first" "alice" "second").
  - reflexivity.
  - vm_compute; reflexivity.
  - vm_compute; reflexivity.
Defined.

(** C2, counterexample: the commit succeeds, and the staged path
    [vcs/config.txt] is stored as [config.txt], not at its own relative
    path. *)
Lemma snapshot_strips_vcs_prefix :
  let w := fst (runAll [(["config"; "alice"], 0); (["add"; "vcs/config.txt"], 0)] demoStart) in
  let w' := fst (handleCommit ["first"] 17 w) in
  let snapshot := commitDir +:+ "/" +:+ hashContent ("vcs/config.txt" +:+ nl +:+ "17") in
  ReadFile (files w) indexFilePath = Ok ("vcs/config.txt" +:+ nl)
  /\ handleCommit ["first"] 17 w = (w', Some tt)
  /\ stdout w' = stdout w +:+ "Changes are committed." +:+ nl
  /\ ReadFile (files w') (snapshot +:+ "/vcs/config.txt") = Err ENOENT
  /\ ReadFile (files w') (snapshot +:+ "/config.txt") = Ok "alice".
Proof. vm_compute. repeat split. Qed.

(** A staged path below a directory ends the commit in [log.Fatal]: the
    snapshot directory has no such directory to create the copy in. *)
Example commit_nested_path_fatal :
  let start := mkWorld (<["sub/a.txt" := File "hello"]> (<["sub" := Dir]> ∅)) "" in
  let w := fst (runAll [(["config"; "alice"], 0); (["add"; "sub/a.txt"], 0)] start) in
  ReadFile (files w) indexFilePath = Ok ("sub/a.txt" +:+ nl)
  /\ snd (handleCommit ["first"] 17 w) = None.
Proof. vm_compute. repeat split. Qed.

(* ================================================================== *)
(** ** Further properties of the program *)
(* ================================================================== *)

(** *** The command line *)

(** X1.  [main] makes the directory ./vcs before anything else: when a
    regular file has that name the run ends in [log.Fatal] and no
    command is run; when the directory is there the command line is
    handled in the world as it is; when nothing has that name the
    directory is made and the command line is handled after that. *)
Theorem main_prelude (args : list string) (now : Z) (w : World) :
  main args now w
  = match files w !! "vcs" with
    | Some (File _) => (w, None)
    | Some Dir => setupCommands args now w
    | None =>
        setupCommands args now (mkWorld (<["vcs" := Dir]> (files w)) (stdout w))
    end.
Proof.
  unfold main. mrun. unfold MkdirAll.
  change (String.length "./vcs") with 5%nat. cbn [mkdirAll].
  change (lookup (files w) "./vcs") with (files w !! "vcs").
  destruct (files w !! "vcs") as [[data|]|] eqn:Hv.
  - reflexivity.
  - now rewrite eta_World.
  - change (lookup (files w) (Filepath.Dir (key "./vcs"))) with (Some Dir).
    cbv iota. unfold Mkdir.
    change (lookup (files w) "./vcs") with (files w !! "vcs"). rewrite Hv.
    change (parentCheck (files w) "./vcs") with (Ok tt : result unit).
    reflexivity.
Qed.

(** X2.  Every command of the table is run by its own name, with the
    arguments that follow the name; a first argument that is neither
    "--help" nor the name of a command is answered with
    "'<name>' is not a SVCS command." and changes no file. *)
Theorem command_dispatch (now : Z) (rest : list string) (w : World) :
  (forall cmd, In cmd (Commands now) ->
               setupCommands (Name cmd :: rest) now w = Handler cmd rest w)
  /\ (forall commandName,
        commandName <> "--help" ->
        ~ In commandName (map Name (Commands now)) ->
        setupCommands (commandName :: rest) now w
        = (mkWorld (files w)
                   (stdout w +:+ "'" +:+ commandName +:+ "' is not a SVCS command." +:+ nl),
           Some tt)).
Proof.
  split.
  - intros cmd [<-|[<-|[<-|[<-|[<-|[]]]]]]; reflexivity.
  - intros commandName Hhelp Hin. unfold setupCommands.
    apply String.eqb_neq in Hhelp. rewrite Hhelp.
    destruct (find _ (Commands now)) as [cmd|] eqn:Hfind; [|reflexivity].
    exfalso. apply find_some in Hfind as [Hcmd Hname].
    apply String.eqb_eq in Hname. apply Hin. rewrite <- Hname.
    now apply in_map.
Qed.

(** X2, witness: an unknown command in the demonstration directory. *)
Lemma command_dispatch_witness :
  setupCommands ["status"] 0 demoStart
  = (mkWorld (files demoStart)
             (stdout demoStart +:+ "'" +:+ "status" +:+ "' is not a SVCS command." +:+ nl),
     Some tt).
Proof.
  apply (proj2 (command_dispatch 0 [] demoStart) "status").
  - discriminate.
  - cbn. intuition discriminate.
Defined.

(** *** The user name *)

(** X3.  [config name] with a non-empty name, when it returns, has
    written exactly the name to vcs/config.txt and has printed
    "The username is <name>." with a line feed; after it [readConfig]
    returns the name and [config] without argument prints the same
    sentence, without line feed.  It returns whenever vcs is a directory
    and vcs/config.txt is not one. *)
Theorem config_roundtrip (w : World) (name : string) :
  name <> "" ->
  (forall w1,
     handleConfig [name] w = (w1, Some tt) ->
     files w1 = <[key configPath := File name]> (files w)
     /\ stdout w1 = stdout w +:+ "The username is " +:+ name +:+ "." +:+ nl
     /\ readConfig w1 = (w1, Some name)
     /\ handleConfig [] w1
        = (mkWorld (files w1) (stdout w1 +:+ "The username is " +:+ name +:+ "."),
           Some tt))
  /\ (Stat (files w) "vcs" = Ok Dir ->
      Stat (files w) configPath <> Ok Dir ->
      exists w1, handleConfig [name] w = (w1, Some tt)).
Proof.
  intros Hname.
  assert (Hrun : handleConfig [name] w
                 = match WriteFile (files w) configPath name with
                   | Ok fs' => (mkWorld fs' (stdout w +:+ "The username is " +:+ name
                                             +:+ "." +:+ nl), Some tt)
                   | Err _ => (w, None)
                   end).
  { unfold handleConfig. mrun. unfold setupConfig, doesConfigExist. mrun.
    apply String.eqb_neq in Hname. rewrite Hname, andb_false_r. mrun.
    destruct (WriteFile _ _ _); reflexivity. }
  rewrite Hrun. split.
  - intros w1. destruct (WriteFile _ _ _) as [fs'|e] eqn:Hw; [|discriminate].
    apply WriteFile_Ok in Hw as [Hfs Hr].
    intros H. injection H as <-. cbn [files stdout].
    split; [exact Hfs |]. split; [reflexivity |]. split.
    + unfold readConfig. mrun. cbn [files]. rewrite Hr. reflexivity.
    + unfold handleConfig. mrun. cbn [files]. rewrite Hr.
      destruct name as [|c rest]; [congruence | reflexivity].
  - intros Hvcs Hcfg. unfold WriteFile.
    unfold Stat in Hcfg.
    destruct (lookup (files w) configPath) as [[old|]|] eqn:Hl; [eauto | congruence |].
    unfold parentCheck. change (String.eqb configPath "") with false. cbv iota.
    change (Filepath.Dir (key configPath)) with "vcs".
    unfold Stat in Hvcs.
    destruct (lookup (files w) "vcs") as [[|]|]; try discriminate. eauto.
Qed.

(** X3, witness: the name alice in a directory that has vcs. *)
Lemma config_roundtrip_witness :
  let w := mkWorld (<["vcs" := Dir]> ∅) "" in
  exists w1, handleConfig ["alice"] w = (w1, Some tt)
             /\ readConfig w1 = (w1, Some "alice").
Proof.
  intros w.
  destruct (config_roundtrip w "alice") as [H1 H2]; [discriminate |].
  destruct H2 as (w1 & Hw1); [vm_compute; reflexivity | vm_compute; discriminate |].
  exists w1. split; [exact Hw1 |].
  now destruct (H1 w1 Hw1) as (_ & _ & H & _).
Defined.

(** X4.  Whatever its arguments and its outcome, [config] changes no
    entry of the file system other than vcs/config.txt. *)
Theorem config_frame (args : list string) (w w' : World) (r : option unit) (k : string) :
  handleConfig args w = (w', r) ->
  k <> key configPath ->
  files w' !! k = files w !! k.
Proof.
  unfold handleConfig. mrun. intros H Hk. revert H.
  destruct args as [|name rest].
  - destruct (ReadFile _ _) as [[|c s]|]; intros H; now injection H as <- _.
  - unfold setupConfig, doesConfigExist. mrun.
    destruct (_ && _).
    + unfold readConfig. mrun. destruct (ReadFile _ _); mrun;
        intros H; now injection H as <- _.
    + destruct (String.eqb name ""); [intros H; now injection H as <- _ |].
      mrun. destruct (WriteFile _ _ _) as [fs'|e] eqn:Hw.
      * apply WriteFile_Ok in Hw as [Hfs _]. intros H. injection H as <- _.
        cbn [files]. rewrite Hfs. now rewrite lookup_insert_ne by congruence.
      * intros H; now injection H as <- _.
Qed.

(** X4, witness: a.txt is untouched by [config alice]. *)
Lemma config_frame_witness :
  let w := mkWorld (<["vcs" := Dir]> (files demoStart)) "" in
  files (fst (handleConfig ["alice"] w)) !! "a.txt" = files w !! "a.txt".
Proof.
  intros w.
  apply (config_frame ["alice"] w _ (snd (handleConfig ["alice"] w))).
  - now destruct (handleConfig ["alice"] w).
  - vm_compute; discriminate.
Defined.

(** X5.  In any directory where vcs is not a regular file and
    vcs/config.txt is not a directory, the run [config name] followed by
    the run [config] ends without error, leaves the name in
    vcs/config.txt and prints the user name twice: first with, then
    without a line feed. *)
Theorem config_from_scratch (name : string) (now1 now2 : Z) (w : World) :
  name <> "" ->
  (forall data, Stat (files w) "vcs" <> Ok (File data)) ->
  Stat (files w) configPath <> Ok Dir ->
  exists w2,
    runAll [(["config"; name], now1); (["config"], now2)] w = (w2, Some tt)
    /\ ReadFile (files w2) configPath = Ok name
    /\ stdout w2 = stdout w +:+ ("The username is " +:+ name +:+ "." +:+ nl)
                   +:+ "The username is " +:+ name +:+ ".".
Proof.
  intros Hname Hvcs Hcfg.
  assert (Hmk : exists fs1,
             MkdirAll (files w) "./vcs" = Ok fs1
             /\ Stat fs1 "vcs" = Ok Dir
             /\ Stat fs1 configPath <> Ok Dir).
  { unfold MkdirAll. change (String.length "./vcs") with 5%nat.
    cbn [mkdirAll].
    assert (Hl : forall fs : FS, lookup fs "./vcs" = fs !! "vcs") by reflexivity.
    assert (Hs : forall fs : FS, Stat fs "vcs" = match fs !! "vcs" with
                                             | Some n => Ok n | None => Err ENOENT end)
      by reflexivity.
    rewrite Hl. rewrite Hs in Hvcs.
    destruct (files w !! "vcs") as [[data|]|] eqn:Hv.
    - now destruct (Hvcs data).
    - exists (files w). rewrite Hs, Hv. auto.
    - change (lookup (files w) (Filepath.Dir (key "./vcs"))) with (Some Dir).
      cbv iota. unfold Mkdir. rewrite Hl, Hv.
      change (parentCheck (files w) "./vcs") with (Ok tt : result unit). cbv iota.
      change (key "./vcs") with "vcs".
      eexists. split; [reflexivity |]. rewrite Hs, lookup_insert_eq.
      split; [reflexivity |].
      apply Stat_insert_not_Dir; [discriminate | exact Hcfg]. }
  destruct Hmk as (fs1 & Hmk & Hvcs1 & Hcfg1).
  assert (Hw : exists fs2, WriteFile fs1 configPath name = Ok fs2).
  { unfold WriteFile. unfold Stat in Hcfg1.
    destruct (lookup fs1 configPath) as [[old|]|] eqn:Hl; [eauto | congruence |].
    unfold parentCheck. change (String.eqb configPath "") with false. cbv iota.
    change (Filepath.Dir (key configPath)) with "vcs".
    unfold Stat in Hvcs1.
    destruct (lookup fs1 "vcs") as [[|]|]; try discriminate. eauto. }
  destruct Hw as (fs2 & Hw). pose proof Hw as Hw'.
  apply WriteFile_Ok in Hw' as [Hfs2 Hr2].
  assert (Hmk2 : MkdirAll fs2 "./vcs" = Ok fs2).
  { unfold MkdirAll. change (String.length "./vcs") with 5%nat. cbn [mkdirAll].
    assert (Hl : lookup fs2 "./vcs" = lookup fs1 "vcs").
    { change (lookup fs2 "./vcs") with (fs2 !! "vcs").
      change (lookup fs1 "vcs") with (fs1 !! "vcs").
      rewrite Hfs2. now rewrite lookup_insert_ne by discriminate. }
    rewrite Hl. unfold Stat in Hvcs1.
    destruct (lookup fs1 "vcs") as [[|]|]; try discriminate. reflexivity. }
  apply String.eqb_neq in Hname.
  eexists. split; [|split].
  - cbn [runAll]. unfold main at 1. mrun. rewrite Hmk. mrun.
    change (setupCommands ["config"; name] now1) with (handleConfig [name]).
    unfold handleConfig at 1. mrun. unfold setupConfig, doesConfigExist. mrun.
    cbn [files stdout]. rewrite Hname, andb_false_r. mrun. cbn [files stdout].
    rewrite Hw. mrun.
    unfold Print at 1. cbn [files stdout].
    unfold main. mrun. cbn [files stdout]. rewrite Hmk2. mrun.
    change (setupCommands ["config"] now2) with (handleConfig []).
    unfold handleConfig. mrun. cbn [files stdout]. rewrite Hr2.
    destruct name as [|c s]; [discriminate |]. reflexivity.
  - exact Hr2.
  - cbn [stdout]. now rewrite !app_assoc_s.
Qed.

(** X5, witness: the demonstration directory, which has no vcs yet. *)
Lemma config_from_scratch_witness :
  exists w2,
    runAll [(["config"; "alice"], 0); (["config"], 0)] demoStart = (w2, Some tt)
    /\ ReadFile (files w2) configPath = Ok "alice".
Proof.
  destruct (config_from_scratch "alice" 0 0 demoStart) as (w2 & H1 & H2 & _).
  - discriminate.
  - intros data. vm_compute. discriminate.
  - vm_compute. discriminate.
  - exists w2. split; [exact H1 | exact H2].
Defined.

(** *** Staging, run by run *)

Lemma Size_zero (data : string) : (Size (File data) =? 0) = String.eqb data "".
Proof. destruct data; reflexivity. Qed.

Lemma ReadFile_Stat (fs : FS) (path data : string) :
  ReadFile fs path = Ok data -> Stat fs path = Ok (File data).
Proof.
  unfold ReadFile, Stat. destruct (lookup fs path) as [[d|]|]; congruence.
Qed.

(** Nothing at a path whose directory exists: [os.Stat] reports it
    missing. *)
Lemma Stat_missing_child (fs : FS) (path : string) :
  lookup fs path = None ->
  lookup fs (Filepath.Dir (key path)) = Some Dir ->
  Stat fs path = Err ENOENT.
Proof.
  intros Hl Hp. unfold Stat. rewrite Hl.
  destruct (String.length path); cbn [belowFile]; [reflexivity |].
  now rewrite Hp.
Qed.

(** [setupAdd] on a world whose index can be read. *)
Lemma setupAdd_run (w : World) (file indexContent : string) :
  ReadFile (files w) indexFilePath = Ok indexContent ->
  setupAdd file w
  = if String.eqb file ""
    then (mkWorld (files w)
            (stdout w +:+ (if String.eqb indexContent ""
                           then "Add a file to the index." +:+ nl
                           else "Tracked files:" +:+ nl +:+ indexContent)), Some tt)
    else if IsNotExist (Stat (files w) file)
    then (mkWorld (files w) (stdout w +:+ "Can't find '" +:+ file +:+ "'." +:+ nl), Some tt)
    else if existsb (fun path => String.eqb path file) (Strings.Split indexContent nl)
    then (mkWorld (files w) (stdout w +:+ alreadyText file), Some tt)
    else (mkWorld (<[key indexFilePath := File (indexContent +:+ file +:+ nl)]> (files w))
                  (stdout w +:+ trackedText file), Some tt).
Proof.
  intros Hidx.
  assert (Hlook : lookup (files w) indexFilePath = Some (File indexContent)).
  { unfold ReadFile in Hidx.
    destruct (lookup (files w) indexFilePath) as [[?|]|]; congruence. }
  assert (Htrack : trackFile file w
    = if IsNotExist (Stat (files w) file)
      then (mkWorld (files w) (stdout w +:+ "Can't find '" +:+ file +:+ "'." +:+ nl), Some tt)
      else if existsb (fun path => String.eqb path file) (Strings.Split indexContent nl)
      then (mkWorld (files w) (stdout w +:+ alreadyText file), Some tt)
      else (mkWorld (<[key indexFilePath := File (indexContent +:+ file +:+ nl)]> (files w))
                    (stdout w +:+ trackedText file), Some tt)).
  { unfold trackFile. mrun.
    destruct (IsNotExist (Stat (files w) file)); [reflexivity |].
    unfold isFileTracked. mrun. rewrite Hidx. mrun.
    destruct (existsb _ _); [reflexivity |].
    unfold createIndex. mrun. unfold AppendString.
    rewrite Hlook. reflexivity. }
  unfold setupAdd. destruct (String.eqb file ""); [|exact Htrack].
  mrun. rewrite isIndexEmpty_run, (ReadFile_Stat _ _ _ Hidx), Size_zero.
  destruct (String.eqb indexContent "") eqn:Hempty; cbn [negb]; mrun.
  - rewrite isIndexEmpty_run, (ReadFile_Stat _ _ _ Hidx), Size_zero, Hempty.
    reflexivity.
  - unfold readIndex. mrun. rewrite Hidx. reflexivity.
Qed.

(** [handleAdd] first makes sure that the index is there. *)
Lemma handleAdd_open (args : list string) (w : World) :
  handleAdd args w
  = match (if IsNotExist (Stat (files w) indexFilePath)
           then Create (files w) indexFilePath else Ok (files w)) with
    | Err _ => (w, None)
    | Ok fs0 =>
        let w0 := mkWorld fs0 (stdout w) in
        match ReadFile fs0 indexFilePath with
        | Err _ => (w0, None)
        | Ok content =>
            match args with
            | file :: _ => setupAdd file w0
            | [] =>
                (mkWorld fs0
                   (stdout w +:+ (if String.eqb content ""
                                  then "Add a file to the index." +:+ nl
                                  else ("Tracked files:" +:+ nl) +:+ content +:+ nl)),
                 Some tt)
            end
        end
    end.
Proof.
  unfold handleAdd. mrun.
  destruct (IsNotExist (Stat (files w) indexFilePath)); mrun.
  - destruct (Create _ _) as [fs0|e]; cbv iota; [|reflexivity]. mrun. cbn [files].
    destruct (ReadFile fs0 _) as [content|]; [|reflexivity].
    destruct args; [|reflexivity].
    destruct (String.eqb content ""); [reflexivity |].
    rewrite bind_run. unfold Println, Print. cbn [files stdout].
    now rewrite !app_assoc_s.
  - cbv zeta. rewrite eta_World.
    destruct (ReadFile _ _) as [content|]; [|reflexivity].
    destruct args; [|reflexivity].
    destruct (String.eqb content ""); [reflexivity |].
    rewrite bind_run. unfold Println, Print. cbn [files stdout].
    now rewrite !app_assoc_s.
Qed.

(** What one run of [add] does to the files. *)
Lemma handleAdd_effect (args : list string) (w w' : World) (r : option unit) :
  handleAdd args w = (w', r) ->
  (r = None /\ w' = w)
  \/ (r = Some tt
      /\ exists suffix,
           (files w' = files w
            \/ files w' = <[key indexFilePath := File (indexBefore w +:+ suffix)]> (files w))
           /\ ReadFile (files w') indexFilePath = Ok (indexBefore w +:+ suffix)
           /\ (suffix = ""
               \/ exists file rest,
                    args = file :: rest /\ suffix = file +:+ nl /\ file <> ""
                    /\ ~ In file (Strings.Split (indexBefore w) nl)
                    /\ IsNotExist (Stat (files w') file) = false)).
Proof.
  rewrite handleAdd_open. unfold indexBefore.
  destruct (IsNotExist (Stat (files w) indexFilePath)) eqn:Hstat.
  - (* the index is made *)
    assert (Hnone : ReadFile (files w) indexFilePath = Err ENOENT).
    { unfold ReadFile. unfold Stat in Hstat.
      destruct (lookup (files w) indexFilePath); [discriminate | reflexivity]. }
    rewrite Hnone.
    destruct (Create (files w) indexFilePath) as [fs0|e] eqn:Hc.
    2:{ intros H; injection H as <- <-. now left. }
    unfold Create in Hc. apply WriteFile_Ok in Hc as [Hfs0 Hr0].
    cbv zeta. rewrite Hr0.
    destruct args as [|file rest].
    + intros H; injection H as <- <-. right. split; [reflexivity |].
      exists "". cbn [files]. rewrite app_nil_s. auto.
    + rewrite (setupAdd_run _ file "") by exact Hr0. cbn [files stdout].
      destruct (String.eqb_spec file "") as [->|Hfile].
      { intros H; injection H as <- <-. right. split; [reflexivity |].
        exists "". cbn [files]. rewrite app_nil_s. auto. }
      destruct (IsNotExist (Stat fs0 file)) eqn:Hex.
      { intros H; injection H as <- <-. right. split; [reflexivity |].
        exists "". cbn [files]. rewrite app_nil_s. auto. }
      change (Strings.Split "" nl) with [""]. cbn [existsb].
      destruct (String.eqb_spec "" file) as [E|_]; [congruence |]. cbn [orb].
      intros H; injection H as <- <-. right. split; [reflexivity |].
      exists (file +:+ nl). cbn [files]. rewrite !app_nil_s.
      split; [right; rewrite Hfs0; apply insert_insert_eq |].
      split; [apply ReadFile_index_insert |].
      right. exists file, rest. repeat split; try assumption.
      * intros [E|[]]. congruence.
      * now apply IsNotExist_insert.
  - (* the index is there *)
    cbv zeta. rewrite eta_World.
    destruct (ReadFile (files w) indexFilePath) as [content|e] eqn:Hidx.
    2:{ intros H; injection H as <- <-. now left. }
    destruct args as [|file rest].
    + intros H; injection H as <- <-. right. split; [reflexivity |].
      exists "". cbn [files]. rewrite app_empty_r. auto.
    + rewrite (setupAdd_run _ file content) by exact Hidx.
      destruct (String.eqb_spec file "") as [->|Hfile].
      { intros H; injection H as <- <-. right. split; [reflexivity |].
        exists "". cbn [files]. rewrite app_empty_r. auto. }
      destruct (IsNotExist (Stat (files w) file)) eqn:Hex.
      { intros H; injection H as <- <-. right. split; [reflexivity |].
        exists "". cbn [files]. rewrite app_empty_r. auto. }
      destruct (existsb _ _) eqn:Hin.
      { intros H; injection H as <- <-. right. split; [reflexivity |].
        exists "". cbn [files]. rewrite app_empty_r. auto. }
      intros H; injection H as <- <-. right. split; [reflexivity |].
      exists (file +:+ nl). cbn [files].
      split; [now right |].
      split; [apply ReadFile_index_insert |].
      right. exists file, rest. repeat split; try assumption.
      * intros Hf. apply existsb_eqb_In in Hf. congruence.
      * now apply IsNotExist_insert.
Qed.

(** X6.  The index only grows.  After a run of [add] that returns, the
    index holds what it held before (nothing when it was missing)
    followed by a suffix; the suffix is empty, or it is the first
    argument and a line feed, and then the argument is not empty, was no
    line of the index, and [os.Stat] of it does not report it missing
    (something is at the path, or the path leads through a regular
    file). *)
Theorem add_appends (args : list string) (w w' : World) :
  handleAdd args w = (w', Some tt) ->
  exists suffix,
    ReadFile (files w') indexFilePath = Ok (indexBefore w +:+ suffix)
    /\ (suffix = ""
        \/ exists file rest,
             args = file :: rest /\ suffix = file +:+ nl /\ file <> ""
             /\ ~ In file (Strings.Split (indexBefore w) nl)
             /\ IsNotExist (Stat (files w') file) = false).
Proof.
  intros H. apply handleAdd_effect in H as [[H _]|(_ & suffix & _ & H1 & H2)];
    [discriminate |].
  exists suffix. auto.
Qed.

(** X6, witness: [add a.txt] on a missing index. *)
Lemma add_appends_witness :
  let w := mkWorld (<["vcs" := Dir]> (files demoStart)) "" in
  exists suffix,
    ReadFile (files (fst (handleAdd ["a.txt"] w))) indexFilePath
    = Ok (indexBefore w +:+ suffix).
Proof.
  intros w.
  destruct (add_appends ["a.txt"] w (fst (handleAdd ["a.txt"] w))) as (suffix & H & _).
  - vm_compute; reflexivity.
  - exists suffix. exact H.
Defined.

(** X7.  [add] changes no entry of the file system other than
    vcs/index.txt, and a run that ends in [log.Fatal] changes nothing at
    all. *)
Theorem add_frame (args : list string) (w w' : World) (r : option unit) (k : string) :
  handleAdd args w = (w', r) ->
  (k <> key indexFilePath -> files w' !! k = files w !! k)
  /\ (r = None -> w' = w).
Proof.
  intros H. apply handleAdd_effect in H as [[-> ->]|(-> & suffix & [E|E] & _)].
  - auto.
  - rewrite E. split; [reflexivity | discriminate].
  - rewrite E. split; [|discriminate].
    intros Hk. now rewrite lookup_insert_ne by congruence.
Qed.

(** X7, witness: a.txt is untouched by [add a.txt]. *)
Lemma add_frame_witness :
  let w := mkWorld (<["vcs" := Dir]> (files demoStart)) "" in
  files (fst (handleAdd ["a.txt"] w)) !! "a.txt" = files w !! "a.txt".
Proof.
  intros w.
  apply (add_frame ["a.txt"] w _ (snd (handleAdd ["a.txt"] w)) "a.txt").
  - now destruct (handleAdd ["a.txt"] w).
  - vm_compute; discriminate.
Defined.

(** X8.  [add] keeps the index well formed: an index that is missing,
    empty or ends in a line feed is, after any run of [add], empty or
    ended by a line feed. *)
Theorem add_keeps_terminated (args : list string) (w w' : World) (r : option unit) :
  indexTerminated w ->
  handleAdd args w = (w', r) ->
  indexTerminated w'.
Proof.
  intros Hterm H.
  apply handleAdd_effect in H as [[_ ->]|(_ & suffix & _ & Hr & Hs)]; [assumption |].
  unfold indexTerminated. rewrite Hr.
  destruct Hs as [->|(file & rest & _ & -> & _)].
  - rewrite app_empty_r. unfold indexTerminated, indexBefore in *.
    now destruct (ReadFile (files w) indexFilePath).
  - apply terminated_app_nl.
Qed.

(** X8, witness: [add a.txt] in the demonstration directory. *)
Lemma add_keeps_terminated_witness :
  indexTerminated (fst (handleAdd ["a.txt"] demoStart)).
Proof.
  apply (add_keeps_terminated ["a.txt"] demoStart _ (snd (handleAdd ["a.txt"] demoStart))).
  - exact I.
  - now destruct (handleAdd ["a.txt"] demoStart).
Defined.

(** X9.  [add file] for a cleaned path at which [os.Stat] finds nothing
    (its error is not-exist), when the index is there already or the
    path is a plain name, reports "Can't find '<file>'." and stages
    nothing: the index holds what it held before (it is created empty
    when it was missing) and no other entry of the file system
    changes. *)
Theorem add_missing_file (file : string) (rest : list string) (w w' : World) :
  key file = file ->
  IsNotExist (Stat (files w) file) = true ->
  IsNotExist (Stat (files w) indexFilePath) = false \/ simpleName file = true ->
  handleAdd (file :: rest) w = (w', Some tt) ->
  stdout w' = stdout w +:+ "Can't find '" +:+ file +:+ "'." +:+ nl
  /\ ReadFile (files w') indexFilePath = Ok (indexBefore w)
  /\ forall k, k <> key indexFilePath -> files w' !! k = files w !! k.
Proof.
  intros Hclean Hmiss Hcase. rewrite handleAdd_open. unfold indexBefore.
  assert (Hfile : String.eqb file "" = false).
  { destruct file; [discriminate Hclean | reflexivity]. }
  destruct (IsNotExist (Stat (files w) indexFilePath)) eqn:Hstat.
  - destruct Hcase as [Hcase|Hsimple]; [discriminate |].
    assert (Hnone : ReadFile (files w) indexFilePath = Err ENOENT).
    { unfold ReadFile. unfold Stat in Hstat.
      destruct (lookup (files w) indexFilePath); [discriminate | reflexivity]. }
    rewrite Hnone.
    destruct (Create (files w) indexFilePath) as [fs0|e] eqn:Hc; [|discriminate].
    unfold Create in Hc. apply WriteFile_Ok in Hc as [Hfs0 Hr0].
    cbv zeta. rewrite Hr0, (setupAdd_run _ file "") by exact Hr0.
    rewrite Hfile. cbn [files stdout].
    assert (Hmiss0 : IsNotExist (Stat fs0 file) = true).
    { apply IsNotExist_Stat in Hmiss as [Hl _].
      rewrite Stat_missing_child; [reflexivity | |].
      - rewrite Hfs0, lookup_insert_other; [exact Hl |].
        rewrite Hclean. intros E. rewrite <- E in Hsimple.
        vm_compute in Hsimple. discriminate Hsimple.
      - rewrite Hclean. pose proof Hsimple as Hn.
        apply simpleName_inv in Hn as (_ & _ & _ & Hs).
        unfold Filepath.Dir. rewrite dirPrefix_noSlash by assumption.
        reflexivity. }
    rewrite Hmiss0. intros H. injection H as <-. cbn [files stdout].
    split; [reflexivity |]. split; [exact Hr0 |].
    intros k Hk. rewrite Hfs0. now rewrite lookup_insert_ne by congruence.
  - cbv zeta. rewrite eta_World.
    destruct (ReadFile (files w) indexFilePath) as [content|e] eqn:Hidx; [|discriminate].
    rewrite (setupAdd_run _ file content) by exact Hidx.
    rewrite Hfile, Hmiss. intros H. injection H as <-. cbn [files stdout]. auto.
Qed.

(** X9, witness: [add b.txt] after the demonstration commit. *)
Lemma add_missing_file_witness :
  let w' := fst (handleAdd ["b.txt"] demoCommitted) in
  stdout w' = stdout demoCommitted +:+ "Can't find '" +:+ "b.txt" +:+ "'." +:+ nl
  /\ ReadFile (files w') indexFilePath = Ok (indexBefore demoCommitted).
Proof.
  intros w'.
  destruct (add_missing_file "b.txt" [] demoCommitted w') as (H1 & H2 & _).
  - reflexivity.
  - vm_compute; reflexivity.
  - left. vm_compute; reflexivity.
  - vm_compute; reflexivity.
  - split; [exact H1 | exact H2].
Defined.

Lemma split1_line (f : string) :
  noChar LF f = true -> Strings.Split (f +:+ nl) nl = [f; ""].
Proof. intros H. unfold nl. now rewrite split1_app. Qed.

(** Staging into an index that is there. *)
Lemma addEach_run (filePaths : list string) (w : World) (indexContent : string) :
  ReadFile (files w) indexFilePath = Ok indexContent ->
  terminated indexContent = true ->
  List.NoDup filePaths ->
  (forall f, In f filePaths ->
             f <> "" /\ noChar LF f = true
             /\ IsNotExist (Stat (files w) f) = false
             /\ ~ In f (Strings.Split indexContent nl)) ->
  exists w',
    addEach filePaths w = (w', Some tt)
    /\ ReadFile (files w') indexFilePath = Ok (indexContent +:+ unlines filePaths)
    /\ stdout w' = stdout w +:+ trackedTexts filePaths
    /\ forall k, k <> key indexFilePath -> files w' !! k = files w !! k.
Proof.
  revert w indexContent.
  induction filePaths as [|f rest IH]; intros w indexContent Hidx Hterm Hnd Hall.
  - exists w. cbn [addEach unlines trackedTexts]. rewrite !app_empty_r. auto.
  - destruct (Hall f (or_introl eq_refl)) as (Hf & Hlf & Hex & Hnew).
    cbn [addEach]. rewrite (handleAdd_run w f indexContent Hf Hidx), Hex.
    destruct (existsb _ _) eqn:Hin; [apply existsb_eqb_In in Hin; contradiction |].
    set (w1 := mkWorld _ _).
    destruct (split1_terminated indexContent Hterm) as (body & Hbody & _ & Happ).
    inversion Hnd as [|? ? Hfresh Hnd']; subst.
    destruct (IH w1 (indexContent +:+ f +:+ nl)) as (w' & Hrun & Hr & Hout & Hframe).
    + apply ReadFile_index_insert.
    + apply terminated_app_nl.
    + exact Hnd'.
    + intros g Hg. destruct (Hall g (or_intror Hg)) as (Hg1 & Hg2 & Hg3 & Hg4).
      split; [assumption |]. split; [assumption |]. split.
      * now apply IsNotExist_insert.
      * rewrite Happ, (split1_line f Hlf). intros Hmem.
        apply in_app_or in Hmem as [Hmem|[<-|[<-|[]]]].
        -- apply Hg4. rewrite Hbody. apply in_or_app. now left.
        -- contradiction.
        -- congruence.
    + exists w'. split; [exact Hrun |]. split; [|split].
      * rewrite Hr. cbn [unlines]. now rewrite !app_assoc_s.
      * rewrite Hout. subst w1. cbn [trackedTexts stdout]. now rewrite !app_assoc_s.
      * intros k Hk. rewrite (Hframe k Hk). subst w1. cbn [files].
        now rewrite lookup_insert_ne by congruence.
Qed.

(** X10.  Staging keeps the order.  When distinct existing files, whose
    names are non-empty, have no line feed and are not yet lines of the
    index, are added one after the other, every run reports
    "The file '<file>' is tracked.", the index afterwards is what it was
    before followed by the names in the order of the runs, one per line,
    nothing but the index has changed, and [add] without argument then
    lists exactly that index under "Tracked files:". *)
Theorem add_in_order (filePaths : list string) (w : World) :
  filePaths <> [] ->
  List.NoDup filePaths ->
  (forall f, In f filePaths ->
             f <> "" /\ noChar LF f = true
             /\ IsNotExist (Stat (files w) f) = false
             /\ ~ In f (Strings.Split (indexBefore w) nl)) ->
  terminated (indexBefore w) = true ->
  Stat (files w) indexFilePath <> Ok Dir ->
  Stat (files w) "vcs" = Ok Dir ->
  exists w',
    addEach filePaths w = (w', Some tt)
    /\ ReadFile (files w') indexFilePath = Ok (indexBefore w +:+ unlines filePaths)
    /\ stdout w' = stdout w +:+ trackedTexts filePaths
    /\ (forall k, k <> key indexFilePath -> files w' !! k = files w !! k)
    /\ handleAdd [] w'
       = (mkWorld (files w')
            (stdout w' +:+ ("Tracked files:" +:+ nl)
             +:+ (indexBefore w +:+ unlines filePaths) +:+ nl),
          Some tt).
Proof.
  intros Hne Hnd Hall Hterm Hnodir Hvcs.
  assert (Hcore : exists w',
    addEach filePaths w = (w', Some tt)
    /\ ReadFile (files w') indexFilePath = Ok (indexBefore w +:+ unlines filePaths)
    /\ stdout w' = stdout w +:+ trackedTexts filePaths
    /\ forall k, k <> key indexFilePath -> files w' !! k = files w !! k).
  2:{ destruct Hcore as (w' & Hrun & Hr & Hout & Hframe).
      exists w'. repeat (split; [assumption |]).
      rewrite handleAdd_open, (ReadFile_Stat _ _ _ Hr). cbn [IsNotExist].
      cbv zeta. rewrite Hr.
      destruct filePaths as [|f rest]; [congruence |].
      destruct (Hall f (or_introl eq_refl)) as (Hf & _).
      assert (E : String.eqb (indexBefore w +:+ unlines (f :: rest)) "" = false).
      { cbn [unlines]. destruct (indexBefore w); destruct f; congruence || reflexivity. }
      now rewrite E. }
  unfold indexBefore in *.
  destruct (ReadFile (files w) indexFilePath) as [indexContent|e] eqn:Hidx.
  - now apply addEach_run.
  - assert (Hstat : IsNotExist (Stat (files w) indexFilePath) = true).
    { rewrite Stat_missing_child; [reflexivity | |].
      - unfold ReadFile in Hidx. rewrite Stat_Ok_lookup in Hnodir.
        destruct (lookup (files w) indexFilePath) as [[|]|]; congruence.
      - apply Stat_Ok_lookup in Hvcs. exact Hvcs. }
    assert (Hc : exists fs0, Create (files w) indexFilePath = Ok fs0).
    { unfold Create, WriteFile. unfold Stat in Hstat.
      destruct (lookup (files w) indexFilePath); [discriminate |].
      unfold parentCheck. change (String.eqb indexFilePath "") with false. cbv iota.
      change (Filepath.Dir (key indexFilePath)) with "vcs".
      unfold Stat in Hvcs.
      destruct (lookup (files w) "vcs") as [[|]|]; try discriminate. eauto. }
    destruct Hc as (fs0 & Hc).
    pose proof Hc as Hc'. unfold Create in Hc'.
    apply WriteFile_Ok in Hc' as [Hfs0 Hr0].
    destruct filePaths as [|f rest]; [congruence |].
    destruct (addEach_run (f :: rest) (mkWorld fs0 (stdout w)) "")
      as (w' & Hrun & Hr & Hout & Hframe); try assumption; try reflexivity.
    { intros g Hg. destruct (Hall g Hg) as (Hg1 & Hg2 & Hg3 & Hg4).
      split; [assumption |]. split; [assumption |]. split; [|assumption].
      cbn [files]. rewrite Hfs0. now apply IsNotExist_insert. }
    exists w'. split; [|split; [exact Hr | split; [exact Hout |]]].
    + cbn [addEach] in Hrun |- *. now rewrite (handleAdd_fresh w f Hstat), Hc.
    + intros k Hk. rewrite (Hframe k Hk). cbn [files]. rewrite Hfs0.
      now rewrite lookup_insert_ne by congruence.
Qed.

(** X10, witness: b.txt, then a.txt. *)
Lemma add_in_order_witness :
  let w := mkWorld (<["b.txt" := File "world"]>
                    (<["a.txt" := File "hello"]> (<["vcs" := Dir]> ∅))) "" in
  exists w',
    addEach ["b.txt"; "a.txt"] w = (w', Some tt)
    /\ ReadFile (files w') indexFilePath = Ok (unlines ["b.txt"; "a.txt"]).
Proof.
  intros w.
  destruct (add_in_order ["b.txt"; "a.txt"] w) as (w' & H1 & H2 & _).
  - discriminate.
  - repeat constructor; cbn; intuition discriminate.
  - intros f [<-|[<-|[]]]; (split; [discriminate |]);
      (split; [reflexivity |]); (split; [vm_compute; reflexivity |]);
      vm_compute; intros [E|[]]; discriminate E.
  - reflexivity.
  - vm_compute; discriminate.
  - vm_compute; reflexivity.
  - exists w'. split; [exact H1 | exact H2].
Defined.

(** *** The snapshot directory and the copy of one file *)

Lemma Mkdir_Stat (fs fs' : FS) (path : string) :
  Mkdir fs path = Ok fs' -> Stat fs' path = Ok Dir.
Proof.
  unfold Mkdir, parentCheck, Stat, lookup.
  destruct (String.eqb path ""); [discriminate |].
  destruct (alwaysDir (key path)); [discriminate |].
  destruct (fs !! key path); [discriminate |].
  destruct (if String.eqb _ "" then _ else _) as [[|]|]; try discriminate.
  intros H; injection H as <-. now rewrite lookup_insert_eq.
Qed.

Lemma createCommitDir_exists (c : Commit) (w w1 : World) (path : string) :
  createCommitDir c w = (w1, Some (Ok path)) ->
  IsNotExist (Stat (files w1) path) = false.
Proof.
  unfold createCommitDir. mrun.
  destruct (IsNotExist (Stat (files w) _)) eqn:Hstat; mrun.
  - destruct (Mkdir _ _) as [fs1|e] eqn:Hmk; mrun; [|discriminate].
    intros H. injection H as <- <-. cbn [files].
    apply Mkdir_Stat in Hmk. now rewrite Hmk.
  - intros H. injection H as <- <-. exact Hstat.
Qed.

Lemma createCommitDir_made (c : Commit) (w w1 : World) (path : string) :
  createCommitDir c w = (w1, Some (Ok path)) ->
  (forall k, k <> key (commitDir +:+ "/" +:+ HashID c) -> files w1 !! k = files w !! k)
  /\ (IsNotExist (Stat (files w) (commitDir +:+ "/" +:+ HashID c)) = true ->
      Stat (files w1) (commitDir +:+ "/" +:+ HashID c) = Ok Dir).
Proof.
  unfold createCommitDir. mrun.
  destruct (IsNotExist (Stat (files w) _)) eqn:Hstat; mrun.
  - destruct (Mkdir _ _) as [fs1|e] eqn:Hmk; mrun; [|discriminate].
    intros H. injection H as <- _. cbn [files]. split.
    + intros k Hk. apply Mkdir_Ok in Hmk as [_ ->].
      now rewrite lookup_insert_ne by congruence.
    + intros _. now apply Mkdir_Stat in Hmk.
  - intros H. injection H as <- _. split; [reflexivity | discriminate].
Qed.

(** X11.  [createCommitDir] returns the path vcs/commits/<id>; when it
    returns without error, [os.Stat] of that path does not report it
    missing (the directory was made, or something was there, or the path
    leads through a regular file), and a second call returns the same
    path and changes nothing. *)
Theorem createCommitDir_reuse (c : Commit) (w w1 : World) (path : string) :
  createCommitDir c w = (w1, Some (Ok path)) ->
  path = commitDir +:+ "/" +:+ HashID c
  /\ IsNotExist (Stat (files w1) path) = false
  /\ createCommitDir c w1 = (w1, Some (Ok path)).
Proof.
  unfold createCommitDir. mrun.
  destruct (IsNotExist (Stat (files w) _)) eqn:Hstat; mrun.
  - destruct (Mkdir _ _) as [fs1|e] eqn:Hmk; mrun; [|discriminate].
    intros H. injection H as <- <-. cbn [files].
    apply Mkdir_Stat in Hmk. rewrite Hmk. cbn [IsNotExist]. mrun. auto.
  - intros H. injection H as <- <-. rewrite Hstat. mrun. auto.
Qed.

(** X11, witness: the snapshot directory of abc, made and reused. *)
Lemma createCommitDir_reuse_witness :
  let c := mkCommit "abc" "alice" "first" in
  let w := mkWorld (<["vcs/commits" := Dir]> ∅) "" in
  createCommitDir c (fst (createCommitDir c w))
  = (fst (createCommitDir c w), Some (Ok "vcs/commits/abc")).
Proof.
  intros c w.
  apply (createCommitDir_reuse c w (fst (createCommitDir c w)) "vcs/commits/abc").
  vm_compute; reflexivity.
Defined.

(** X12.  When source and destination are different files, a
    [copyFile] that returns no error leaves the bytes of the source at
    the destination, leaves the source as it was, prints nothing and
    changes no other entry of the file system. *)
Theorem copyFile_copies (src dst : string) (w w' : World) :
  key dst <> key src ->
  copyFile src dst w = (w', Some (Ok tt)) ->
  exists data,
    ReadFile (files w) src = Ok data
    /\ ReadFile (files w') dst = Ok data
    /\ ReadFile (files w') src = Ok data
    /\ stdout w' = stdout w
    /\ forall k, k <> key dst -> files w' !! k = files w !! k.
Proof.
  intros Hkey H.
  pose proof (copyFile_stdout _ _ _ _ _ H) as [Hout _].
  pose proof (fun k => copyFile_frame _ _ _ _ _ k H) as Hframe.
  apply copyFile_Ok in H as (data & Hsrc & Hf & Hdst).
  rewrite ReadFile_insert_ne in Hsrc by assumption.
  exists data. split; [exact Hsrc |]. split; [exact Hdst |].
  split; [|split; [exact Hout | exact Hframe]].
  rewrite <- Hsrc. apply ReadFile_ext. apply Hframe. congruence.
Qed.

(** X12, witness: a.txt copied to b.txt. *)
Lemma copyFile_copies_witness :
  let w' := fst (copyFile "a.txt" "b.txt" demoStart) in
  exists data,
    ReadFile (files demoStart) "a.txt" = Ok data
    /\ ReadFile (files w') "b.txt" = Ok data.
Proof.
  intros w'.
  destruct (copyFile_copies "a.txt" "b.txt" demoStart w') as (data & H1 & H2 & _).
  - vm_compute; discriminate.
  - vm_compute; reflexivity.
  - exists data. split; [exact H1 | exact H2].
Defined.

(** X13.  [copyFile] of a regular file onto itself (source and
    destination are the same cleaned path) returns no error and leaves
    the file empty: the destination is truncated before the source is
    read. *)
Theorem copyFile_onto_itself (src data : string) (w : World) :
  key src = src ->
  ReadFile (files w) src = Ok data ->
  copyFile src src w
  = (mkWorld (<[src := File ""]> (files w)) (stdout w), Some (Ok tt)).
Proof.
  intros Hkey Hsrc.
  unfold copyFile. mrun. rewrite (ReadFile_Stat _ _ _ Hsrc). mrun.
  unfold Create, WriteFile.
  assert (Hl : lookup (files w) src = Some (File data)).
  { unfold ReadFile in Hsrc. destruct (lookup (files w) src) as [[|]|]; congruence. }
  rewrite Hl. mrun. cbn [files stdout].
  rewrite (ReadFile_insert_same _ _ data "" Hsrc). mrun. cbn [files stdout].
  now rewrite insert_insert_eq, Hkey.
Qed.

(** X13, witness: a.txt copied to a.txt. *)
Lemma copyFile_onto_itself_witness :
  ReadFile (files (fst (copyFile "a.txt" "a.txt" demoStart))) "a.txt" = Ok "".
Proof.
  rewrite (copyFile_onto_itself "a.txt" "hello" demoStart).
  - vm_compute; reflexivity.
  - reflexivity.
  - vm_compute; reflexivity.
Defined.

(** *** A staged path below a directory *)

Lemma dirPrefix_app (a n : string) :
  noChar "/" n = true -> Filepath.dirPrefix (a +:+ ("/" ::: n)) = a +:+ "/".
Proof.
  intros Hn. induction a as [|c a IH].
  - rewrite !app_nil_s. cbn [Filepath.dirPrefix].
    now rewrite (dirPrefix_noSlash n Hn).
  - rewrite !app_cons_s. cbn [Filepath.dirPrefix]. rewrite IH.
    destruct a; reflexivity.
Qed.

Lemma Join_snoc_empty (e : string) (es : list string) :
  Strings.Join ((e :: es) ++ [""])%list "/" = Strings.Join (e :: es) "/" +:+ "/".
Proof.
  revert e. induction es as [|e' es IH]; intros e.
  - reflexivity.
  - specialize (IH e'). cbn [app] in IH |- *.
    rewrite (Join_cons_cons e e' (es ++ [""])%list), (Join_cons_cons e e' es), IH.
    now rewrite !app_assoc_s.
Qed.

Lemma Clean_trailing (e : string) (es : list string) :
  Forall (fun x => simpleName x = true) (e :: es) ->
  Filepath.Clean (Strings.Join (e :: es) "/" +:+ "/") = Strings.Join (e :: es) "/".
Proof.
  intros H.
  assert (Hfree : Forall (fun x => noChar "/" x = true) ((e :: es) ++ [""])%list).
  { apply Forall_app. split; [|repeat constructor].
    eapply Forall_impl; [exact H |]. intros x Hx. now apply simpleName_inv in Hx. }
  pose proof (split1_Join "/" e (es ++ [""])%list Hfree) as Hsplit.
  change (e :: (es ++ [""]))%list with ((e :: es) ++ [""])%list in Hsplit.
  rewrite Join_snoc_empty in Hsplit.
  inversion H as [|? ? He _]; subst.
  apply simpleName_inv in He as (He & _ & _ & Hs).
  destruct e as [|c e]; [congruence |].
  rewrite Join_head in *. rewrite app_cons_s in *.
  unfold Filepath.Clean.
  assert (Hc : Ascii.eqb c "/" = false).
  { simpl in Hs. now destruct (Ascii.eqb c "/"). }
  rewrite Hc, Hsplit.
  rewrite (fold_left_app (Filepath.cleanStep false) ((c ::: e) :: es) [""]).
  rewrite (fold_cleanStep_simple false ((c ::: e) :: es) []) by exact H.
  cbn [fold_left]. change (Filepath.cleanStep false ?s "") with s.
  rewrite app_nil_r, rev_involutive, Join_head. reflexivity.
Qed.

Lemma lookup_key_missing (fs : FS) (a b : string) :
  key a = key b -> b <> "" ->
  lookup fs b = None -> lookup fs a = None.
Proof.
  intros Hk Hb. unfold lookup. rewrite Hk.
  apply String.eqb_neq in Hb. rewrite Hb.
  destruct (String.eqb a ""); [reflexivity | trivial].
Qed.

(** [os.Create] makes no directory: without the directory of the
    destination there is no copy. *)
Lemma copyFile_no_parent (src dst : string) (w w' : World) :
  lookup (files w) dst = None ->
  lookup (files w) (Filepath.Dir (key dst)) = None ->
  copyFile src dst w <> (w', Some (Ok tt)).
Proof.
  intros Hdst Hparent. unfold copyFile. mrun.
  destruct (Stat (files w) src); [|discriminate].
  mrun. unfold Create, WriteFile, parentCheck.
  rewrite Hdst, Hparent.
  destruct (String.eqb dst ""); discriminate.
Qed.

Lemma nested_destination (id dir name : string) :
  simpleName id = true ->
  simpleName dir = true ->
  simpleName name = true ->
  dir <> "vcs" ->
  let snapshot := commitDir +:+ "/" +:+ id in
  let parent := snapshot +:+ "/" +:+ dir in
  let stored := parent +:+ "/" +:+ name in
  key (destinationOf snapshot (dir +:+ "/" +:+ name)) = stored
  /\ key stored = stored
  /\ key parent = parent
  /\ Filepath.Dir stored = parent
  /\ stored <> "".
Proof.
  intros Hid Hdir Hname Hvcs snapshot parent stored.
  assert (Hparent : parent = Strings.Join ["vcs"; "commits"; id; dir] "/").
  { unfold parent, snapshot, commitDir. cbn [Strings.Join]. now rewrite !app_assoc_s. }
  assert (Hstored : stored = Strings.Join ["vcs"; "commits"; id; dir; name] "/").
  { unfold stored, parent, snapshot, commitDir. cbn [Strings.Join]. now rewrite !app_assoc_s. }
  assert (Hs4 : Forall (fun x => simpleName x = true) ["vcs"; "commits"; id; dir]).
  { repeat constructor; assumption. }
  assert (Hs5 : Forall (fun x => simpleName x = true) ["vcs"; "commits"; id; dir; name]).
  { repeat constructor; assumption. }
  assert (Hks : key stored = stored).
  { unfold key. rewrite Hstored. now apply Clean_simple. }
  assert (Hkp : key parent = parent).
  { unfold key. rewrite Hparent. now apply Clean_simple. }
  split; [|split; [exact Hks | split; [exact Hkp | split]]].
  - unfold destinationOf.
    change (dir +:+ "/" +:+ name) with (Strings.Join [dir; name] "/").
    rewrite trimPrefix_first_element by (repeat constructor; assumption).
    unfold Filepath.Join. change (String.eqb snapshot "") with false. cbv iota.
    assert (E : Strings.Join [snapshot; Strings.Join [dir; name] "/"] "/" = stored).
    { unfold stored, parent. cbn [Strings.Join]. now rewrite !app_assoc_s. }
    rewrite E. unfold key.
    rewrite Hstored, !Clean_simple by assumption. reflexivity.
  - unfold Filepath.Dir, stored.
    change ("/" +:+ name) with ("/" ::: name).
    rewrite dirPrefix_app by now apply simpleName_inv in Hname.
    rewrite Hparent. now apply Clean_trailing.
  - rewrite Hstored. discriminate.
Qed.

(** X14.  The copy loop of [copyFilesToCommitDir] creates no
    directory.  When the index lists a path dir/name (two simple names,
    dir other than "vcs"), the snapshot has nothing at <snapshot>/dir
    nor at <snapshot>/dir/name, and no staged path is copied to
    <snapshot>/dir itself, the loop ends in [log.Fatal]. *)
Theorem copy_nested_path_fails (id dir name : string) (filePaths : list string) (w : World) :
  simpleName id = true ->
  simpleName dir = true ->
  simpleName name = true ->
  dir <> "vcs" ->
  let snapshot := commitDir +:+ "/" +:+ id in
  let parent := snapshot +:+ "/" +:+ dir in
  In (dir +:+ "/" +:+ name) filePaths ->
  (forall q, In q filePaths -> q <> "" ->
             key (destinationOf snapshot q) <> key parent) ->
  IsNotExist (Stat (files w) parent) = true ->
  IsNotExist (Stat (files w) (parent +:+ "/" +:+ name)) = true ->
  exists w', copyEach filePaths snapshot w = (w', None).
Proof.
  intros Hid Hdir Hname Hvcs snapshot parent.
  destruct (nested_destination id dir name Hid Hdir Hname Hvcs)
    as (Hdest & Hks & Hkp & Hup & Hne).
  fold snapshot in Hdest, Hks, Hkp, Hup, Hne.
  fold parent in Hdest, Hks, Hkp, Hup, Hne.
  set (stored := parent +:+ "/" +:+ name) in *.
  assert (Hp : dir +:+ "/" +:+ name <> "").
  { apply simpleName_inv in Hdir as (Hd & _). destruct dir; [congruence | discriminate]. }
  assert (Hcore : forall w0,
             In (dir +:+ "/" +:+ name) filePaths ->
             (forall q, In q filePaths -> q <> "" ->
                        key (destinationOf snapshot q) <> key parent) ->
             lookup (files w0) parent = None ->
             lookup (files w0) stored = None ->
             exists w', copyEach filePaths snapshot w0 = (w', None)).
  { induction filePaths as [|q rest IH]; intros w0 Hin Hapart HP HS;
      [destruct Hin |].
    cbn [copyEach].
    destruct (String.eqb_spec q "") as [->|Hq].
    { apply IH; try assumption.
      - destruct Hin as [E|Hin]; [congruence | exact Hin].
      - intros r Hr. apply Hapart. now right. }
    mrun. fold (destinationOf snapshot q).
    destruct (copyFile q (destinationOf snapshot q) w0) as [w1 r1] eqn:H1.
    destruct r1 as [[[]|e]|]; [|eauto |eauto].
    assert (Hother : key (destinationOf snapshot q) <> stored).
    { intros E. apply (copyFile_no_parent q (destinationOf snapshot q) w0 w1); [| |exact H1].
      - apply (lookup_key_missing _ _ stored); [congruence | assumption | assumption].
      - now rewrite E, Hup. }
    apply copyFile_Ok in H1 as (data & _ & Hf & _).
    apply IH.
    - destruct Hin as [E|Hin]; [|exact Hin]. subst q. contradiction.
    - intros r Hr. apply Hapart. now right.
    - rewrite Hf, lookup_insert_other; [exact HP |].
      apply Hapart; [now left | assumption].
    - rewrite Hf, lookup_insert_other; [exact HS |]. now rewrite Hks. }
  intros Hin Hapart HP HS.
  apply IsNotExist_Stat in HP as [HP _]. apply IsNotExist_Stat in HS as [HS _].
  now apply Hcore.
Qed.

(** X14, witness: sub/a.txt staged, the snapshot of abc empty. *)
Lemma copy_nested_path_fails_witness :
  let w := mkWorld (<["vcs/commits/abc" := Dir]>
                    (<["sub/a.txt" := File "hello"]> (<["sub" := Dir]> ∅))) "" in
  exists w', copyEach ["sub/a.txt"; ""] "vcs/commits/abc" w = (w', None).
Proof.
  intros w.
  apply (copy_nested_path_fails "abc" "sub" "a.txt" ["sub/a.txt"; ""] w).
  - reflexivity.
  - reflexivity.
  - reflexivity.
  - discriminate.
  - now left.
  - intros q [<-|[<-|[]]] Hq; [vm_compute; discriminate | congruence].
  - vm_compute; reflexivity.
  - vm_compute; reflexivity.
Defined.

(** *** The message of a commit *)

Lemma plainByte_inv (c : ascii) :
  plainByte c = true -> (32 < nat_of_ascii c < 127)%nat.
Proof.
  unfold plainByte. intros H. apply andb_prop in H as [H1 H2].
  apply Nat.ltb_lt in H1, H2. lia.
Qed.

Lemma plainByte_no_space (c : ascii) :
  plainByte c = true ->
  Strings.asciiSpace c = false
  /\ (forall d, Strings.space2 c d = false /\ Strings.space2 d c = false)
  /\ (forall d e, Strings.space3 c d e = false /\ Strings.space3 e d c = false).
Proof.
  intros H. apply plainByte_inv in H.
  unfold Strings.asciiSpace, Strings.space2, Strings.space3. cbv zeta.
  set (n := nat_of_ascii c) in *.
  assert (E : forall m, (m <= 32 \/ 127 <= m)%nat -> (n =? m)%nat = false).
  { intros m Hm. apply Nat.eqb_neq. lia. }
  assert (L : forall m, (127 <= m)%nat -> (m <=? n)%nat = false).
  { intros m Hm. apply Nat.leb_gt. lia. }
  assert (L13 : (n <=? 13)%nat = false) by (apply Nat.leb_gt; lia).
  split; [|split].
  - rewrite L13, (E 32%nat) by lia. now rewrite andb_false_r.
  - intros d. rewrite (E 194%nat), (E 133%nat), (E 160%nat) by lia.
    split; [reflexivity | now rewrite andb_false_r].
  - intros d e.
    rewrite (E 225%nat), (E 226%nat), (E 227%nat), (E 128%nat), (E 159%nat),
      (E 168%nat), (E 169%nat), (E 175%nat), (L 128%nat) by lia.
    split; [reflexivity |].
    cbn [andb orb]. now rewrite !andb_false_r.
Qed.

Lemma trimLeft_plain (c : ascii) (s : string) :
  plainByte c = true -> Strings.trimLeft (c ::: s) = c ::: s.
Proof.
  intros H. destruct (plainByte_no_space c H) as (Ha & H2 & H3).
  cbn [Strings.trimLeft]. rewrite Ha.
  destruct s as [|d s]; [reflexivity |]. rewrite (proj1 (H2 d)).
  destruct s as [|e s]; [reflexivity |]. now rewrite (proj1 (H3 d e)).
Qed.

Lemma trimLeftRev_plain (c : ascii) (s : string) :
  plainByte c = true -> Strings.trimLeftRev (c ::: s) = c ::: s.
Proof.
  intros H. destruct (plainByte_no_space c H) as (Ha & H2 & H3).
  cbn [Strings.trimLeftRev]. rewrite Ha.
  destruct s as [|d s]; [reflexivity |]. rewrite (proj2 (H2 d)).
  destruct s as [|e s]; [reflexivity |]. now rewrite (proj2 (H3 d e)).
Qed.

Lemma rev_snoc (s : string) (c : ascii) :
  Strings.rev (s +:+ (c ::: "")) = c ::: Strings.rev s.
Proof.
  induction s as [|d s IH]; [reflexivity |].
  rewrite app_cons_s. cbn [Strings.rev]. rewrite IH. reflexivity.
Qed.

Lemma rev_rev (s : string) : Strings.rev (Strings.rev s) = s.
Proof.
  induction s as [|c s IH]; [reflexivity |].
  cbn [Strings.rev]. now rewrite rev_snoc, IH.
Qed.

(** [strings.TrimSpace] leaves alone a string that begins and ends with
    a printable ASCII byte other than the space. *)
Lemma TrimSpace_plain_ends (c d : ascii) (s : string) :
  plainByte c = true ->
  plainByte d = true ->
  Strings.TrimSpace ((c ::: s) +:+ (d ::: "")) = (c ::: s) +:+ (d ::: "")
  /\ Strings.TrimSpace (c ::: "") = c ::: "".
Proof.
  intros Hc Hd. unfold Strings.TrimSpace, Strings.trimRight. split.
  - rewrite app_cons_s, (trimLeft_plain c _ Hc), <- app_cons_s.
    rewrite rev_snoc, (trimLeftRev_plain d _ Hd), <- rev_snoc.
    apply rev_rev.
  - rewrite (trimLeft_plain c _ Hc).
    cbn [Strings.rev]. rewrite app_nil_s, (trimLeftRev_plain c _ Hc). reflexivity.
Qed.

Lemma plainBytes_last (c : ascii) (s : string) :
  plainBytes (c ::: s) = true ->
  s = "" /\ plainByte c = true
  \/ exists t d, s = t +:+ (d ::: "") /\ plainByte c = true /\ plainByte d = true.
Proof.
  revert c. induction s as [|e s IH]; intros c H; cbn [plainBytes] in H;
    apply andb_prop in H as [Hc Hs].
  - now left.
  - right. destruct (IH e Hs) as [[-> He]|(t & d & -> & He & Hd)].
    + exists "", e. auto.
    + exists (e ::: t), d. rewrite app_cons_s. auto.
Qed.

Lemma Join_words_plain (arg : string) (args : list string) :
  Forall (fun a => plainWord a = true) (arg :: args) ->
  exists c s, Strings.Join (arg :: args) " " = c ::: s /\ plainByte c = true
              /\ (s = ""
                  \/ exists t d, s = t +:+ (d ::: "") /\ plainByte d = true).
Proof.
  revert arg. induction args as [|b args IH]; intros arg H;
    inversion H as [|? ? Ha Hrest]; subst.
  - unfold plainWord in Ha. apply andb_prop in Ha as [Hne Ha].
    destruct arg as [|c s]; [discriminate |].
    exists c, s. cbn [Strings.Join]. split; [reflexivity |].
    destruct (plainBytes_last c s Ha) as [[-> Hc]|(t & d & -> & Hc & Hd)].
    + split; [exact Hc | now left].
    + split; [exact Hc | right; eauto].
  - destruct (IH b Hrest) as (c' & s' & E & Hc' & Hlast).
    unfold plainWord in Ha. apply andb_prop in Ha as [Hne Ha].
    destruct arg as [|c s]; [discriminate |].
    cbn [plainBytes] in Ha. apply andb_prop in Ha as [Hc _].
    rewrite Join_cons_cons, E. exists c, (s +:+ " " +:+ c' ::: s').
    split; [now rewrite app_cons_s |]. split; [exact Hc |]. right.
    destruct Hlast as [->|(t & d & -> & Hd)].
    + exists (s +:+ " "), c'. split; [now rewrite app_assoc_s | exact Hc'].
    + exists (s +:+ " " +:+ c' ::: t), d. split; [|exact Hd].
      now rewrite !app_assoc_s, app_cons_s.
Qed.

(** X15.  When every argument is a non-empty word of printable ASCII
    bytes other than the space, the message of the commit is the
    arguments joined by single spaces, with nothing trimmed away, and it
    is not empty. *)
Theorem message_of_words (args : list string) :
  args <> [] ->
  Forall (fun a => plainWord a = true) args ->
  getMessageFromArgs args = Strings.Join args " "
  /\ getMessageFromArgs args <> "".
Proof.
  intros Hne H. destruct args as [|arg args]; [congruence |].
  destruct (Join_words_plain arg args H) as (c & s & E & Hc & Hlast).
  unfold getMessageFromArgs. rewrite E.
  destruct Hlast as [->|(t & d & -> & Hd)].
  - rewrite (proj2 (TrimSpace_plain_ends c c "" Hc Hc)). split; [reflexivity | discriminate].
  - rewrite <- app_cons_s.
    rewrite (proj1 (TrimSpace_plain_ends c d t Hc Hd)). split; [reflexivity |].
    rewrite app_cons_s. discriminate.
Qed.

(** X15, witness: three words. *)
Lemma message_of_words_witness :
  getMessageFromArgs ["fix"; "the"; "parser"] = Strings.Join ["fix"; "the"; "parser"] " ".
Proof.
  apply (message_of_words ["fix"; "the"; "parser"]).
  - discriminate.
  - repeat constructor.
Defined.

(** *** What a commit leaves alone *)

Lemma copyFile_exists (src dst path : string) (w w' : World) (r : option (result unit)) :
  copyFile src dst w = (w', r) ->
  IsNotExist (Stat (files w) path) = false ->
  IsNotExist (Stat (files w') path) = false.
Proof.
  intros H Hp. revert H. unfold copyFile. mrun.
  destruct (Stat (files w) src); [|intros H; now injection H as <- _].
  mrun. unfold Create.
  destruct (WriteFile (files w) dst "") as [fs1|e] eqn:Hc;
    [|intros H; now injection H as <- _].
  apply WriteFile_Ok in Hc as [Hfs1 _].
  apply (IsNotExist_insert _ _ (key dst) "") in Hp. rewrite <- Hfs1 in Hp.
  mrun. cbn [files stdout].
  destruct (ReadFile _ src) as [data|e]; mrun; cbn [files stdout];
    intros H; injection H as <- _; cbn [files]; [|assumption].
  now apply IsNotExist_insert.
Qed.

Lemma copyEach_existing (ps : list string) (d path : string) (w w' : World) (r : option unit) :
  copyEach ps d w = (w', r) ->
  IsNotExist (Stat (files w) path) = false ->
  IsNotExist (Stat (files w') path) = false.
Proof.
  revert w. induction ps as [|q rest IH]; intros w; cbn [copyEach].
  - intros H; now injection H as <- _.
  - destruct (String.eqb q ""); [apply IH |]. mrun.
    destruct (copyFile _ _ w) as [w1 r1] eqn:H1.
    intros H Hp. apply (copyFile_exists _ _ path _ _ _ H1) in Hp.
    destruct r1 as [[[]|e]|].
    + now apply (IH w1).
    + now injection H as <- _.
    + now injection H as <- _.
Qed.

Lemma Mkdir_parent (fs fs' : FS) (path : string) :
  Mkdir fs path = Ok fs' -> lookup fs (Filepath.Dir (key path)) = Some Dir.
Proof.
  unfold Mkdir, parentCheck.
  destruct (lookup fs path); [discriminate |].
  destruct (String.eqb path ""); [discriminate |].
  destruct (lookup fs (Filepath.Dir (key path))) as [[|]|]; try discriminate.
  reflexivity.
Qed.

Lemma lookup_insert_Dir (fs : FS) (path k : string) :
  lookup fs path = Some Dir -> lookup (<[k := Dir]> fs) path = Some Dir.
Proof.
  intros H. now destruct (lookup_insert_cases fs path k Dir) as [-> | ->].
Qed.

Lemma mkdirAll_grows (fuel : nat) (fs fs' : FS) (path : string) :
  mkdirAll fuel fs path = Ok fs' -> grows fs fs'.
Proof.
  revert fs fs' path. induction fuel as [|fuel IH]; intros fs fs' path; simpl.
  - destruct (lookup fs path) as [[|]|]; try discriminate.
    intros H; injection H as <-. intros k. now left.
  - destruct (lookup fs path) as [[|]|]; try discriminate.
    + intros H; injection H as <-. intros k. now left.
    + destruct (mkdirAll fuel fs _) as [fs1|] eqn:H1; [|discriminate].
      intros H k. pose proof (Mkdir_parent _ _ _ H) as Hparent.
      apply Mkdir_Ok in H as [Hnone ->].
      specialize (IH _ _ _ H1 k).
      destruct (decide (key path = k)) as [<-|Hne].
      * rewrite lookup_insert_eq. right.
        split; [destruct IH as [IH|[IH _]]; congruence |].
        split; [reflexivity |]. now apply lookup_insert_Dir.
      * rewrite lookup_insert_ne by assumption.
        destruct IH as [IH|(IH1 & IH2 & IH3)]; [now left |].
        right. split; [assumption |]. split; [assumption |].
        now apply lookup_insert_Dir.
Qed.

Lemma lookup_grows (fs fs' : FS) (path : string) :
  grows fs fs' ->
  lookup fs' path = lookup fs path
  \/ (lookup fs path = None /\ lookup fs' path = Some Dir
      /\ lookup fs' (Filepath.Dir (key path)) = Some Dir).
Proof.
  intros Hg. unfold lookup at 1 2 3 4.
  destruct (String.eqb path ""); [now left |].
  destruct (alwaysDir (key path)); [now left |].
  apply Hg.
Qed.

(** A path below a regular file has no directory above it that
    [os.MkdirAll] could have made. *)
Lemma belowFile_no_parent (n : nat) (fs fs' : FS) (path : string) :
  grows fs fs' ->
  belowFile n fs path = true ->
  lookup fs' (Filepath.Dir (key path)) <> Some Dir.
Proof.
  intros Hg. revert path. induction n as [|n IH]; intros path; cbn [belowFile];
    [discriminate |].
  destruct (lookup_grows fs fs' (Filepath.Dir (key path)) Hg) as [E|(E1 & E2 & E3)].
  - rewrite E. destruct (lookup fs (Filepath.Dir (key path))) as [[|]|];
      discriminate.
  - rewrite E1. intros Hb. now apply IH in Hb.
Qed.

Lemma belowFile_grows (n : nat) (fs fs' : FS) (path : string) :
  grows fs fs' ->
  belowFile n fs' path = belowFile n fs path.
Proof.
  intros Hg. revert path. induction n as [|n IH]; intros path; cbn [belowFile];
    [reflexivity |].
  destruct (lookup_grows fs fs' (Filepath.Dir (key path)) Hg) as [E|(E1 & E2 & E3)].
  - rewrite E. destruct (lookup fs (Filepath.Dir (key path))) as [[|]|];
      [reflexivity | reflexivity | apply IH].
  - rewrite E1, E2.
    destruct (belowFile n fs (Filepath.Dir (key path))) eqn:Hb; [|reflexivity].
    now apply (belowFile_no_parent _ _ fs') in Hb.
Qed.

(** What [os.Stat] reports as missing, or does not, stays so when
    directories are made, unless one is made at the path itself. *)
Lemma IsNotExist_grows (fs fs' : FS) (p : string) :
  grows fs fs' ->
  (IsNotExist (Stat fs p) = false -> IsNotExist (Stat fs' p) = false)
  /\ (lookup fs' p = lookup fs p -> IsNotExist (Stat fs' p) = IsNotExist (Stat fs p)).
Proof.
  intros Hg. unfold Stat. rewrite (belowFile_grows _ fs fs') by assumption.
  split.
  - destruct (lookup_grows fs fs' p Hg) as [-> |(_ & -> & _)]; trivial.
  - now intros ->.
Qed.

Lemma grows_refl (fs : FS) : grows fs fs.
Proof. intros k. now left. Qed.

Lemma grows_trans (fs1 fs2 fs3 : FS) :
  grows fs1 fs2 -> grows fs2 fs3 -> grows fs1 fs3.
Proof.
  intros H12 H23 k.
  destruct (H12 k) as [E|(E1 & E2 & E3)], (H23 k) as [F|(F1 & F2 & F3)].
  - left. congruence.
  - right. split; [congruence |]. auto.
  - right. split; [assumption |]. split; [congruence |].
    destruct (lookup_grows fs2 fs3 (Filepath.Dir k) H23) as [G|(_ & G & _)];
      congruence.
  - congruence.
Qed.

Lemma Mkdir_grows (fs fs' : FS) (path : string) :
  Mkdir fs path = Ok fs' -> grows fs fs'.
Proof.
  intros H k. pose proof (Mkdir_parent _ _ _ H) as Hparent.
  apply Mkdir_Ok in H as [Hnone ->].
  destruct (decide (key path = k)) as [<-|Hne].
  - right. rewrite lookup_insert_eq.
    split; [assumption |]. split; [reflexivity |]. now apply lookup_insert_Dir.
  - left. now rewrite lookup_insert_ne.
Qed.

Lemma createCommitDir_grows (c : Commit) (w w1 : World) (r : option (result string)) :
  createCommitDir c w = (w1, r) -> grows (files w) (files w1).
Proof.
  unfold createCommitDir. mrun.
  destruct (IsNotExist (Stat (files w) _)); mrun.
  - destruct (Mkdir _ _) as [fs1|e] eqn:Hmk; mrun;
      intros H; injection H as <- _; [|apply grows_refl].
    cbn [files]. now apply Mkdir_grows in Hmk.
  - intros H; injection H as <- _. apply grows_refl.
Qed.

Lemma mkdirAll_made (fuel : nat) (fs fs' : FS) (path : string) :
  mkdirAll fuel fs path = Ok fs' -> Stat fs' path = Ok Dir.
Proof.
  destruct fuel as [|fuel]; cbn [mkdirAll]; unfold Stat at 1.
  - destruct (lookup fs path) as [[|]|] eqn:Hl; try discriminate.
    intros H; injection H as <-. unfold Stat. now rewrite Hl.
  - destruct (lookup fs path) as [[|]|] eqn:Hl; try discriminate.
    + intros H; injection H as <-. unfold Stat. now rewrite Hl.
    + destruct (mkdirAll fuel fs _); [|discriminate]. apply Mkdir_Stat.
Qed.

(** The steps of [copyFilesToCommitDir]: the commit store is made when
    it is missing, then the lines of the index are copied. *)
Lemma copyFilesToCommitDir_steps (d : string) (w w' : World) (r : option unit) :
  copyFilesToCommitDir d w = (w', r) ->
  (r = None /\ w' = w)
  \/ exists w0,
       sameFiles (files w) (files w0)
       /\ grows (files w) (files w0)
       /\ IsNotExist (Stat (files w0) commitDir) = false
       /\ ((r = None /\ w' = w0
            /\ forall indexContent, ReadFile (files w) indexFilePath <> Ok indexContent)
           \/ copyEach (Strings.Split (indexBefore w) nl) d w0 = (w', r)).
Proof.
  unfold copyFilesToCommitDir, indexBefore. mrun.
  destruct (IsNotExist (Stat (files w) commitDir)) eqn:Hstat; mrun.
  - destruct (MkdirAll (files w) commitDir) as [fs1|e] eqn:Hmk; mrun.
    2:{ intros H; injection H as <- <-. now left. }
    cbn [files stdout]. intros H. right. exists (mkWorld fs1 (stdout w)). cbn [files].
    pose proof (sameFiles_MkdirAll _ _ _ Hmk) as Hsame.
    split; [exact Hsame |]. split; [|split].
    + now apply mkdirAll_grows in Hmk.
    + apply mkdirAll_made in Hmk. now rewrite Hmk.
    + revert H. destruct (ReadFile fs1 indexFilePath) as [indexContent|e] eqn:Hidx.
      * apply Hsame in Hidx. rewrite Hidx. now right.
      * mrun. intros H; injection H as <- <-. left.
        split; [reflexivity |]. split; [reflexivity |].
        intros indexContent Hc. apply Hsame in Hc. congruence.
  - intros H. right. exists w.
    split; [apply sameFiles_refl |]. split; [apply grows_refl |].
    split; [exact Hstat |].
    revert H. destruct (ReadFile (files w) indexFilePath) as [indexContent|e] eqn:Hidx.
    + now right.
    + mrun. intros H; injection H as <- <-. left.
      split; [reflexivity |]. split; [reflexivity |]. discriminate.
Qed.

Lemma createLog_frame (c : Commit) (w w' : World) (r : option unit) (x : string) :
  createLog c w = (w', r) ->
  key x <> key logFilePath ->
  ReadFile (files w') x = ReadFile (files w) x.
Proof.
  unfold createLog. mrun.
  destruct (isErr _ && negb _); mrun; [intros H; now injection H as <- _ |].
  destruct (WriteFile _ _ _) as [fs'|e] eqn:Hw; mrun.
  - apply WriteFile_Ok in Hw as [Hfs _]. intros H. injection H as <- _.
    cbn [files]. rewrite Hfs. intros Hk. now apply ReadFile_insert_ne.
  - intros H; now injection H as <- _.
Qed.

Lemma createLog_existing (c : Commit) (w w' : World) (r : option unit) (p : string) :
  createLog c w = (w', r) ->
  IsNotExist (Stat (files w) p) = false ->
  IsNotExist (Stat (files w') p) = false.
Proof.
  unfold createLog. mrun.
  destruct (isErr _ && negb _); mrun; [intros H; now injection H as <- _ |].
  destruct (WriteFile _ _ _) as [fs'|e] eqn:Hw; mrun.
  - apply WriteFile_Ok in Hw as [Hfs _]. intros H. injection H as <- _.
    cbn [files]. rewrite Hfs. apply IsNotExist_insert.
  - intros H; now injection H as <- _.
Qed.

(** A staged path is read where it was before the commit unless it is
    the log or the destination of a staged path. *)
Lemma handleCommit_frame (args : list string) (now : Z) (w w' : World)
      (r : option unit) (x : string) :
  handleCommit args now w = (w', r) ->
  key x <> key logFilePath ->
  (forall p, In p (Strings.Split (indexBefore w) nl) -> p <> "" ->
             key x <> key (destinationOf
                             (commitDir +:+ "/"
                              +:+ hashContent (indexBefore w +:+ Fmt.Sprintd now)) p)) ->
  forall data, ReadFile (files w') x = Ok data <-> ReadFile (files w) x = Ok data.
Proof.
  intros Hrun Hlog Hdest data. revert Hrun. unfold handleCommit.
  destruct (String.eqb (getMessageFromArgs args) "").
  { intros H. now injection H as <- _. }
  mrun. rewrite isIndexEmpty_run.
  destruct (match Stat (files w) indexFilePath with Ok info => _ | Err _ => _ end).
  { mrun. intros H. now injection H as <- _. }
  mrun. destruct (compareWithLastCommit w) as [wa ra] eqn:Hcmp.
  apply compareWithLastCommit_files in Hcmp as [_ Hfa].
  destruct ra as [[|]|]; cbn [negb]; mrun.
  3:{ intros H. injection H as <- _. apply Hfa. }
  2:{ intros H. injection H as <- _. apply Hfa. }
  unfold createCommit at 1. mrun.
  destruct (Stat (files wa) indexFilePath); mrun;
    [|intros H; injection H as <- _; apply Hfa].
  unfold readConfig. mrun.
  destruct (ReadFile (files wa) configPath) as [author|]; mrun;
    [|intros H; injection H as <- _; apply Hfa].
  unfold createId. mrun.
  destruct (ReadFile (files wa) indexFilePath) as [indexContent|e] eqn:Hidxa; mrun;
    [|intros H; injection H as <- _; apply Hfa].
  pose proof (proj1 (Hfa indexFilePath indexContent) Hidxa) as Hidx.
  assert (Hb : indexBefore w = indexContent) by (unfold indexBefore; now rewrite Hidx).
  rewrite Hb in Hdest.
  destruct (String.eqb indexContent ""); mrun;
    [intros H; injection H as <- _; apply Hfa |].
  cbn [Author Message].
  destruct (createCommitDir _ wa) as [wb rb] eqn:Hdir.
  apply createCommitDir_files in Hdir as (_ & Hfb & Hpath).
  pose proof (sameFiles_trans _ _ _ Hfa Hfb) as Hwb.
  destruct rb as [[path|e]|]; mrun;
    try (intros H; injection H as <- _; apply Hwb).
  specialize (Hpath path eq_refl). cbn [HashID] in Hpath. subst path.
  destruct (copyFilesToCommitDir _ wb) as [wc rc] eqn:Hcopy.
  assert (Hwc : ReadFile (files wc) x = Ok data <-> ReadFile (files w) x = Ok data).
  { apply copyFilesToCommitDir_steps in Hcopy
      as [[_ ->]|(w0 & Hs0 & _ & _ & [(_ & -> & _)|Hcopy])].
    - apply Hwb.
    - rewrite (Hs0 x data). apply Hwb.
    - assert (Hb' : indexBefore wb = indexContent).
      { unfold indexBefore. now rewrite (proj2 (Hwb indexFilePath indexContent) Hidx). }
      rewrite Hb' in Hcopy.
      rewrite (ReadFile_ext (files wc) (files w0) x).
      + rewrite (Hs0 x data). apply Hwb.
      + apply (copyEach_frame _ _ _ _ _ _ Hcopy). exact Hdest. }
  destruct rc as [[]|]; mrun; [|intros H; injection H as <- _; exact Hwc].
  match goal with
  | |- context [createLog ?c wc] => destruct (createLog c wc) as [wd rd] eqn:Hl
  end.
  apply createLog_frame with (x := x) in Hl; [|exact Hlog].
  destruct rd as [[]|]; intros H; injection H as <- _; cbn [files];
    now rewrite Hl.
Qed.

(** X16.  Whatever its outcome, [commit] changes the content of no
    regular file other than the log and the destinations of the staged
    paths in the snapshot directory named by the new identifier: a path
    whose cleaned form is none of these reads the same bytes before and
    after. *)
Theorem commit_frame (args : list string) (now : Z) (w w' : World)
        (r : option unit) (x : string) :
  handleCommit args now w = (w', r) ->
  key x <> key logFilePath ->
  (forall p, In p (Strings.Split (indexBefore w) nl) -> p <> "" ->
             key x <> key (destinationOf
                             (commitDir +:+ "/"
                              +:+ hashContent (indexBefore w +:+ Fmt.Sprintd now)) p)) ->
  forall data, ReadFile (files w') x = Ok data <-> ReadFile (files w) x = Ok data.
Proof. apply handleCommit_frame. Qed.

(** X16, witness: vcs/config.txt across the demonstration commit. *)
Lemma commit_frame_witness :
  ReadFile (files (fst (handleCommit ["first"] 17 demoStaged))) configPath = Ok "alice"
  <-> ReadFile (files demoStaged) configPath = Ok "alice".
Proof.
  apply (commit_frame ["first"] 17 demoStaged _
           (snd (handleCommit ["first"] 17 demoStaged))).
  - now destruct (handleCommit ["first"] 17 demoStaged).
  - vm_compute; discriminate.
  - intros p Hp Hne. vm_compute in Hp.
    destruct Hp as [<-|[<-|[]]]; [vm_compute; discriminate | congruence].
Defined.

Lemma TrimPrefix_absent (c : ascii) (s p : string) :
  noChar c s = true -> noChar c p = false -> Strings.TrimPrefix s p = s.
Proof.
  intros Hs Hp. unfold Strings.TrimPrefix.
  destruct (Strings.stripPrefix s p) as [t|] eqn:E; [|reflexivity].
  apply stripPrefix_Some in E. rewrite E, noChar_app, Hp in Hs. discriminate.
Qed.

Lemma flat_destination (id p : string) :
  simpleName id = true ->
  simpleName p = true ->
  let stored := "vcs/commits/" +:+ id +:+ "/" +:+ p in
  destinationOf (commitDir +:+ "/" +:+ id) p = stored
  /\ key stored = stored
  /\ lastCommitFileOf id p = stored.
Proof.
  intros Hid Hp stored.
  pose proof (simpleName_inv _ Hp) as (_ & _ & _ & Hslash).
  destruct (Join_snapshot id p Hid Hp) as [Hj Hk].
  split; [|split].
  - unfold destinationOf. rewrite (TrimPrefix_absent "/") by (assumption || reflexivity).
    exact Hj.
  - rewrite Hj in Hk. exact Hk.
  - unfold lastCommitFileOf.
    rewrite (TrimPrefix_absent "/") by (assumption || reflexivity).
    unfold Filepath.Join. change (String.eqb commitDir "") with false. cbv iota.
    change (Strings.Join [commitDir; id; p] "/")
      with (Strings.Join ["vcs"; "commits"; id; p] "/").
    rewrite Clean_simple by (repeat constructor; assumption). reflexivity.
Qed.

Lemma simpleName_not_vcs (p : string) :
  simpleName p = true -> Strings.HasPrefix p "vcs/" = false.
Proof.
  intros Hp. apply simpleName_inv in Hp as (_ & _ & _ & Hs).
  unfold Strings.HasPrefix.
  destruct (Strings.stripPrefix p "vcs/") as [r|] eqn:E; [|reflexivity].
  apply stripPrefix_Some in E. rewrite E, noChar_app in Hs. discriminate.
Qed.

Lemma flat_member (indexContent p : string) :
  flatIndex indexContent = true ->
  In p (Strings.Split indexContent nl) -> p <> "" -> simpleName p = true.
Proof.
  unfold flatIndex. rewrite forallb_forall. intros H Hin Hne.
  specialize (H p Hin). apply String.eqb_neq in Hne. now rewrite Hne in H.
Qed.

Lemma stored_not_flat (id p q : string) :
  simpleName q = true -> q <> "vcs/commits/" +:+ id +:+ "/" +:+ p.
Proof.
  intros Hq E. apply simpleName_inv in Hq as (_ & _ & _ & Hs).
  rewrite E in Hs. discriminate.
Qed.

Lemma flat_apart (indexContent id : string) :
  flatIndex indexContent = true ->
  simpleName id = true ->
  sourcesApart (commitDir +:+ "/" +:+ id) (Strings.Split indexContent nl) = true.
Proof.
  intros Hflat Hid. unfold sourcesApart.
  apply forallb_forall. intros q Hq. apply forallb_forall. intros r Hr.
  destruct (String.eqb_spec q "") as [|Hqn]; [reflexivity |].
  destruct (String.eqb_spec r "") as [|Hrn]; [reflexivity |].
  pose proof (flat_member _ _ Hflat Hq Hqn) as Hqs.
  pose proof (flat_member _ _ Hflat Hr Hrn) as Hrs.
  destruct (flat_destination id r Hid Hrs) as (-> & -> & _).
  unfold key at 1. rewrite (Clean_name q Hqs). cbn [orb].
  apply negb_true_iff, String.eqb_neq. now apply stored_not_flat.
Qed.

Lemma flat_owned (indexContent id p : string) :
  flatIndex indexContent = true ->
  simpleName id = true ->
  simpleName p = true ->
  targetOwned (commitDir +:+ "/" +:+ id) (Strings.Split indexContent nl) p = true.
Proof.
  intros Hflat Hid Hp. unfold targetOwned.
  apply forallb_forall. intros q Hq.
  destruct (String.eqb_spec q "") as [|Hqn]; [reflexivity |].
  pose proof (flat_member _ _ Hflat Hq Hqn) as Hqs.
  destruct (flat_destination id q Hid Hqs) as (-> & -> & _).
  destruct (flat_destination id p Hid Hp) as (-> & -> & _).
  cbn [orb].
  destruct (String.eqb_spec ("vcs/commits/" +:+ id +:+ "/" +:+ q)
                            ("vcs/commits/" +:+ id +:+ "/" +:+ p)) as [E|_];
    [|reflexivity].
  cbn [negb orb]. apply String.eqb_eq.
  do 3 apply app_inv_head_s in E. now rewrite E.
Qed.

(** X17.  When every line of the index is empty or a simple file
    name, [commit] leaves the regular files of the working directory
    itself (paths whose cleaned form has no "/") as they were, whatever
    its outcome. *)
Theorem commit_keeps_working_files (args : list string) (now : Z) (w w' : World)
        (r : option unit) (x : string) :
  flatIndex (indexBefore w) = true ->
  handleCommit args now w = (w', r) ->
  noChar "/" (key x) = true ->
  forall data, ReadFile (files w') x = Ok data <-> ReadFile (files w) x = Ok data.
Proof.
  intros Hflat Hrun Hx.
  apply (handleCommit_frame args now w w' r x Hrun).
  - intros E. rewrite E in Hx. discriminate.
  - intros p Hp Hpn E.
    destruct (flat_destination (hashContent (indexBefore w +:+ Fmt.Sprintd now)) p)
      as (Hd & Hk & _);
      [apply hashContent_simple | now apply (flat_member (indexBefore w)) |].
    rewrite Hd, Hk in E. rewrite E, noChar_app in Hx.
    change (noChar "/" "vcs/commits/") with false in Hx. discriminate.
Qed.

(** X17, witness: a.txt across the demonstration commit. *)
Lemma commit_keeps_working_files_witness :
  ReadFile (files (fst (handleCommit ["first"] 17 demoStaged))) "a.txt" = Ok "hello"
  <-> ReadFile (files demoStaged) "a.txt" = Ok "hello".
Proof.
  apply (commit_keeps_working_files ["first"] 17 demoStaged _
           (snd (handleCommit ["first"] 17 demoStaged))).
  - vm_compute; reflexivity.
  - now destruct (handleCommit ["first"] 17 demoStaged).
  - vm_compute; reflexivity.
Defined.

(** X18.  Without a readable vcs/config.txt no commit is made:
    [commit] then ends in [log.Fatal] without output, or is rejected
    with "Message was not passed." or "Nothing to commit.", and in every
    case all regular files are as they were. *)
Theorem commit_needs_user (args : list string) (now : Z) (w w' : World) (r : option unit) :
  (forall author, ReadFile (files w) configPath <> Ok author) ->
  handleCommit args now w = (w', r) ->
  sameFiles (files w) (files w')
  /\ (r = None /\ stdout w' = stdout w
      \/ r = Some tt /\ stdout w' = stdout w +:+ "Message was not passed." +:+ nl
      \/ r = Some tt /\ stdout w' = stdout w +:+ "Nothing to commit." +:+ nl).
Proof.
  intros Hcfg. unfold handleCommit.
  destruct (String.eqb (getMessageFromArgs args) "").
  { intros H. injection H as <- <-. split; [apply sameFiles_refl | auto]. }
  mrun. rewrite isIndexEmpty_run.
  destruct (match Stat (files w) indexFilePath with Ok info => _ | Err _ => _ end).
  { mrun. intros H. injection H as <- <-. split; [apply sameFiles_refl | auto]. }
  mrun. destruct (compareWithLastCommit w) as [wa ra] eqn:Hcmp.
  apply compareWithLastCommit_files in Hcmp as [Hsa Hfa].
  destruct ra as [[|]|]; cbn [negb]; mrun.
  3:{ intros H. injection H as <- <-. auto. }
  2:{ intros H. injection H as <- <-. cbn [files stdout]. rewrite Hsa. auto. }
  unfold createCommit at 1. mrun.
  destruct (Stat (files wa) indexFilePath); mrun;
    [|intros H; injection H as <- <-; auto].
  unfold readConfig. mrun.
  destruct (ReadFile (files wa) configPath) as [author|] eqn:Hread; mrun.
  - apply Hfa in Hread. now apply Hcfg in Hread.
  - intros H; injection H as <- <-; auto.
Qed.

(** X18, witness: a.txt staged, no user name set. *)
Lemma commit_needs_user_witness :
  let w := fst (handleAdd ["a.txt"] (mkWorld (<["vcs" := Dir]> (files demoStart)) "")) in
  let w' := fst (handleCommit ["first"] 17 w) in
  snd (handleCommit ["first"] 17 w) = None /\ stdout w' = stdout w
  \/ snd (handleCommit ["first"] 17 w) = Some tt
     /\ stdout w' = stdout w +:+ "Message was not passed." +:+ nl
  \/ snd (handleCommit ["first"] 17 w) = Some tt
     /\ stdout w' = stdout w +:+ "Nothing to commit." +:+ nl.
Proof.
  intros w w'.
  destruct (commit_needs_user ["first"] 17 w w' (snd (handleCommit ["first"] 17 w)))
    as [_ H].
  - intros author. vm_compute. discriminate.
  - subst w'. now destruct (handleCommit ["first"] 17 w).
  - exact H.
Defined.

(** *** After a commit *)

Lemma split2_head (line t : string) (a : ascii) :
  noChar LF line = true ->
  a <> LF ->
  exists piece more,
    Strings.Split (line +:+ (LF ::: a ::: t)) (nl +:+ nl)
    = (line +:+ (LF ::: piece)) :: more.
Proof.
  intros Hline Ha. unfold Strings.Split.
  change (nl +:+ nl) with (LF ::: LF ::: "").
  induction line as [|c line IH].
  - rewrite app_nil_s. cbn [Strings.splitFrom Strings.stripPrefix].
    rewrite ascii_eqb_refl.
    destruct (Ascii.eqb_spec LF a) as [E|_]; [congruence |].
    destruct (Strings.splitFrom _ 0 t) as [|piece more];
      eexists _, _; rewrite app_nil_s; reflexivity.
  - simpl in Hline. apply andb_prop in Hline as [Hc Hline].
    destruct (IH Hline) as (piece & more & E).
    rewrite app_cons_s. cbn [Strings.splitFrom Strings.stripPrefix].
    rewrite Ascii.eqb_sym.
    destruct (Ascii.eqb c LF); [discriminate |]. rewrite E.
    exists piece, more. now rewrite app_cons_s.
Qed.

(** The scan of the log finds the entry that [createLog] wrote last,
    whatever its author and message are. *)
Lemma findEntry_newest (c : Commit) (before : string) :
  noChar LF (HashID c) = true ->
  exists found,
    findEntry (Strings.Split (logEntry c +:+ before) (nl +:+ nl)) (HashID c)
    = Some found
    /\ HashID found = HashID c.
Proof.
  intros Hid.
  assert (E : logEntry c +:+ before
              = ("commit " +:+ HashID c)
                +:+ (LF ::: "A" ::: ("uthor: " +:+ Author c +:+ nl +:+ Message c
                                     +:+ nl +:+ nl +:+ before))).
  { unfold logEntry. rewrite !app_assoc_s. reflexivity. }
  assert (Hline : noChar LF ("commit " +:+ HashID c) = true).
  { now rewrite noChar_app, Hid. }
  destruct (split2_head _ ("uthor: " +:+ Author c +:+ nl +:+ Message c
                           +:+ nl +:+ nl +:+ before) "A" Hline)
    as (piece & more & Hsplit); [discriminate |].
  assert (Hfirst : Strings.Split (("commit " +:+ HashID c) +:+ (LF ::: piece)) nl
                   = ("commit " +:+ HashID c) :: Strings.Split piece nl).
  { unfold nl. now rewrite split1_app. }
  rewrite E, Hsplit. cbn [findEntry]. cbv zeta. rewrite !Hfirst. cbn [hd].
  rewrite !TrimPrefix_app, String.eqb_refl.
  destruct (fold_left scanLine _ _) as [author message].
  eexists. split; reflexivity.
Qed.

Lemma lookup_ext (fs1 fs2 : FS) (path : string) :
  fs1 !! key path = fs2 !! key path -> lookup fs1 path = lookup fs2 path.
Proof.
  intros H. unfold lookup.
  destruct (String.eqb path ""); [reflexivity |].
  destruct (alwaysDir (key path)); [reflexivity |]. now rewrite H.
Qed.


(** [os.MkdirAll] of the commit store makes vcs and vcs/commits and
    nothing else. *)
Lemma MkdirAll_store_keys (fs fs' : FS) (k : string) :
  MkdirAll fs commitDir = Ok fs' ->
  k <> "vcs" -> k <> "vcs/commits" ->
  fs' !! k = fs !! k.
Proof.
  unfold MkdirAll. change (String.length commitDir) with 11%nat.
  cbn [mkdirAll].
  change (lookup fs (Filepath.Dir (key (Filepath.Dir (key commitDir))))) with (Some Dir).
  cbv iota.
  change (Filepath.Dir (key commitDir)) with "vcs".
  intros H Hv Hc.
  destruct (lookup fs commitDir) as [[|]|]; try discriminate.
  - now injection H as <-.
  - destruct (lookup fs "vcs") as [[|]|] eqn:Hl; try discriminate.
    + apply Mkdir_Ok in H as [_ ->]. now rewrite lookup_insert_ne.
    + destruct (Mkdir fs "vcs") as [fs1|] eqn:H1; [|discriminate].
      apply Mkdir_Ok in H1 as [_ ->]. apply Mkdir_Ok in H as [_ ->].
      now rewrite !lookup_insert_ne.
Qed.

Lemma key_snapshot (id : string) :
  simpleName id = true -> key (commitDir +:+ "/" +:+ id) = "vcs/commits/" +:+ id.
Proof.
  intros Hid. unfold key.
  change (commitDir +:+ "/" +:+ id) with (Strings.Join ["vcs"; "commits"; id] "/").
  apply Clean_simple. repeat constructor. exact Hid.
Qed.

Lemma compareWithLastCommit_keys (w w1 : World) (r : option bool) (k : string) :
  compareWithLastCommit w = (w1, r) ->
  k <> "vcs" -> k <> "vcs/commits" ->
  files w1 !! k = files w !! k.
Proof.
  intros H Hv Hc. revert H. unfold compareWithLastCommit. mrun.
  assert (Hlast : forall wa ra, getLastCommitID w = (wa, ra) ->
                                files wa !! k = files w !! k).
  { intros wa ra. unfold getLastCommitID. mrun.
    destruct (IsNotExist _); mrun.
    - destruct (MkdirAll _ _) as [fs1|e] eqn:Hmk; mrun.
      + cbn [files]. destruct (ReadFile fs1 _); mrun; intros H; injection H as <- _;
          cbn [files]; now apply (MkdirAll_store_keys _ _ _ Hmk).
      + intros H; now injection H as <- _.
    - destruct (ReadFile _ _); mrun; intros H; now injection H as <- _. }
  destruct (getLastCommitID w) as [wa ra] eqn:Hl.
  specialize (Hlast wa ra eq_refl).
  destruct ra as [id|]; [|intros H; now injection H as <- _].
  destruct (String.eqb id ""); mrun; [intros H; now injection H as <- _ |].
  destruct (ReadFile _ _); mrun; [|intros H; now injection H as <- _].
  intros H. apply hasChanges_world in H as ->. exact Hlast.
Qed.

Lemma compareWithLastCommit_grows (w w1 : World) (r : option bool) :
  compareWithLastCommit w = (w1, r) -> grows (files w) (files w1).
Proof.
  unfold compareWithLastCommit. mrun.
  assert (Hlast : forall wa ra, getLastCommitID w = (wa, ra) ->
                                grows (files w) (files wa)).
  { intros wa ra. unfold getLastCommitID. mrun.
    destruct (IsNotExist _); mrun.
    - destruct (MkdirAll _ _) as [fs1|e] eqn:Hmk; mrun.
      + cbn [files]. destruct (ReadFile fs1 _); mrun; intros H; injection H as <- _;
          cbn [files]; now apply mkdirAll_grows in Hmk.
      + intros H; injection H as <- _. apply grows_refl.
    - destruct (ReadFile _ _); mrun; intros H; injection H as <- _;
        apply grows_refl. }
  destruct (getLastCommitID w) as [wa ra] eqn:Hl.
  specialize (Hlast wa ra eq_refl).
  destruct ra as [id|]; [|intros H; now injection H as <- _].
  destruct (String.eqb id ""); mrun; [intros H; now injection H as <- _ |].
  destruct (ReadFile _ _); mrun; [|intros H; now injection H as <- _].
  intros H. apply hasChanges_world in H as ->. exact Hlast.
Qed.

Lemma copyFilesToCommitDir_keys (d : string) (w w' : World) (r : option unit) (k : string) :
  copyFilesToCommitDir d w = (w', r) ->
  k <> "vcs" -> k <> "vcs/commits" ->
  (forall p, In p (Strings.Split (indexBefore w) nl) -> p <> "" ->
             k <> key (destinationOf d p)) ->
  files w' !! k = files w !! k.
Proof.
  intros H Hv Hc Hdest. revert H. unfold copyFilesToCommitDir. mrun.
  unfold indexBefore in Hdest.
  destruct (IsNotExist (Stat (files w) commitDir)); mrun.
  - destruct (MkdirAll (files w) commitDir) as [fs1|e] eqn:Hmk; mrun;
      [|intros H; now injection H as <- _].
    cbn [files stdout].
    pose proof (MkdirAll_store_keys _ _ k Hmk Hv Hc) as Hk.
    destruct (ReadFile fs1 indexFilePath) as [indexContent|e] eqn:Hidx; mrun;
      [|intros H; now injection H as <- _].
    apply (sameFiles_MkdirAll _ _ _ Hmk) in Hidx. rewrite Hidx in Hdest.
    intros H. rewrite <- Hk. now apply (copyEach_frame _ _ _ _ _ _ H).
  - destruct (ReadFile (files w) indexFilePath) as [indexContent|e]; mrun;
      [|intros H; now injection H as <- _].
    intros H. now apply (copyEach_frame _ _ _ _ _ _ H).
Qed.

Lemma handleCommit_steps (args : list string) (now : Z) (w w' : World) (indexContent : string) :
  ReadFile (files w) indexFilePath = Ok indexContent ->
  handleCommit args now w = (w', Some tt) ->
  stdout w' = stdout w +:+ "Changes are committed." +:+ nl ->
  indexContent <> ""
  /\ exists wb wc author,
       let c := mkCommit (hashContent (indexContent +:+ Fmt.Sprintd now)) author
                         (getMessageFromArgs args) in
       sameFiles (files w) (files wb)
       /\ ReadFile (files w) configPath = Ok author
       /\ IsNotExist (Stat (files wb) (commitDir +:+ "/" +:+ HashID c)) = false
       /\ copyFilesToCommitDir (commitDir +:+ "/" +:+ HashID c) wb = (wc, Some tt)
       /\ createLog c wc = (mkWorld (files w') (stdout wc), Some tt)
       /\ (forall k, k <> "vcs" -> k <> "vcs/commits" ->
                      k <> key (commitDir +:+ "/" +:+ HashID c) ->
                      files wb !! k = files w !! k)
       /\ (IsNotExist (Stat (files w) (commitDir +:+ "/" +:+ HashID c)) = true ->
           Stat (files wb) (commitDir +:+ "/" +:+ HashID c) = Ok Dir)
       /\ grows (files w) (files wb).
Proof.
  intros Hidx Hrun Hout. revert Hrun. unfold handleCommit.
  destruct (String.eqb (getMessageFromArgs args) "").
  { intros H. injection H as <-. cbn [stdout] in Hout.
    apply app_inv_head_s in Hout. discriminate. }
  mrun. rewrite isIndexEmpty_run.
  destruct (match Stat (files w) indexFilePath with Ok info => _ | Err _ => _ end).
  { mrun. intros H. injection H as <-. cbn [stdout] in Hout.
    apply app_inv_head_s in Hout. discriminate. }
  mrun. destruct (compareWithLastCommit w) as [wa ra] eqn:Hcmp.
  pose proof (fun k => compareWithLastCommit_keys _ _ _ k Hcmp) as Hka.
  pose proof (compareWithLastCommit_grows _ _ _ Hcmp) as Hga.
  apply compareWithLastCommit_files in Hcmp as [Hsa Hfa].
  destruct ra as [[|]|]; [| |discriminate].
  2:{ cbn [negb]. mrun. intros H. injection H as <-. cbn [stdout] in Hout.
      rewrite <- Hsa in Hout. apply app_inv_head_s in Hout. discriminate. }
  cbn [negb]. mrun. unfold createCommit at 1. mrun.
  destruct (Stat (files wa) indexFilePath); mrun; [|discriminate].
  unfold readConfig. mrun.
  destruct (ReadFile (files wa) configPath) as [author|] eqn:Hcfg; mrun; [|discriminate].
  unfold createId. mrun.
  pose proof (proj2 (Hfa indexFilePath indexContent) Hidx) as Hidxa.
  rewrite Hidxa.
  destruct (String.eqb_spec indexContent "") as [|Hne]; mrun; [discriminate |].
  cbn [Author Message].
  destruct (createCommitDir _ wa) as [wb rb] eqn:Hdir.
  pose proof Hdir as Hdir'. pose proof Hdir as Hmade.
  pose proof (createCommitDir_grows _ _ _ _ Hdir) as Hgb.
  apply createCommitDir_files in Hdir as (Hsb & Hfb & Hpath).
  destruct rb as [[path|e]|]; mrun; try discriminate.
  apply createCommitDir_exists in Hdir'.
  specialize (Hpath path eq_refl). cbn [HashID] in Hpath. subst path.
  apply createCommitDir_made in Hmade as [Hkb Hdb]. cbn [HashID] in Hkb, Hdb.
  destruct (copyFilesToCommitDir _ wb) as [wc rc] eqn:Hcopy.
  destruct rc as [[]|]; [|discriminate].
  mrun.
  match goal with
  | |- context [createLog ?c wc] => destruct (createLog c wc) as [wd rd] eqn:Hlog
  end.
  destruct rd as [[]|]; [|discriminate].
  intros H. injection H as <-.
  split; [exact Hne |].
  exists wb, wc, author. cbn zeta. cbn [HashID].
  split; [eapply sameFiles_trans; eassumption |].
  split; [now apply Hfa |].
  split; [exact Hdir' |].
  split; [exact Hcopy |].
  split; [|split; [|split]].
  - rewrite Hlog. apply createLog_Ok in Hlog as (_ & Hs & _).
    cbn [files]. rewrite <- Hs. now rewrite eta_World.
  - intros k Hv Hc Hk. rewrite (Hkb k Hk). now apply Hka.
  - intros Hnone. apply Hdb.
    rewrite (proj2 (IsNotExist_grows (files w) (files wa) _ Hga)); [exact Hnone |].
    apply lookup_ext.
    apply Hka; rewrite key_snapshot by apply hashContent_simple; discriminate.
  - eapply grows_trans; eassumption.
Qed.

(** What a successful commit leaves behind. *)
Lemma handleCommit_result (args : list string) (now : Z) (w w' : World) (indexContent : string) :
  ReadFile (files w) indexFilePath = Ok indexContent ->
  handleCommit args now w = (w', Some tt) ->
  stdout w' = stdout w +:+ "Changes are committed." +:+ nl ->
  let id := hashContent (indexContent +:+ Fmt.Sprintd now) in
  exists author before,
    ReadFile (files w) configPath = Ok author
    /\ ReadFile (files w') logFilePath
       = Ok (logEntry (mkCommit id author (getMessageFromArgs args)) +:+ before)
    /\ IsNotExist (Stat (files w') commitDir) = false
    /\ IsNotExist (Stat (files w') (commitDir +:+ "/" +:+ id)) = false
    /\ getLastCommitID w' = (w', Some id).
Proof.
  intros Hidx Hrun Hout id.
  destruct (handleCommit_steps args now w w' indexContent Hidx Hrun Hout)
    as (_ & wb & wc & author & Hsame & Hcfg & Hdir & Hcopy & Hlog & _).
  cbn zeta in Hdir, Hcopy, Hlog. cbn [HashID] in Hdir, Hcopy. fold id in Hdir, Hcopy, Hlog.
  pose proof (fun p => createLog_existing _ _ _ _ p Hlog) as Hkeep.
  cbn [files] in Hkeep.
  apply createLog_Ok in Hlog as (_ & _ & Hread). cbn [files] in Hread.
  assert (Hstore : IsNotExist (Stat (files wc) commitDir) = false
                   /\ IsNotExist (Stat (files wc) (commitDir +:+ "/" +:+ id)) = false).
  { apply copyFilesToCommitDir_steps in Hcopy
      as [[? _]|(w0 & _ & Hmono & Hstore & [(? & _)|Hcopy])]; try discriminate.
    split.
    - exact (copyEach_existing _ _ _ _ _ _ Hcopy Hstore).
    - apply (copyEach_existing _ _ _ _ _ _ Hcopy).
      apply (proj1 (IsNotExist_grows _ _ _ Hmono)). exact Hdir. }
  destruct Hstore as [Hstore Hsnap].
  exists author, (logBefore wc).
  split; [exact Hcfg |]. split; [exact Hread |].
  split; [now apply Hkeep |]. split; [now apply Hkeep |].
  rewrite (getLastCommitID_run w' _ (Hkeep _ Hstore) Hread).
  rewrite logEntry_first_line by apply hashContent_noLF.
  cbn [HashID]. now rewrite TrimPrefix_app.
Qed.

(** X19.  After a run of [commit] that reports success, the
    identifier derived from the index and the clock is what
    [getLastCommitID] returns, and [findCommitById] finds a commit with
    that identifier, whatever the author and the message are. *)
Theorem commit_becomes_last (args : list string) (now : Z) (w w' : World) (indexContent : string) :
  ReadFile (files w) indexFilePath = Ok indexContent ->
  handleCommit args now w = (w', Some tt) ->
  stdout w' = stdout w +:+ "Changes are committed." +:+ nl ->
  let id := hashContent (indexContent +:+ Fmt.Sprintd now) in
  getLastCommitID w' = (w', Some id)
  /\ exists found,
       findCommitById id w' = (w', Some (Some found)) /\ HashID found = id.
Proof.
  intros Hidx Hrun Hout id.
  destruct (handleCommit_result args now w w' indexContent Hidx Hrun Hout)
    as (author & before & _ & Hlog & _ & Hsnap & Hlast).
  fold id in Hlog, Hsnap, Hlast.
  split; [exact Hlast |].
  destruct (findEntry_newest (mkCommit id author (getMessageFromArgs args)) before)
    as (found & Hfound & Hid); [apply hashContent_noLF |].
  cbn [HashID] in Hfound, Hid.
  exists found. split; [|exact Hid].
  unfold findCommitById. mrun.
  rewrite Join_commitDir by apply hashContent_simple.
  change ("vcs/commits/" +:+ id) with (commitDir +:+ "/" +:+ id).
  rewrite Hsnap. mrun. rewrite Hlog. mrun. now rewrite Hfound.
Qed.

(** X19, witness: the demonstration commit at clock 17. *)
Lemma commit_becomes_last_witness :
  let w' := fst (handleCommit ["first"] 17 demoStaged) in
  getLastCommitID w' = (w', Some (hashContent (("a.txt" +:+ nl) +:+ Fmt.Sprintd 17))).
Proof.
  intros w'.
  apply (commit_becomes_last ["first"] 17 demoStaged w' ("a.txt" +:+ nl)).
  - vm_compute; reflexivity.
  - vm_compute; reflexivity.
  - vm_compute; reflexivity.
Defined.

(** What a successful commit stored for a staged file of the working
    directory. *)
Lemma handleCommit_stored (args : list string) (now : Z) (w w' : World)
      (indexContent p : string) :
  ReadFile (files w) indexFilePath = Ok indexContent ->
  flatIndex indexContent = true ->
  handleCommit args now w = (w', Some tt) ->
  stdout w' = stdout w +:+ "Changes are committed." +:+ nl ->
  In p (Strings.Split indexContent nl) ->
  p <> "" ->
  exists data,
    ReadFile (files w) p = Ok data
    /\ ReadFile (files w')
         ("vcs/commits/" +:+ hashContent (indexContent +:+ Fmt.Sprintd now)
          +:+ "/" +:+ p)
       = Ok data.
Proof.
  intros Hidx Hflat Hrun Hout Hp Hpn.
  set (id := hashContent (indexContent +:+ Fmt.Sprintd now)).
  assert (Hid : simpleName id = true) by apply hashContent_simple.
  destruct (handleCommit_steps args now w w' indexContent Hidx Hrun Hout)
    as (_ & wb & wc & author & Hsame & _ & _ & Hcopy & Hlog & _).
  cbn zeta in Hcopy, Hlog. cbn [HashID] in Hcopy. fold id in Hcopy, Hlog.
  pose proof (flat_member _ _ Hflat Hp Hpn) as Hps.
  destruct (flat_destination id p Hid Hps) as (Hd & Hk & _).
  pose proof (proj2 (Hsame indexFilePath indexContent) Hidx) as Hidxb.
  destruct (copyFilesToCommitDir_layout wb wc _ indexContent p Hidxb Hcopy Hp Hpn)
    as ((data & Hdata) & Hcontent & _).
  fold (destinationOf (commitDir +:+ "/" +:+ id) p) in Hdata, Hcontent.
  specialize (Hcontent (flat_apart _ _ Hflat Hid) (flat_owned _ _ _ Hflat Hid Hps)).
  rewrite Hcontent in Hdata.
  exists data. split; [now apply Hsame |].
  pose proof (createLog_frame _ _ _ _ (destinationOf (commitDir +:+ "/" +:+ id) p) Hlog)
    as Hkeep.
  cbn [files] in Hkeep. rewrite <- Hd, Hkeep.
  - now rewrite Hcontent.
  - rewrite Hd, Hk. discriminate.
Qed.

(** X20.  A commit right after a commit is rejected.  When every line
    of the index is empty or a simple file name and [commit] has
    reported success, a second [commit] with a non-empty message, at any
    clock, prints "Nothing to commit." and changes no file. *)
Theorem commit_twice (args args2 : list string) (now now2 : Z) (w w' : World)
        (indexContent : string) :
  ReadFile (files w) indexFilePath = Ok indexContent ->
  flatIndex indexContent = true ->
  handleCommit args now w = (w', Some tt) ->
  stdout w' = stdout w +:+ "Changes are committed." +:+ nl ->
  getMessageFromArgs args2 <> "" ->
  handleCommit args2 now2 w'
  = (mkWorld (files w') (stdout w' +:+ "Nothing to commit." +:+ nl), Some tt).
Proof.
  intros Hidx Hflat Hrun Hout Hmsg.
  set (id := hashContent (indexContent +:+ Fmt.Sprintd now)).
  assert (Hid : simpleName id = true) by apply hashContent_simple.
  assert (Hb : indexBefore w = indexContent) by (unfold indexBefore; now rewrite Hidx).
  (* what the commit left alone *)
  assert (Hframe : forall x, noChar "/" (key x) = true ->
            forall data, ReadFile (files w') x = Ok data <-> ReadFile (files w) x = Ok data).
  { intros x Hx. apply (handleCommit_frame args now w w' (Some tt) x Hrun).
    - intros E. rewrite E in Hx. discriminate.
    - rewrite Hb. fold id. intros p Hp Hpn E.
      destruct (flat_destination id p Hid (flat_member _ _ Hflat Hp Hpn)) as (Hd & Hk & _).
      rewrite Hd, Hk in E. rewrite E, noChar_app in Hx.
      change (noChar "/" "vcs/commits/") with false in Hx. discriminate. }
  assert (Hidx' : ReadFile (files w') indexFilePath = Ok indexContent).
  { apply (handleCommit_frame args now w w' (Some tt) indexFilePath Hrun); [discriminate | |exact Hidx].
    rewrite Hb. fold id. intros p Hp Hpn E.
    destruct (flat_destination id p Hid (flat_member _ _ Hflat Hp Hpn)) as (Hd & Hk & _).
    rewrite Hd, Hk in E. discriminate E. }
  (* what it stored *)
  destruct (handleCommit_steps args now w w' indexContent Hidx Hrun Hout) as (Hne & _).
  destruct (handleCommit_result args now w w' indexContent Hidx Hrun Hout)
    as (_ & _ & _ & _ & _ & _ & Hlast).
  fold id in Hlast.
  assert (Hpre : forall p, In p (Strings.Split indexContent nl) /\ p <> "" ->
            Strings.HasPrefix p "vcs/" = false).
  { intros p [Hp Hpn]. apply simpleName_not_vcs.
    now apply (flat_member indexContent). }
  assert (Hstored : forall p, In p (Strings.Split indexContent nl) /\ p <> "" ->
            sameDigest (files w') id p).
  { intros p [Hp Hpn].
    pose proof (flat_member _ _ Hflat Hp Hpn) as Hps.
    destruct (flat_destination id p Hid Hps) as (Hl & _).
    destruct (handleCommit_stored args now w w' indexContent p Hidx Hflat Hrun Hout Hp Hpn)
      as (data & Hwork & Hsnap).
    fold id in Hsnap.
    exists data, data. split; [|reflexivity]. split.
    - unfold storedCopyOf. now rewrite Hl.
    - apply Hframe; [|exact Hwork].
      unfold key. rewrite (Clean_name p Hps).
      now apply simpleName_inv in Hps. }
  destruct (hasChanges_total (Strings.Split indexContent nl) id w' Hpre) as (b & Hb').
  { intros p Hp. destruct (Hstored p Hp) as (s & c & Hr & _). right. eauto. }
  pose proof (proj2 (hasChanges_false _ _ _ _ Hpre Hb') Hstored) as ->.
  unfold handleCommit. apply String.eqb_neq in Hmsg. rewrite Hmsg.
  mrun. rewrite isIndexEmpty_run, (ReadFile_Stat _ _ _ Hidx'), Size_zero.
  apply String.eqb_neq in Hne. rewrite Hne. mrun.
  unfold compareWithLastCommit. mrun. rewrite Hlast. mrun.
  assert (Hidn : String.eqb id "" = false).
  { apply String.eqb_neq. intros E. pose proof (hashContent_length (indexContent +:+ Fmt.Sprintd now)) as Hl.
    fold id in Hl. rewrite E in Hl. discriminate. }
  rewrite Hidn. mrun. rewrite Hidx'. mrun. rewrite Hb'. reflexivity.
Qed.

(** X20, witness: a second commit at clock 18. *)
Lemma commit_twice_witness :
  let w' := fst (handleCommit ["first"] 17 demoStaged) in
  handleCommit ["again"] 18 w'
  = (mkWorld (files w') (stdout w' +:+ "Nothing to commit." +:+ nl), Some tt).
Proof.
  intros w'.
  apply (commit_twice ["first"] ["again"] 17 18 demoStaged w' ("a.txt" +:+ nl)).
  - vm_compute; reflexivity.
  - vm_compute; reflexivity.
  - vm_compute; reflexivity.
  - vm_compute; reflexivity.
  - vm_compute; discriminate.
Defined.

(** X21.  Once [createLog] has written the entry of a commit whose
    identifier has no line feed and whose snapshot directory exists,
    [findCommitById] with that identifier returns a commit with that
    identifier, whatever the author, the message and the older entries
    are. *)
Theorem logged_commit_found (c : Commit) (w w' : World) :
  noChar LF (HashID c) = true ->
  IsNotExist (Stat (files w) (Filepath.Join [commitDir; HashID c])) = false ->
  createLog c w = (w', Some tt) ->
  exists found,
    findCommitById (HashID c) w' = (w', Some (Some found))
    /\ HashID found = HashID c.
Proof.
  intros Hid Hdir Hlog.
  pose proof (createLog_existing _ _ _ _ _ Hlog Hdir) as Hdir'.
  apply createLog_Ok in Hlog as (_ & _ & Hread).
  destruct (findEntry_newest c (logBefore w) Hid) as (found & Hfound & Hsame).
  exists found. split; [|exact Hsame].
  unfold findCommitById. mrun. rewrite Hdir'. mrun. rewrite Hread. mrun.
  now rewrite Hfound.
Qed.

(** X21, witness: a message that looks like log lines. *)
Lemma logged_commit_found_witness :
  let c := mkCommit "abc" "alice" ("Author: bob" +:+ nl +:+ nl +:+ "commit xyz") in
  let w := mkWorld (<["vcs/commits/abc" := Dir]>
                    (<["vcs/commits" := Dir]> (<["vcs" := Dir]> ∅))) "" in
  exists found,
    findCommitById "abc" (fst (createLog c w)) = (fst (createLog c w), Some (Some found))
    /\ HashID found = "abc".
Proof.
  intros c w.
  apply (logged_commit_found c w (fst (createLog c w))).
  - reflexivity.
  - vm_compute; reflexivity.
  - vm_compute; reflexivity.
Defined.

Lemma Stat_Dir_insert (fs : FS) (path p data : string) :
  path <> "" ->
  lookup fs path <> Some Dir ->
  Stat fs p = Ok Dir ->
  Stat (<[key path := File data]> fs) p = Ok Dir.
Proof.
  intros Hpath Hlook. rewrite !Stat_Ok_lookup. unfold lookup in *.
  apply String.eqb_neq in Hpath. rewrite Hpath in Hlook.
  destruct (String.eqb p ""); [trivial |].
  destruct (alwaysDir (key p)) eqn:Ha; [trivial |].
  destruct (decide (key path = key p)) as [E|E].
  - rewrite E, Ha in Hlook. intros H. congruence.
  - now rewrite lookup_insert_ne.
Qed.

Lemma WriteFile_keeps_dir (fs fs' : FS) (path data p : string) :
  WriteFile fs path data = Ok fs' -> Stat fs p = Ok Dir -> Stat fs' p = Ok Dir.
Proof.
  intros Hw Hp.
  assert (Hpath : path <> "" /\ lookup fs path <> Some Dir).
  { revert Hw. unfold WriteFile, parentCheck.
    destruct (String.eqb_spec path "") as [->|Hne]; [discriminate |].
    split; [assumption |]. intros E. now rewrite E in Hw. }
  apply WriteFile_Ok in Hw as [-> _].
  now apply Stat_Dir_insert.
Qed.

Lemma copyFile_keeps_dir (src dst p : string) (w w' : World) (r : option (result unit)) :
  copyFile src dst w = (w', r) ->
  Stat (files w) p = Ok Dir -> Stat (files w') p = Ok Dir.
Proof.
  intros H Hp. revert H. unfold copyFile. mrun.
  destruct (Stat (files w) src); [|intros H; now injection H as <- _].
  mrun. unfold Create.
  destruct (WriteFile (files w) dst "") as [fs1|e] eqn:Hc;
    [|intros H; now injection H as <- _].
  pose proof (WriteFile_keeps_dir _ _ _ _ p Hc Hp) as Hp1.
  assert (Hdst : dst <> "").
  { intros ->. discriminate. }
  apply WriteFile_Ok in Hc as [Hfs1 Hr1].
  mrun. cbn [files stdout].
  destruct (ReadFile _ src) as [data|e]; mrun; cbn [files stdout];
    intros H; injection H as <- _; cbn [files]; [|assumption].
  apply Stat_Dir_insert; try assumption.
  unfold ReadFile in Hr1. destruct (lookup fs1 dst) as [[|]|]; congruence.
Qed.

Lemma copyEach_keeps_dir (ps : list string) (d p : string) (w w' : World) (r : option unit) :
  copyEach ps d w = (w', r) ->
  Stat (files w) p = Ok Dir -> Stat (files w') p = Ok Dir.
Proof.
  revert w. induction ps as [|q rest IH]; intros w; cbn [copyEach].
  - intros H; now injection H as <- _.
  - destruct (String.eqb q ""); [apply IH |]. mrun.
    destruct (copyFile _ _ w) as [w1 r1] eqn:H1.
    intros H Hp. apply (copyFile_keeps_dir _ _ p _ _ _ H1) in Hp.
    destruct r1 as [[[]|e]|].
    + now apply (IH w1).
    + now injection H as <- _.
    + now injection H as <- _.
Qed.

Lemma lastElem_Join (e : string) (es : list string) :
  Forall (fun x => noChar "/" x = true) (e :: es) ->
  Filepath.lastElem (Strings.Join (e :: es) "/") = List.last (e :: es) "".
Proof. intros H. unfold Filepath.lastElem. now rewrite split1_Join. Qed.

Lemma entries_member (fs : FS) (d k : string) (n : node) :
  fs !! k = Some n -> isEntry d k = true -> In (Filepath.lastElem k) (entries fs d).
Proof.
  intros Hk He. apply list_elem_of_In. unfold entries.
  rewrite merge_sort_Permutation.
  apply list_elem_of_fmap. exists k. split; [reflexivity |].
  apply list_elem_of_filter. split; [exact He |].
  apply list_elem_of_fmap. exists (k, n). split; [reflexivity |].
  now apply elem_of_map_to_list.
Qed.

Lemma Dir_snapshot (id : string) :
  simpleName id = true -> Filepath.Dir ("vcs/commits/" +:+ id) = "vcs/commits".
Proof.
  intros Hid. pose proof (simpleName_inv _ Hid) as (_ & _ & _ & Hslash).
  unfold Filepath.Dir.
  change ("vcs/commits/" +:+ id) with ("vcs/commits" +:+ ("/" ::: id)).
  rewrite dirPrefix_app by exact Hslash.
  change "vcs/commits" with (Strings.Join ["vcs"; "commits"] "/").
  apply Clean_trailing. repeat constructor.
Qed.

(** Where the snapshot directory is looked up. *)
Lemma lookup_snapshot (fs : FS) (id : string) :
  simpleName id = true ->
  lookup fs (commitDir +:+ "/" +:+ id) = fs !! ("vcs/commits/" +:+ id).
Proof.
  intros Hid. pose proof (simpleName_inv _ Hid) as (_ & _ & Hdd & Hslash).
  assert (Hlast : Filepath.lastElem ("vcs/commits/" +:+ id) = id).
  { change ("vcs/commits/" +:+ id) with (Strings.Join ["vcs"; "commits"; id] "/").
    rewrite lastElem_Join; [reflexivity |]. repeat constructor. exact Hslash. }
  unfold lookup. rewrite key_snapshot by exact Hid.
  change (String.eqb (commitDir +:+ "/" +:+ id) "") with false. cbv iota.
  unfold alwaysDir. rewrite Hlast.
  apply String.eqb_neq in Hdd. rewrite Hdd.
  change (String.eqb ("vcs/commits/" +:+ id) ".") with false.
  change (String.eqb ("vcs/commits/" +:+ id) "/") with false.
  reflexivity.
Qed.

(** The snapshot directory is an entry of the commit store. *)
Lemma ReadDir_store (fs : FS) (id : string) :
  simpleName id = true ->
  Stat fs commitDir = Ok Dir ->
  IsNotExist (Stat fs (commitDir +:+ "/" +:+ id)) = false ->
  exists name names, ReadDir fs commitDir = Ok (name :: names).
Proof.
  intros Hid Hstore Hsnap.
  pose proof (simpleName_inv _ Hid) as (_ & _ & Hdd & Hslash).
  assert (Hfree : Forall (fun x => noChar "/" x = true) ["vcs"; "commits"; id]).
  { repeat constructor. exact Hslash. }
  assert (Hkey : key (commitDir +:+ "/" +:+ id) = "vcs/commits/" +:+ id).
  { unfold key. change (commitDir +:+ "/" +:+ id) with (Strings.Join ["vcs"; "commits"; id] "/").
    apply Clean_simple. repeat constructor. exact Hid. }
  assert (Hlast : Filepath.lastElem ("vcs/commits/" +:+ id) = id).
  { change ("vcs/commits/" +:+ id) with (Strings.Join ["vcs"; "commits"; id] "/").
    now rewrite lastElem_Join. }
  assert (Hnode : exists n, fs !! ("vcs/commits/" +:+ id) = Some n).
  { destruct (fs !! ("vcs/commits/" +:+ id)) as [n|] eqn:Hn; [eauto |]. exfalso.
    rewrite Stat_missing_child in Hsnap; [discriminate | |].
    - now rewrite lookup_snapshot.
    - rewrite Hkey, Dir_snapshot by exact Hid. now apply Stat_Ok_lookup. }
  destruct Hnode as (n & Hn).
  assert (He : isEntry (key commitDir) ("vcs/commits/" +:+ id) = true).
  { unfold isEntry. rewrite Hlast. cbv zeta. rewrite Hid. cbn [andb].
    change (key commitDir) with commitDir.
    rewrite Join_commitDir by exact Hid. apply String.eqb_refl. }
  pose proof (entries_member fs (key commitDir) _ n Hn He) as Hin.
  unfold ReadDir. unfold Stat in Hstore.
  destruct (lookup fs commitDir) as [[|]|]; try discriminate.
  destruct (entries fs (key commitDir)) as [|name names]; [destruct Hin | eauto].
Qed.

(** X22.  After a run of [commit] that reports success (vcs/commits
    being a directory or missing when it starts), [log] prints the whole
    log and a line feed, and the log starts with the entry of the new
    commit: its identifier, the user of vcs/config.txt and the trimmed
    message. *)
Theorem log_after_commit (args : list string) (now : Z) (w w' : World) (indexContent : string) :
  ReadFile (files w) indexFilePath = Ok indexContent ->
  handleCommit args now w = (w', Some tt) ->
  stdout w' = stdout w +:+ "Changes are committed." +:+ nl ->
  Stat (files w) commitDir = Ok Dir
  \/ IsNotExist (Stat (files w) commitDir) = true ->
  exists author before,
    ReadFile (files w) configPath = Ok author
    /\ handleLog [] w'
       = (mkWorld (files w')
            (stdout w'
             +:+ (logEntry (mkCommit (hashContent (indexContent +:+ Fmt.Sprintd now))
                                     author (getMessageFromArgs args))
                  +:+ before) +:+ nl),
          Some tt).
Proof.
  intros Hidx Hrun Hout Hstore.
  set (id := hashContent (indexContent +:+ Fmt.Sprintd now)).
  destruct (handleCommit_result args now w w' indexContent Hidx Hrun Hout)
    as (author & before & Hcfg & Hread & _ & Hsnap & _).
  fold id in Hread, Hsnap.
  destruct (handleCommit_steps args now w w' indexContent Hidx Hrun Hout)
    as (_ & wb & wc & author0 & Hsame & _ & _ & Hcopy & Hlog & _ & _ & Hgb).
  cbn zeta in Hcopy, Hlog. cbn [HashID] in Hcopy. fold id in Hcopy, Hlog.
  assert (Hdir : Stat (files w') commitDir = Ok Dir).
  { apply copyFilesToCommitDir_steps in Hcopy
      as [[? _]|(w0 & Hs0 & Hg0 & Hex & [(? & _)|Hcopy])]; try discriminate.
    pose proof (grows_trans _ _ _ Hgb Hg0) as Hg.
    assert (H0 : Stat (files w0) commitDir = Ok Dir).
    { destruct (lookup_grows _ _ commitDir Hg) as [E|(_ & E & _)];
        [|now apply Stat_Ok_lookup].
      destruct Hstore as [Hstore|Hstore].
      - apply Stat_Ok_lookup. rewrite E. now apply Stat_Ok_lookup.
      - exfalso.
        assert (Heq : Stat (files w0) commitDir = Stat (files w) commitDir).
        { unfold Stat. now rewrite E, (belowFile_grows _ _ _ _ Hg). }
        rewrite Heq, Hstore in Hex. discriminate. }
    apply (copyEach_keeps_dir _ _ commitDir _ _ _ Hcopy) in H0.
    revert Hlog. unfold createLog. mrun.
    destruct (isErr _ && negb _); mrun; [discriminate |].
    destruct (WriteFile _ _ _) as [fs'|e] eqn:Hw; mrun; [|discriminate].
    intros H. injection H as <-.
    now apply (WriteFile_keeps_dir _ _ _ _ commitDir Hw). }
  destruct (ReadDir_store (files w') id) as (name & names & Hls);
    [apply hashContent_simple | assumption | assumption |].
  exists author, before. split; [exact Hcfg |].
  unfold handleLog, readCommits. mrun. rewrite Hls. mrun. rewrite Hread. reflexivity.
Qed.

(** X22, witness: the demonstration commit at clock 17. *)
Lemma log_after_commit_witness :
  exists author before,
    ReadFile (files demoStaged) configPath = Ok author
    /\ handleLog [] (fst (handleCommit ["first"] 17 demoStaged))
       = (mkWorld (files (fst (handleCommit ["first"] 17 demoStaged)))
            (stdout (fst (handleCommit ["first"] 17 demoStaged))
             +:+ (logEntry (mkCommit (hashContent (("a.txt" +:+ nl) +:+ Fmt.Sprintd 17))
                                     author (getMessageFromArgs ["first"]))
                  +:+ before) +:+ nl),
          Some tt).
Proof.
  apply (log_after_commit ["first"] 17 demoStaged _ ("a.txt" +:+ nl)).
  - vm_compute; reflexivity.
  - vm_compute; reflexivity.
  - vm_compute; reflexivity.
  - right. vm_compute; reflexivity.
Defined.

(** X23.  [log] changes no file.  With any argument it prints
    "Too many arguments."; without argument, when vcs/commits cannot be
    listed or is empty, it prints "No commits yet.". *)
Theorem log_reads_only (args : list string) (w w' : World) (r : option unit) :
  handleLog args w = (w', r) ->
  files w' = files w
  /\ (args <> [] -> r = Some tt /\ stdout w' = stdout w +:+ "Too many arguments." +:+ nl)
  /\ (args = [] ->
      (isErr (ReadDir (files w) commitDir) = true \/ ReadDir (files w) commitDir = Ok []) ->
      r = Some tt /\ stdout w' = stdout w +:+ "No commits yet." +:+ nl).
Proof.
  destruct args as [|a rest]; cbn [handleLog].
  - unfold readCommits. mrun.
    destruct (ReadDir (files w) commitDir) as [[|name names]|e] eqn:Hls.
    + intros H. injection H as <- <-. cbn [files stdout].
      split; [reflexivity |]. split; [congruence | auto].
    + mrun. destruct (ReadFile _ _); intros H; injection H as <- <-;
        (split; [reflexivity |]); (split; [congruence |]);
        intros _ [E|E]; discriminate.
    + intros H. injection H as <- <-. cbn [files stdout].
      split; [reflexivity |]. split; [congruence | auto].
  - intros H. injection H as <- <-. cbn [files stdout].
    split; [reflexivity |]. split; [auto | discriminate].
Qed.

(** X23, witness: no commit store in the demonstration directory. *)
Lemma log_reads_only_witness :
  stdout (fst (handleLog [] demoStart)) = stdout demoStart +:+ "No commits yet." +:+ nl.
Proof.
  destruct (log_reads_only [] demoStart (fst (handleLog [] demoStart))
              (snd (handleLog [] demoStart))) as (_ & _ & H).
  - now destruct (handleLog [] demoStart).
  - apply H; [reflexivity |]. left. vm_compute; reflexivity.
Defined.

(** *** Commit, edit, checkout *)

Lemma entries_inv (fs : FS) (d name : string) :
  In name (entries fs d) ->
  simpleName name = true /\ exists n, fs !! Filepath.Join [d; name] = Some n.
Proof.
  intros H. apply list_elem_of_In in H. unfold entries in H.
  rewrite merge_sort_Permutation in H.
  apply list_elem_of_fmap in H as (k & -> & Hk).
  apply list_elem_of_filter in Hk as [He Hk].
  apply list_elem_of_fmap in Hk as ([k' n] & -> & Hk).
  apply elem_of_map_to_list in Hk. cbn [fst] in *.
  unfold isEntry in He. apply andb_prop in He as [Hs He].
  apply String.eqb_eq in He.
  split; [exact Hs |]. exists n. now rewrite He.
Qed.

Lemma mkdirAll_keeps_dir (fuel : nat) (fs fs' : FS) (path p : string) :
  mkdirAll fuel fs path = Ok fs' -> Stat fs p = Ok Dir -> Stat fs' p = Ok Dir.
Proof.
  intros H. rewrite !Stat_Ok_lookup. intros Hp.
  destruct (lookup_grows fs fs' p (mkdirAll_grows _ _ _ _ H))
    as [-> | (_ & E & _)]; assumption.
Qed.

Lemma copyFilesToCommitDir_keeps_dir (d p : string) (w w' : World) (r : option unit) :
  copyFilesToCommitDir d w = (w', r) ->
  Stat (files w) p = Ok Dir -> Stat (files w') p = Ok Dir.
Proof.
  intros H Hp. revert H. unfold copyFilesToCommitDir. mrun.
  destruct (IsNotExist (Stat (files w) commitDir)); mrun.
  - destruct (MkdirAll (files w) commitDir) as [fs1|e] eqn:Hmk; mrun;
      [|intros H; now injection H as <- _].
    cbn [files stdout].
    apply (mkdirAll_keeps_dir _ _ _ _ p Hmk) in Hp.
    destruct (ReadFile fs1 indexFilePath); mrun; [|intros H; now injection H as <- _].
    intros H. now apply (copyEach_keeps_dir _ _ p _ _ _ H).
  - destruct (ReadFile (files w) indexFilePath); mrun;
      [|intros H; now injection H as <- _].
    intros H. now apply (copyEach_keeps_dir _ _ p _ _ _ H).
Qed.

Lemma createLog_keeps_dir (c : Commit) (p : string) (w w' : World) (r : option unit) :
  createLog c w = (w', r) ->
  Stat (files w) p = Ok Dir -> Stat (files w') p = Ok Dir.
Proof.
  unfold createLog. mrun.
  destruct (isErr _ && negb _); mrun; [intros H; now injection H as <- _ |].
  destruct (WriteFile _ _ _) as [fs'|e] eqn:Hw; mrun.
  - intros H. injection H as <- _. cbn [files].
    now apply (WriteFile_keeps_dir _ _ _ _ p Hw).
  - intros H; now injection H as <- _.
Qed.

(** The entries of the file system that a successful commit may have
    changed. *)
Lemma handleCommit_keys (args : list string) (now : Z) (w w' : World)
      (indexContent k : string) :
  ReadFile (files w) indexFilePath = Ok indexContent ->
  handleCommit args now w = (w', Some tt) ->
  stdout w' = stdout w +:+ "Changes are committed." +:+ nl ->
  let snapshot := commitDir +:+ "/" +:+ hashContent (indexContent +:+ Fmt.Sprintd now) in
  k <> "vcs" -> k <> "vcs/commits" -> k <> key snapshot -> k <> key logFilePath ->
  (forall p, In p (Strings.Split indexContent nl) -> p <> "" ->
             k <> key (destinationOf snapshot p)) ->
  files w' !! k = files w !! k.
Proof.
  intros Hidx Hrun Hout snapshot Hv Hc Hs Hl Hdest.
  destruct (handleCommit_steps args now w w' indexContent Hidx Hrun Hout)
    as (_ & wb & wc & author & Hsame & _ & _ & Hcopy & Hlog & Hkeys & _).
  cbn zeta in Hcopy, Hlog, Hkeys. cbn [HashID] in Hcopy, Hkeys.
  fold snapshot in Hcopy, Hkeys.
  apply createLog_Ok in Hlog as (Hfiles & _). cbn [files] in Hfiles.
  rewrite Hfiles, lookup_insert_ne by congruence.
  rewrite <- (Hkeys k Hv Hc Hs).
  apply (copyFilesToCommitDir_keys _ _ _ _ k Hcopy Hv Hc).
  assert (Hb : indexBefore wb = indexContent).
  { unfold indexBefore. now rewrite (proj2 (Hsame indexFilePath indexContent) Hidx). }
  now rewrite Hb.
Qed.

Lemma handleCommit_snapshot (args : list string) (now : Z) (w w' : World)
      (indexContent : string) :
  ReadFile (files w) indexFilePath = Ok indexContent ->
  handleCommit args now w = (w', Some tt) ->
  stdout w' = stdout w +:+ "Changes are committed." +:+ nl ->
  let snapshot := commitDir +:+ "/" +:+ hashContent (indexContent +:+ Fmt.Sprintd now) in
  IsNotExist (Stat (files w) snapshot) = true ->
  Stat (files w') snapshot = Ok Dir.
Proof.
  intros Hidx Hrun Hout snapshot Hnone.
  destruct (handleCommit_steps args now w w' indexContent Hidx Hrun Hout)
    as (_ & wb & wc & author & _ & _ & _ & Hcopy & Hlog & _ & Hdir & _).
  cbn zeta in Hcopy, Hlog, Hdir. cbn [HashID] in Hcopy, Hdir.
  fold snapshot in Hcopy, Hdir.
  specialize (Hdir Hnone).
  apply (copyFilesToCommitDir_keeps_dir _ snapshot _ _ _ Hcopy) in Hdir.
  apply (createLog_keeps_dir _ snapshot _ _ _ Hlog) in Hdir. exact Hdir.
Qed.

(** X24.  Commit, edit, check out.  Let every line of the index be
    empty or a simple file name, let [commit] report success, and let
    [os.Stat] have reported the path of the new snapshot directory
    missing, and nothing have been directly below it, before.  In any
    later world that has the store as
    the commit left it (the entries whose path has a "/"), whatever
    happened to the files of the working directory itself, as long as no
    staged name is a directory, [checkout] of the new identifier reports
    "Switched to commit <id>.", leaves in every staged file the bytes
    it had when it was committed, and changes no other entry of the file
    system. *)
Theorem commit_then_checkout (args : list string) (now : Z) (w w' w2 : World)
        (indexContent : string) :
  ReadFile (files w) indexFilePath = Ok indexContent ->
  flatIndex indexContent = true ->
  handleCommit args now w = (w', Some tt) ->
  stdout w' = stdout w +:+ "Changes are committed." +:+ nl ->
  let id := hashContent (indexContent +:+ Fmt.Sprintd now) in
  let snapshot := "vcs/commits/" +:+ id in
  IsNotExist (Stat (files w) snapshot) = true ->
  (forall name, simpleName name = true ->
                files w !! (snapshot +:+ "/" +:+ name) = None) ->
  (forall k, noChar "/" k = false -> files w2 !! k = files w' !! k) ->
  (forall p, stagedIn indexContent p -> Stat (files w2) p <> Ok Dir) ->
  exists w3,
    switchCommit id w2 = (w3, Some tt)
    /\ stdout w3 = stdout w2 +:+ "Switched to commit " +:+ id +:+ "." +:+ nl
    /\ (forall p, stagedIn indexContent p ->
          exists data,
            ReadFile (files w) p = Ok data /\ ReadFile (files w3) p = Ok data)
    /\ (forall k, ~ stagedIn indexContent k -> files w3 !! k = files w2 !! k).
Proof.
  intros Hidx Hflat Hrun Hout id snapshot Hfresh Hbelow Hstore Hnodir.
  assert (Hid : simpleName id = true) by apply hashContent_simple.
  assert (Hjoin : Filepath.Join [commitDir; id] = snapshot) by now apply Join_commitDir.
  assert (Hks : key snapshot = snapshot).
  { change snapshot with (commitDir +:+ "/" +:+ id) at 1. now apply key_snapshot. }
  assert (Hslash : noChar "/" snapshot = false) by reflexivity.
  assert (Hstoredkey : forall n, simpleName n = true ->
            Filepath.Join [snapshot; n] = snapshot +:+ "/" +:+ n
            /\ key (snapshot +:+ "/" +:+ n) = snapshot +:+ "/" +:+ n
            /\ noChar "/" (snapshot +:+ "/" +:+ n) = false).
  { intros n Hn. destruct (Join_snapshot id n Hid Hn) as [Hj Hk].
    split; [exact Hj |]. split; [now rewrite Hj in Hk |].
    unfold snapshot. rewrite noChar_app. reflexivity. }
  (* the snapshot directory *)
  assert (Hdir' : Stat (files w') snapshot = Ok Dir).
  { apply (handleCommit_snapshot args now w w' indexContent Hidx Hrun Hout).
    exact Hfresh. }
  assert (Hdir2 : Stat (files w2) snapshot = Ok Dir).
  { apply Stat_Ok_lookup. apply Stat_Ok_lookup in Hdir'. rewrite <- Hdir'.
    apply lookup_ext. rewrite Hks. now apply Hstore. }
  (* the log *)
  destruct (handleCommit_result args now w w' indexContent Hidx Hrun Hout)
    as (author & before & _ & Hlog & _).
  fold id in Hlog.
  assert (Hlog2 : ReadFile (files w2) logFilePath
                  = Ok (logEntry (mkCommit id author (getMessageFromArgs args)) +:+ before)).
  { rewrite <- Hlog. apply ReadFile_ext. now apply Hstore. }
  destruct (findEntry_newest (mkCommit id author (getMessageFromArgs args)) before)
    as (found & Hfound & _); [apply hashContent_noLF |].
  cbn [HashID] in Hfound.
  (* the entries of the snapshot *)
  set (names := entries (files w2) (key snapshot)).
  assert (Hls : ReadDir (files w2) snapshot = Ok names).
  { unfold ReadDir. unfold Stat in Hdir2.
    destruct (lookup (files w2) snapshot) as [[|]|]; try discriminate.
    reflexivity. }
  assert (Hstaged : forall p, stagedIn indexContent p ->
            simpleName p = true
            /\ exists data,
                 ReadFile (files w) p = Ok data
                 /\ ReadFile (files w2) (Filepath.Join [snapshot; p]) = Ok data).
  { intros p [Hp Hpn].
    pose proof (flat_member _ _ Hflat Hp Hpn) as Hps.
    split; [exact Hps |].
    destruct (handleCommit_stored args now w w' indexContent p Hidx Hflat Hrun Hout Hp Hpn)
      as (data & Hwork & Hsnap).
    fold id in Hsnap.
    change ("vcs/commits/" +:+ id +:+ "/" +:+ p) with (snapshot +:+ "/" +:+ p) in Hsnap.
    destruct (Hstoredkey p Hps) as (Hj & Hk & Hsl).
    exists data. split; [exact Hwork |].
    rewrite Hj, <- Hsnap. apply ReadFile_ext. rewrite Hk. now apply Hstore. }
  assert (Hentries : forall n, In n names -> stagedIn indexContent n).
  { intros n Hn. apply entries_inv in Hn as (Hns & nd & Hnd).
    rewrite Hks in Hnd. destruct (Hstoredkey n Hns) as (Hj & Hk & Hsl).
    rewrite Hj, (Hstore _ Hsl) in Hnd.
    pose proof (simpleName_inv _ Hns) as (Hnn & _).
    destruct (in_dec string_dec n (Strings.Split indexContent nl)) as [Hin|Hout'];
      [now split |].
    exfalso.
    rewrite (handleCommit_keys args now w w' indexContent _ Hidx Hrun Hout) in Hnd.
    - now rewrite (Hbelow n Hns) in Hnd.
    - discriminate.
    - discriminate.
    - change (commitDir +:+ "/" +:+ hashContent (indexContent +:+ Fmt.Sprintd now))
        with snapshot.
      rewrite Hks. intros E. symmetry in E. apply app_self_inv in E. discriminate.
    - discriminate.
    - change (commitDir +:+ "/" +:+ hashContent (indexContent +:+ Fmt.Sprintd now))
        with snapshot.
      intros p Hp Hpn E.
      destruct (flat_destination id p Hid (flat_member _ _ Hflat Hp Hpn)) as (Hd & Hkp & _).
      change (commitDir +:+ "/" +:+ id) with snapshot in Hd.
      rewrite Hd, Hkp in E.
      change ("vcs/commits/" +:+ id +:+ "/" +:+ p) with (snapshot +:+ "/" +:+ p) in E.
      do 2 apply app_inv_head_s in E. congruence. }
  assert (Hmember : forall p, stagedIn indexContent p -> In p names).
  { intros p Hp. destruct (Hstaged p Hp) as (Hps & data & _ & Hr).
    destruct (Hstoredkey p Hps) as (Hj & Hk & Hsl).
    rewrite Hj in Hr. apply ReadFile_Ok_iff in Hr as (_ & _ & Hr). rewrite Hk in Hr.
    assert (Hlast : Filepath.lastElem (snapshot +:+ "/" +:+ p) = p).
    { change (snapshot +:+ "/" +:+ p)
        with (Strings.Join ["vcs"; "commits"; id; p] "/").
      rewrite lastElem_Join; [reflexivity |].
      repeat constructor; now apply simpleName_inv. }
    rewrite <- Hlast at 1. apply (entries_member _ _ _ (File data) Hr).
    unfold isEntry. rewrite Hlast. cbv zeta. rewrite Hps, Hks, Hj.
    apply String.eqb_refl. }
  (* the copies *)
  assert (Hsimple : forall n, In n names -> simpleName n = true).
  { intros n Hn. now apply Hentries, Hstaged in Hn. }
  assert (Hdisj : forall n m, In n names -> In m names ->
                    n <> key (Filepath.Join [snapshot; m])).
  { intros n m Hn Hm E. apply Hsimple in Hn, Hm.
    destruct (Hstoredkey m Hm) as (Hj & Hk & Hsl). rewrite Hj, Hk in E.
    apply simpleName_inv in Hn as (_ & _ & _ & Hn). congruence. }
  destruct (restoreEach_total names snapshot w2 Hsimple Hdisj) as (fs' & Hrest).
  { intros n Hn. apply Hentries in Hn. split; [|now apply Hnodir].
    destruct (Hstaged n Hn) as (_ & data & _ & Hr). eauto. }
  exists (mkWorld fs' (stdout w2 +:+ "Switched to commit " +:+ id +:+ "." +:+ nl)).
  split; [|split; [reflexivity | split]].
  - unfold switchCommit, findCommitById. mrun. rewrite Hjoin, Hdir2. cbn [IsNotExist].
    mrun. rewrite Hlog2. mrun. rewrite Hfound. mrun. rewrite Hls. mrun.
    rewrite Hrest. reflexivity.
  - intros p Hp. destruct (Hstaged p Hp) as (Hps & data & Hwork & Hr).
    exists data. split; [exact Hwork |].
    destruct (restoreEach_Ok names snapshot w2 _ Hrest Hsimple Hdisj p (Hmember p Hp))
      as (data' & Hsrc & Hdst).
    cbn [files] in Hdst |- *. rewrite (Join_dot p Hps) in Hdst. congruence.
  - intros k Hk. cbn [files].
    apply (restoreEach_frame names snapshot w2 _ _ k Hrest).
    intros n Hn E. apply Hk. rewrite E, key_name by now apply Hsimple.
    now apply Hentries.
Qed.

(** X24, witness: a.txt edited after the demonstration commit, then checked out. *)
Lemma commit_then_checkout_witness :
  let w' := fst (handleCommit ["first"] 17 demoStaged) in
  let id := hashContent (("a.txt" +:+ nl) +:+ Fmt.Sprintd 17) in
  let w2 := mkWorld (<["a.txt" := File "hello world"]> (files w')) (stdout w') in
  exists w3,
    switchCommit id w2 = (w3, Some tt)
    /\ exists data,
         ReadFile (files demoStaged) "a.txt" = Ok data
         /\ ReadFile (files w3) "a.txt" = Ok data.
Proof.
  intros w' id w2.
  destruct (commit_then_checkout ["first"] 17 demoStaged w' w2 ("a.txt" +:+ nl))
    as (w3 & Hrun & _ & Hback & _).
  - vm_compute; reflexivity.
  - vm_compute; reflexivity.
  - vm_compute; reflexivity.
  - vm_compute; reflexivity.
  - vm_compute; reflexivity.
  - intros name _.
    assert (Hf : files demoStaged
                 = <["vcs/index.txt" := File ("a.txt" +:+ nl)]>
                     (<["vcs/config.txt" := File "alice"]>
                        (<["vcs" := Dir]> (<["a.txt" := File "hello"]> ∅))))
      by (vm_compute; reflexivity).
    rewrite Hf, !lookup_insert_ne by discriminate. apply lookup_empty.
  - intros k Hk. subst w2. cbn [files].
    apply lookup_insert_ne. intros <-. discriminate.
  - intros p [Hp _]. vm_compute in Hp. destruct Hp as [<-|[<-|[]]];
      vm_compute; discriminate.
  - exists w3. split; [exact Hrun |]. apply Hback. split; [now left | discriminate].
Defined.
